(** * Sale lifecycle and review workflow: a shallow embedding

    The development follows the TypeScript sources of the sales-intake
    application:

    - [App] follows the application shell backed by the remote store
      (permission registry: [DEFAULT_PERMISSIONS], [initApp],
      [updateRolePermissions], [hasPermission]);
    - [Store] is the remote record store the pages talk to;
    - [Manager] follows pages/ManagerDashboard.tsx (remote store);
    - [LocalManager] follows the manager dashboard kept in the browser's
      localStorage (regression alerts, [notifiedRegressions]);
    - [Seller] follows pages/SellerDashboard.tsx (autosave, submission,
      draft deletion).

    JavaScript strings are sequences of UTF-16 code units; they are modelled
    as [list N], one number per code unit.  [undefined] and [null] are both
    [None]. *)

From Stdlib Require Import Sorting.Sorted.
From stdpp Require Import gmap list strings.

Open Scope N_scope.

(** ** JavaScript strings *)

Module Js.

Abbreviation jsstring := (list N).

(** A literal written with ASCII characters only. *)
Fixpoint lit (s : string) : jsstring :=
  match s with
  | EmptyString => []
  | String c s' => Ascii.N_of_ascii c :: lit s'
  end.

(** [!!s] for a string: the empty string is the only falsy one. *)
Definition truthy (s : jsstring) : bool :=
  match s with [] => false | _ :: _ => true end.

(** [!!o] for an optional string. *)
Definition truthyO (o : option jsstring) : bool :=
  match o with Some s => truthy s | None => false end.

(** [a || b] on strings. *)
Definition orElse (a : option jsstring) (b : jsstring) : jsstring :=
  match a with
  | Some s => if truthy s then s else b
  | None => b
  end.

(** WhiteSpace and LineTerminator code units, the ones
    [String.prototype.trim] strips. *)
Definition isWhiteSpace (c : N) : bool :=
  (c =? 0x9) || (c =? 0xA) || (c =? 0xB) || (c =? 0xC) || (c =? 0xD)
  || (c =? 0x20) || (c =? 0xA0) || (c =? 0x1680)
  || ((0x2000 <=? c) && (c <=? 0x200A))
  || (c =? 0x2028) || (c =? 0x2029) || (c =? 0x202F) || (c =? 0x205F)
  || (c =? 0x3000) || (c =? 0xFEFF).

Fixpoint trimStart (s : jsstring) : jsstring :=
  match s with
  | [] => []
  | c :: s' => if isWhiteSpace c then trimStart s' else s
  end.

Definition trimEnd (s : jsstring) : jsstring := rev (trimStart (rev s)).

Definition trim (s : jsstring) : jsstring := trimEnd (trimStart s).

(** [s.startsWith(p)] *)
Fixpoint startsWith (p s : jsstring) : bool :=
  match p, s with
  | [], _ => true
  | _ :: _, [] => false
  | a :: p', b :: s' => (a =? b) && startsWith p' s'
  end.

End Js.
Import Js.

(** ** Enumerations of types.ts *)

(** Modelled from the spec: types.ts is not among the sources.  The roles of
    the data model, under the names the sources use. *)
Inductive UserRole := ADMIN | MANAGER | SELLER.

(** Modelled from the spec: types.ts is not among the sources.  The four
    states of the lifecycle, under the names the sources use. *)
Inductive SaleStatus := DRAFT | IN_PROGRESS | ANALYZED | FINISHED.

(** Modelled from the spec: types.ts is not among the sources.  The members
    of [AppPermission] are the capabilities of the data model (view own
    records, view all records, approve records, access the admin panel,
    view the dashboard) under the names by which the sources refer to them,
    together with [CREATE_SALES], which the default table grants to
    sellers. *)
Inductive AppPermission :=
| VIEW_OWN_SALES
| CREATE_SALES
| VIEW_ALL_SALES
| APPROVE_SALES
| ACCESS_ADMIN_PANEL
| VIEW_DASHBOARD.

#[export] Instance UserRole_eq_dec : EqDecision UserRole.
Proof. solve_decision. Defined.
#[export] Instance SaleStatus_eq_dec : EqDecision SaleStatus.
Proof. solve_decision. Defined.
#[export] Instance AppPermission_eq_dec : EqDecision AppPermission.
Proof. solve_decision. Defined.

Definition UserRole_to_nat (r : UserRole) : nat :=
  match r with ADMIN => 0 | MANAGER => 1 | SELLER => 2 end.
Definition UserRole_of_nat (n : nat) : option UserRole :=
  match n with
  | O => Some ADMIN
  | S O => Some MANAGER
  | S (S O) => Some SELLER
  | _ => None
  end.
#[export] Instance UserRole_countable : Countable UserRole.
Proof.
  apply (inj_countable UserRole_to_nat UserRole_of_nat).
  intros []; reflexivity.
Defined.

(** [Object.values(AppPermission)] *)
Definition AppPermission_values : list AppPermission :=
  [VIEW_OWN_SALES; CREATE_SALES; VIEW_ALL_SALES; APPROVE_SALES;
   ACCESS_ADMIN_PANEL; VIEW_DASHBOARD].

(** [a === b] on statuses. *)
Definition status_eqb (a b : SaleStatus) : bool := bool_decide (a = b).

(** ** Records of types.ts

    The fields are those of the object literals the sources build for each
    type. *)

Module User.
Record t := mk {
  id : jsstring;
  name : jsstring;
  email : jsstring;
  role : UserRole;
  confirmed : bool;
  createdAt : jsstring
}.
End User.

Module Entry.
(** [StatusHistoryEntry] *)
Record t := mk {
  status : SaleStatus;
  updatedBy : jsstring;
  updatedAt : jsstring;
  reason : option jsstring
}.
End Entry.

Module CustomerData.
Record t := mk {
  nome : jsstring; cpf : jsstring; data_nascimento : jsstring;
  nome_mae : jsstring; contato : jsstring; email : jsstring;
  rua : jsstring; numero : jsstring; complemento : jsstring;
  bairro : jsstring; cidade : jsstring; estado : jsstring;
  cep : jsstring; plano : jsstring; vencimento_dia : Z;
  anotacoes : jsstring; audio_url : jsstring;
  foto_frente_url : jsstring; foto_verso_url : jsstring;
  foto_ctps_url : jsstring; foto_comprovante_residencia_url : jsstring
}.

(** [initialCustomerData] of the seller page. *)
Definition initial : t :=
  mk [] [] [] [] [] [] [] [] [] [] [] [] [] [] 10%Z [] [] [] [] [] [].
End CustomerData.

Module Sale.
Record t := mk {
  id : jsstring;
  sellerId : jsstring;
  sellerName : jsstring;
  customerData : CustomerData.t;
  status : SaleStatus;
  statusHistory : option (list Entry.t);
  createdAt : jsstring;
  returnReason : option jsstring
}.

(** [sale.statusHistory || []] *)
Definition history (s : t) : list Entry.t := default [] (statusHistory s).
End Sale.

(** Toasts.  The texts are the literals of the sources; the two templates
    carry their arguments. *)
Inductive Message :=
| PermissaoInsuficiente        (* "Permissão insuficiente." *)
| JustificativaObrigatoria     (* "Justificativa detalhada obrigatória." and
                                  its longer wording in the localStorage page *)
| VendaAtualizada (id : jsstring) (s : SaleStatus)
                               (* "Venda #... atualizada para ..." and
                                  "Status da venda #... atualizado para ..." *)
| ErroAtualizarBanco           (* "Erro ao atualizar banco." *)
| AlertaRegressao (id : jsstring)
                               (* "ALERTA: A venda #... retornou para análise
                                  após aprovação prévia!" *)
| CamposPendentes              (* "Campos obrigatórios pendentes ou inválidos." *)
| FichaEnviada                 (* "Ficha enviada com sucesso!" *)
| ErroEnviarFicha              (* "Erro ao enviar ficha." *)
| RascunhoExcluido.            (* "Rascunho excluído." *)

Inductive Severity := info | success | warning.

Definition Notification : Type := Message * Severity.

(** ** Application shell: the permission registry *)

Module App.

Abbreviation RolePermissionsMap := (gmap UserRole (list AppPermission)).

Definition DEFAULT_PERMISSIONS : RolePermissionsMap :=
  {[ ADMIN := AppPermission_values;
     MANAGER := [VIEW_ALL_SALES; APPROVE_SALES; VIEW_DASHBOARD];
     SELLER := [VIEW_OWN_SALES; CREATE_SALES; VIEW_DASHBOARD] ]}.

(** A row of the remote [permissions] table. *)
Record PermRow := { role : UserRole; permissions : list AppPermission }.

(** The permission part of [initApp]: [permsData] is the result of
    [select('*')] on the [permissions] table, [None] when the request
    failed. *)
Definition initApp (permsData : option (list PermRow)) : RolePermissionsMap :=
  match permsData with
  | Some rows =>
      if (0 <? length rows)%nat
      then foldl (fun acc curr => <[role curr := permissions curr]> acc) ∅ rows
      else DEFAULT_PERMISSIONS
  | None => DEFAULT_PERMISSIONS
  end.

(** [{ ...permissions, [role]: newPerms }], the new session state of
    [updateRolePermissions]. *)
Definition updateRolePermissions
    (perms : RolePermissionsMap) (r : UserRole) (newPerms : list AppPermission)
  : RolePermissionsMap :=
  <[r := newPerms]> perms.

(** Modelled from the spec: the external store of the registry.  The
    request [updateRolePermissions] sends, [upsert] of one row on conflict
    of [role], replaces the row of that role or adds one. *)
Definition upsertPermRow (row : PermRow) (tbl : list PermRow) : list PermRow :=
  if existsb (fun x => bool_decide (role x = role row)) tbl
  then map (fun x => if bool_decide (role x = role row) then row else x) tbl
  else tbl ++ [row].

(** [permissions[role] || []] *)
Definition rolePermissions (perms : RolePermissionsMap) (r : UserRole)
  : list AppPermission :=
  default [] (perms !! r).

Record AuthState := { user : option User.t; isAuthenticated : bool }.

Definition hasPermission
    (auth : AuthState) (perms : RolePermissionsMap) (p : AppPermission) : bool :=
  match user auth with
  | None => false
  | Some u => bool_decide (p ∈ rolePermissions perms (User.role u))
  end.

End App.


(** ** The remote record store *)

Module Row.
(** A row of the [sales] table, with the column names the pages use. *)
Record t := mk {
  id : jsstring;
  seller_id : jsstring;
  seller_name : jsstring;
  customer_data : CustomerData.t;
  status : SaleStatus;
  status_history : option (list Entry.t);
  created_at : jsstring;
  return_reason : option jsstring
}.
End Row.

Module Updates.
(** The object [handleUpdateStatus] passes to [update]. *)
Record t := mk {
  status : SaleStatus;
  return_reason : option jsstring;
  status_history : list Entry.t
}.
End Updates.

Module Payload.
(** The object the seller page passes to [upsert].  [id] is [None] when the
    page supplies no identity; [return_reason] is [None] when the object has
    no such key and [Some None] when the key holds [null]. *)
Record t := mk {
  id : option jsstring;
  seller_id : jsstring;
  seller_name : jsstring;
  customer_data : CustomerData.t;
  status : SaleStatus;
  return_reason : option (option jsstring);
  status_history : list Entry.t;
  created_at : jsstring
}.
End Payload.

Module Store.

Abbreviation Table := (list Row.t).

(** The requests that change the table. *)
Inductive Write :=
| Update (id : jsstring) (u : Updates.t)
| Upsert (p : Payload.t)
| Delete (id : jsstring).

Section Adapter.

(** Timestamps are compared as instants: [getTime] is
    [new Date(s).getTime()]. *)
Variable getTime : jsstring -> Z.
(** The identity the store gives to a row inserted without one. *)
Variable newId : Table -> jsstring.

Fixpoint insertDesc {A} (key : A -> Z) (x : A) (l : list A) : list A :=
  match l with
  | [] => [x]
  | y :: l' => if (key y <=? key x)%Z then x :: l else y :: insertDesc key x l'
  end.

(** Stable sort, latest first. *)
Definition sortDesc {A} (key : A -> Z) (l : list A) : list A :=
  foldr (insertDesc key) [] l.

(** Modelled from the spec: the record store adapter (lib/supabase.ts is not
    among the sources).  The order of [list(filter)], latest creation
    first. *)
Definition order_created_at_desc (tbl : Table) : Table :=
  sortDesc (fun r => getTime (Row.created_at r)) tbl.

(** Modelled from the spec: the record store adapter.  [list] with the
    filter "status other than [s]". *)
Definition select_neq_status (s : SaleStatus) (tbl : Table) : Table :=
  order_created_at_desc (filter (fun r => Row.status r ≠ s) tbl).

(** Modelled from the spec: the record store adapter.  [list] with the
    filter "by seller id". *)
Definition select_eq_seller_id (uid : jsstring) (tbl : Table) : Table :=
  order_created_at_desc (filter (fun r => Row.seller_id r = uid) tbl).

Definition applyUpdates (u : Updates.t) (r : Row.t) : Row.t :=
  Row.mk (Row.id r) (Row.seller_id r) (Row.seller_name r) (Row.customer_data r)
         (Updates.status u) (Some (Updates.status_history u))
         (Row.created_at r) (Updates.return_reason u).

(** Modelled from the spec: the record store adapter.
    [update(id, partial fields)] overwrites the three columns of the rows
    with that [id]. *)
Definition update (i : jsstring) (u : Updates.t) (tbl : Table) : Table :=
  map (fun r => if bool_decide (Row.id r = i) then applyUpdates u r else r) tbl.

Definition applyPayload (p : Payload.t) (r : Row.t) : Row.t :=
  Row.mk (Row.id r) (Payload.seller_id p) (Payload.seller_name p)
         (Payload.customer_data p) (Payload.status p)
         (Some (Payload.status_history p)) (Payload.created_at p)
         (default (Row.return_reason r) (Payload.return_reason p)).

Definition rowOfPayload (i : jsstring) (p : Payload.t) : Row.t :=
  Row.mk i (Payload.seller_id p) (Payload.seller_name p)
         (Payload.customer_data p) (Payload.status p)
         (Some (Payload.status_history p)) (Payload.created_at p)
         (default None (Payload.return_reason p)).

Definition lookup (i : jsstring) (tbl : Table) : option Row.t :=
  List.find (fun r => bool_decide (Row.id r = i)) tbl.

(** Modelled from the spec: the record store adapter.  The create-or-update
    request: on a row of the same [id] it overwrites the columns the payload
    carries, otherwise it inserts a row, under a new identity when the
    payload has none.  The result is the new table and the row the request
    returns ([.select()]). *)
Definition upsert (p : Payload.t) (tbl : Table) : Table * Row.t :=
  match Payload.id p with
  | Some i =>
      match lookup i tbl with
      | Some r =>
          (map (fun x => if bool_decide (Row.id x = i) then applyPayload p x else x) tbl,
           applyPayload p r)
      | None => (tbl ++ [rowOfPayload i p], rowOfPayload i p)
      end
  | None => (tbl ++ [rowOfPayload (newId tbl) p], rowOfPayload (newId tbl) p)
  end.

(** Modelled from the spec: the record store adapter.  [delete(id)]. *)
Definition delete (i : jsstring) (tbl : Table) : Table :=
  filter (fun r => Row.id r ≠ i) tbl.

(** What a write does to the table once the store accepts it. *)
Definition apply (w : Write) (tbl : Table) : Table :=
  match w with
  | Update i u => update i u tbl
  | Upsert p => fst (upsert p tbl)
  | Delete i => delete i tbl
  end.

End Adapter.
End Store.

(** What a handler leaves behind: the page state, the table, the writes it
    sent to the store (accepted or not) and the toasts it raised. *)
Record Outcome (S : Type) := mkOutcome {
  state : S;
  table : Store.Table;
  writes : list Store.Write;
  toasts : list Notification
}.
Arguments mkOutcome {S}.
Arguments state {S}.
Arguments table {S}.
Arguments writes {S}.
Arguments toasts {S}.

(** [data.map(s => ({ id: s.id, sellerId: s.seller_id, ... }))] *)
Definition saleOfRow (s : Row.t) : Sale.t :=
  Sale.mk (Row.id s) (Row.seller_id s) (Row.seller_name s) (Row.customer_data s)
          (Row.status s) (Row.status_history s) (Row.created_at s)
          (Row.return_reason s).

(** [(a || b) && c] of the regression test, shared by both manager pages. *)
Definition isRegressionOf (current newStatus : SaleStatus) : bool :=
  (status_eqb current ANALYZED || status_eqb current FINISHED)
  && status_eqb newStatus IN_PROGRESS.

(** [!reason || reason.trim().length < 5] *)
Definition reasonMissing (reason : option jsstring) : bool :=
  match reason with
  | None => true
  | Some r => negb (truthy r) || (N.of_nat (length (trim r)) <? 5)
  end.

(** ** pages/ManagerDashboard.tsx *)

Module Manager.

Record State := mkState {
  sales : list Sale.t;
  selectedSale : option Sale.t;
  filterSellerId : jsstring;
  returnReason : jsstring;
  isLoading : bool
}.

(** What the handlers close over: the session of the application shell, the
    user read back from [nexus_auth], and the clock. *)
Record Ctx := mkCtx {
  auth : App.AuthState;
  permissions : App.RolePermissionsMap;
  currentUser : option User.t;
  now : jsstring
}.

Section Page.
Variable getTime : jsstring -> Z.

(** [selectOk] tells whether the store answered the query. *)
Definition loadAllSales (selectOk : bool) (tbl : Store.Table) (st : State) : State :=
  mkState
    (if selectOk
     then map saleOfRow (Store.select_neq_status getTime DRAFT tbl)
     else sales st)
    (selectedSale st) (filterSellerId st) (returnReason st) false.

(** [selectedSale?.id === id] *)
Definition isSelected (st : State) (i : jsstring) : bool :=
  match selectedSale st with
  | Some s => bool_decide (Sale.id s = i)
  | None => false
  end.

Definition newHistoryEntry
    (c : Ctx) (isRegression : bool) (newStatus : SaleStatus)
    (reason : option jsstring) : Entry.t :=
  Entry.mk newStatus
           (orElse (User.name <$> currentUser c) (lit "Sistema"))
           (now c)
           (if isRegression then reason else None).

Definition updates
    (c : Ctx) (saleToUpdate : Sale.t) (newStatus : SaleStatus)
    (reason : option jsstring) : Updates.t :=
  let isRegression := isRegressionOf (Sale.status saleToUpdate) newStatus in
  Updates.mk newStatus
             (if isRegression then reason else Sale.returnReason saleToUpdate)
             (Sale.history saleToUpdate
              ++ [newHistoryEntry c isRegression newStatus reason]).

Definition handleUpdateStatus
    (c : Ctx) (updateOk selectOk : bool) (st : State) (tbl : Store.Table)
    (id : jsstring) (newStatus : SaleStatus) (reason : option jsstring)
  : Outcome State :=
  if negb (App.hasPermission (auth c) (permissions c) APPROVE_SALES) then
    mkOutcome st tbl [] [(PermissaoInsuficiente, warning)]
  else
    match List.find (fun s => bool_decide (Sale.id s = id)) (sales st) with
    | None => mkOutcome st tbl [] []
    | Some saleToUpdate =>
        let isRegression := isRegressionOf (Sale.status saleToUpdate) newStatus in
        if isRegression && reasonMissing reason then
          mkOutcome st tbl [] [(JustificativaObrigatoria, warning)]
        else
          let updates := updates c saleToUpdate newStatus reason in
          if updateOk then
            let tbl' := Store.update id updates tbl in
            let st1 := loadAllSales selectOk tbl' st in
            mkOutcome
              (mkState (sales st1)
                       (if isSelected st id then None else selectedSale st)
                       (filterSellerId st) [] (isLoading st1))
              tbl' [Store.Update id updates]
              [(VendaAtualizada (take 5 id) newStatus, success)]
          else
            mkOutcome st tbl [Store.Update id updates]
                      [(ErroAtualizarBanco, warning)]
    end.

End Page.
End Manager.


(** ** The manager dashboard kept in localStorage *)

Module LocalManager.

(** The browser's localStorage, in the order [localStorage.key(i)]
    enumerates it.  A value is [Some l] when it parses to the array [l] of
    sales and [None] when [JSON.parse] or the use of its result as an array
    throws. *)
Abbreviation LocalStorage := (list (jsstring * option (list Sale.t))).

Definition getItem (k : jsstring) (ls : LocalStorage) : option (option (list Sale.t)) :=
  snd <$> List.find (fun kv => bool_decide (fst kv = k)) ls.

Definition setItem (k : jsstring) (v : list Sale.t) (ls : LocalStorage) : LocalStorage :=
  if existsb (fun kv => bool_decide (fst kv = k)) ls
  then map (fun kv => if bool_decide (fst kv = k) then (k, Some v) else kv) ls
  else ls ++ [(k, Some v)].

Record State := mkState {
  sales : list Sale.t;
  selectedSale : option Sale.t;
  filterSellerId : jsstring;
  returnReason : jsstring;
  regressions : list jsstring;
  notifiedRegressions : gset jsstring
}.

Record Ctx := mkCtx {
  auth : App.AuthState;
  permissions : App.RolePermissionsMap;
  currentUser : option User.t;
  now : jsstring
}.

(** The state a handler leaves, the storage, the [setItem] calls it made and
    its toasts; [Thrown] when an exception escapes the handler. *)
Record Outcome := mkOutcome {
  state : State;
  storage : LocalStorage;
  setItems : list (jsstring * list Sale.t);
  toasts : list Notification
}.

Inductive Result := Done (o : Outcome) | Thrown.

Section Page.
(** [new Date(s).getTime()]: [None] stands for NaN, the instant of a string
    that is no date. *)
Variable getTime : jsstring -> option Z.
(** [Array.prototype.sort] with a comparator that is not consistent leaves
    the array in an order of the engine's choosing: [engineOrder] is that
    order. *)
Variable engineOrder : list Sale.t -> list Sale.t.

(** The loop over [localStorage.key(i)]: the sales under every
    [nexus_sales_] key, values that fail to parse skipped. *)
Definition readAllSales (ls : LocalStorage) : list Sale.t :=
  concat (map (fun kv =>
                 if startsWith (lit "nexus_sales_") (fst kv)
                 then default [] (snd kv) else [])
              ls).

(** [history.some(h => h.status === ANALYZED || h.status === FINISHED)] *)
Definition hasBeenApproved (sale : Sale.t) : bool :=
  existsb (fun h => status_eqb (Entry.status h) ANALYZED
                    || status_eqb (Entry.status h) FINISHED)
          (Sale.history sale).

(** The accumulator of the [forEach]: [currentRegressions], the seen-set
    and the toasts raised so far. *)
Definition Scan : Type := list jsstring * gset jsstring * list Notification.

(** One iteration of the [forEach] over the sorted sales. *)
Definition scanSale (acc : Scan) (sale : Sale.t) : Scan :=
  let '(currentRegressions, seen, raised) := acc in
  if hasBeenApproved sale && status_eqb (Sale.status sale) IN_PROGRESS then
    if bool_decide (Sale.id sale ∈ seen) then
      (currentRegressions ++ [Sale.id sale], seen, raised)
    else
      (currentRegressions ++ [Sale.id sale], {[Sale.id sale]} ∪ seen,
       raised ++ [(AlertaRegressao (Sale.id sale), warning)])
  else acc.

(** [new Date(sale.createdAt).getTime()] is a number. *)
Definition isDate (sale : Sale.t) : bool :=
  match getTime (Sale.createdAt sale) with Some _ => true | None => false end.

(** [submittedSales.sort((a, b) => new Date(b.createdAt).getTime()
    - new Date(a.createdAt).getTime())].  When every creation time is a date
    the comparator is consistent and the sort, which is stable, puts the
    latest first.  A creation time that is no date makes the difference NaN,
    which the sort reads as zero: the comparator is no longer consistent and
    the order is the engine's. *)
Definition sortedSales (ls : LocalStorage) : list Sale.t :=
  let submittedSales := filter (fun s => Sale.status s ≠ DRAFT) (readAllSales ls) in
  if forallb isDate submittedSales
  then Store.sortDesc (fun s => default 0%Z (getTime (Sale.createdAt s))) submittedSales
  else engineOrder submittedSales.

(** The new state and the alerts raised. *)
Definition loadAllSales (ls : LocalStorage) (st : State) : State * list Notification :=
  let '(currentRegressions, seen, raised) :=
    foldl scanSale ([], notifiedRegressions st, []) (sortedSales ls) in
  (mkState (sortedSales ls) (selectedSale st) (filterSellerId st)
           (returnReason st) currentRegressions seen,
   raised).

Definition isSelected (st : State) (i : jsstring) : bool :=
  match selectedSale st with
  | Some s => bool_decide (Sale.id s = i)
  | None => false
  end.

Definition newHistoryEntry
    (c : Ctx) (isRegression : bool) (newStatus : SaleStatus)
    (reason : option jsstring) : Entry.t :=
  Entry.mk newStatus
           (orElse (User.name <$> currentUser c) (lit "Sistema"))
           (now c)
           (if isRegression then reason else None).

(** [{ ...saleToUpdate, status, returnReason, statusHistory }] *)
Definition updatedSale
    (c : Ctx) (saleToUpdate : Sale.t) (newStatus : SaleStatus)
    (reason : option jsstring) : Sale.t :=
  let isRegression := isRegressionOf (Sale.status saleToUpdate) newStatus in
  Sale.mk (Sale.id saleToUpdate) (Sale.sellerId saleToUpdate)
          (Sale.sellerName saleToUpdate) (Sale.customerData saleToUpdate)
          newStatus
          (Some (Sale.history saleToUpdate
                 ++ [newHistoryEntry c isRegression newStatus reason]))
          (Sale.createdAt saleToUpdate)
          (if isRegression then reason else Sale.returnReason saleToUpdate).

Definition storageKey (saleToUpdate : Sale.t) : jsstring :=
  lit "nexus_sales_" ++ Sale.sellerId saleToUpdate.

Definition updatedOwnerSales
    (id : jsstring) (updatedSale : Sale.t) (ownerSales : list Sale.t)
  : list Sale.t :=
  map (fun os => if bool_decide (Sale.id os = id) then updatedSale else os)
      ownerSales.

Definition handleUpdateStatus
    (c : Ctx) (st : State) (ls : LocalStorage)
    (id : jsstring) (newStatus : SaleStatus) (reason : option jsstring)
  : Result :=
  if negb (App.hasPermission (auth c) (permissions c) APPROVE_SALES) then
    Done (mkOutcome st ls [] [(PermissaoInsuficiente, warning)])
  else
    match List.find (fun s => bool_decide (Sale.id s = id)) (sales st) with
    | None => Done (mkOutcome st ls [] [])
    | Some saleToUpdate =>
        let isRegression := isRegressionOf (Sale.status saleToUpdate) newStatus in
        if isRegression && reasonMissing reason then
          Done (mkOutcome st ls [] [(JustificativaObrigatoria, warning)])
        else
          let updatedSale := updatedSale c saleToUpdate newStatus reason in
          let storageKey := storageKey saleToUpdate in
          match default (Some []) (getItem storageKey ls) with
          | None => Thrown
          | Some ownerSales =>
              let updatedOwnerSales := updatedOwnerSales id updatedSale ownerSales in
              let ls' := setItem storageKey updatedOwnerSales ls in
              let '(st1, alerts) := loadAllSales ls' st in
              Done (mkOutcome
                      (mkState (sales st1)
                               (if isSelected st id then None else selectedSale st)
                               (filterSellerId st) [] (regressions st1)
                               (notifiedRegressions st1))
                      ls' [(storageKey, updatedOwnerSales)]
                      (alerts ++ [(VendaAtualizada id newStatus, success)]))
          end
    end.

(** The state of a freshly mounted dashboard: the initial values of the
    [useState] calls and the empty set of the [useRef]. *)
Definition initialState : State := mkState [] None (lit "all") [] [] ∅.

(** Mounting the dashboard: the effect with the empty dependency list calls
    [loadAllSales] on the initial state. *)
Definition mount (ls : LocalStorage) : State * list Notification :=
  loadAllSales ls initialState.

(** The dashboard under the shell.  [PermissionRoute] is declared in the
    body of [App] (src/App.tsx, line 129), so every render of [App] makes a
    new component of it, and React replaces what the old one had rendered:
    the dashboard is unmounted and mounted again, with the state and the
    seen-set of a first mount, and its mount effect runs again.  [App]
    renders again whenever its state changes, and [notify] changes it
    ([setNotifications]): a mount that raises a toast is followed by another
    mount, a mount that raises none is the last.  [mounts n ls] is the
    toasts of the first [n] mounts over the storage [ls]. *)
Fixpoint mounts (n : nat) (ls : LocalStorage) : list Notification :=
  match n with
  | O => []
  | S n' =>
      match snd (mount ls) with
      | [] => []
      | raised => raised ++ mounts n' ls
      end
  end.

(** The sale ids a list of toasts alerts about. *)
Definition alertedIds (ns : list Notification) : list jsstring :=
  omap (fun n => match fst n with AlertaRegressao i => Some i | _ => None end) ns.

(** The toasts [raised] while the seen-set went from [seen] to [seen']
    alert about distinct sales, none of which was in [seen], and [seen'] is
    [seen] with those sales added. *)
Definition freshAlerts
    (seen : gset jsstring) (raised : list Notification) (seen' : gset jsstring)
  : Prop :=
  NoDup (alertedIds raised)
  /\ (forall i, i ∈ alertedIds raised -> i ∉ seen)
  /\ (forall i, i ∈ seen' <-> i ∈ seen \/ i ∈ alertedIds raised).

End Page.
End LocalManager.


(** ** pages/SellerDashboard.tsx *)

Module Seller.

(** Presentation-only state ([touched], [uploadingField], [isCepLoading],
    [viewingReturnReason]) is left out. *)
Record State := mkState {
  sales : list Sale.t;
  showModal : bool;
  editingSaleId : option jsstring;
  formData : CustomerData.t;
  isLoading : bool
}.

Section Page.
Variable getTime : jsstring -> Z.
Variable newId : Store.Table -> jsstring.

(** [sales.find(s => s.id === editingSaleId)] *)
Definition findEditing (st : State) : option Sale.t :=
  match editingSaleId st with
  | Some i => List.find (fun s => bool_decide (Sale.id s = i)) (sales st)
  | None => None
  end.

Definition isReadOnly (st : State) : bool :=
  if negb (truthyO (editingSaleId st)) then false
  else match findEditing st with
       | Some sale => status_eqb (Sale.status sale) FINISHED
       | None => false
       end.

Definition loadData (selectOk : bool) (user : User.t) (tbl : Store.Table) (st : State)
  : State :=
  mkState
    (if selectOk
     then map saleOfRow (Store.select_eq_seller_id getTime (User.id user) tbl)
     else sales st)
    (showModal st) (editingSaleId st) (formData st) false.

(** The state of a freshly mounted page: the initial values of the
    [useState] calls. *)
Definition initialState : State := mkState [] false None CustomerData.initial true.

(** Mounting the page: the effect calls [loadData] on the initial state. *)
Definition mount (selectOk : bool) (user : User.t) (tbl : Store.Table) : State :=
  loadData selectOk user tbl initialState.

(** [editingSaleId?.startsWith('TMP_') ? undefined : editingSaleId] *)
Definition autosaveId (editing : option jsstring) : option jsstring :=
  match editing with
  | Some i => if startsWith (lit "TMP_") i then None else Some i
  | None => None
  end.

Definition autosavePayload (user : User.t) (now : jsstring) (st : State) : Payload.t :=
  Payload.mk (autosaveId (editingSaleId st)) (User.id user) (User.name user)
             (formData st) DRAFT None
             [Entry.mk DRAFT (User.name user) now None]
             now.

(** The body of the autosave timer, run once the quiet window has passed.
    The effect arms the timer only while the modal is open on a sale that is
    not read-only. *)
Definition autosave
    (user : User.t) (now : jsstring) (upsertOk : bool)
    (st : State) (tbl : Store.Table)
  : Outcome State :=
  if negb (showModal st) || isReadOnly st then mkOutcome st tbl [] []
  else if truthy (CustomerData.nome (formData st))
          || truthy (CustomerData.cpf (formData st)) then
    let payload := autosavePayload user now st in
    if upsertOk then
      let '(tbl', row) := Store.upsert newId payload tbl in
      mkOutcome
        (mkState (sales st) (showModal st)
                 (if negb (truthyO (editingSaleId st)) then Some (Row.id row)
                  else editingSaleId st)
                 (formData st) (isLoading st))
        tbl' [Store.Upsert payload] []
    else mkOutcome st tbl [Store.Upsert payload] []
  else mkOutcome st tbl [] [].

(** [confirmed] is the answer to [window.confirm]. *)
Definition handleDeleteDraft
    (user : User.t) (confirmed deleteOk selectOk : bool)
    (st : State) (tbl : Store.Table) (draftId : jsstring)
  : Outcome State :=
  if confirmed then
    if deleteOk then
      let tbl' := Store.delete draftId tbl in
      let st1 := loadData selectOk user tbl' st in
      mkOutcome (mkState (sales st1) false None CustomerData.initial (isLoading st1))
                tbl' [Store.Delete draftId] [(RascunhoExcluido, info)]
    else mkOutcome st tbl [Store.Delete draftId] []
  else mkOutcome st tbl [] [].

(** The trash button of a row of the seller's table: [{isDraft && ...}]. *)
Definition deleteOffered (sale : Sale.t) : bool := status_eqb (Sale.status sale) DRAFT.

Definition submitPayload (user : User.t) (now : jsstring) (st : State) : Payload.t :=
  let existingSale := findEditing st in
  Payload.mk (editingSaleId st) (User.id user) (User.name user)
             (formData st) IN_PROGRESS (Some None)
             (default [] (Sale.history <$> existingSale)
              ++ [Entry.mk IN_PROGRESS (User.name user) now None])
             (orElse (Sale.createdAt <$> existingSale) now).

(** [isFormValid] is the flag the render computes from the field
    validators. *)
Definition handleCreateSale
    (user : User.t) (now : jsstring) (isFormValid upsertOk selectOk : bool)
    (st : State) (tbl : Store.Table)
  : Outcome State :=
  if isReadOnly st then mkOutcome st tbl [] []
  else if negb isFormValid then
    mkOutcome st tbl [] [(CamposPendentes, warning)]
  else
    let payload := submitPayload user now st in
    if upsertOk then
      let tbl' := fst (Store.upsert newId payload tbl) in
      let st1 := loadData selectOk user tbl' st in
      mkOutcome (mkState (sales st1) false None CustomerData.initial (isLoading st1))
                tbl' [Store.Upsert payload] [(FichaEnviada, success)]
    else mkOutcome st tbl [Store.Upsert payload] [(ErroEnviarFicha, warning)].

End Page.
End Seller.


(** ** Regular expressions

    The tests the pages make with regular expression literals, by
    derivatives.  A literal anchored with [^] and [$] and without flags
    accepts a string when the whole string matches. *)

Module Regex.

Inductive re :=
| Empty
| Eps
| Class (p : N -> bool)
| Seq (a b : re)
| Alt (a b : re)
| Plus (a : re).

Fixpoint nullable (r : re) : bool :=
  match r with
  | Empty => false
  | Eps => true
  | Class _ => false
  | Seq a b => nullable a && nullable b
  | Alt a b => nullable a || nullable b
  | Plus a => nullable a
  end.

Fixpoint deriv (c : N) (r : re) : re :=
  match r with
  | Empty => Empty
  | Eps => Empty
  | Class p => if p c then Eps else Empty
  | Seq a b =>
      if nullable a then Alt (Seq (deriv c a) b) (deriv c b)
      else Seq (deriv c a) b
  | Alt a b => Alt (deriv c a) (deriv c b)
  | Plus a => Seq (deriv c a) (Alt Eps (Plus a))
  end.

(** [/^r$/.test(s)] *)
Definition test (r : re) (s : jsstring) : bool :=
  nullable (foldl (fun r c => deriv c r) r s).

(** The strings a regular expression matches. *)
Inductive matches : re -> jsstring -> Prop :=
| MEps : matches Eps []
| MClass p c : p c = true -> matches (Class p) [c]
| MSeq a b s1 s2 : matches a s1 -> matches b s2 -> matches (Seq a b) (s1 ++ s2)
| MAltL a b s : matches a s -> matches (Alt a b) s
| MAltR a b s : matches b s -> matches (Alt a b) s
| MPlus1 a s : matches a s -> matches (Plus a) s
| MPlusS a s1 s2 : matches a s1 -> matches (Plus a) s2 -> matches (Plus a) (s1 ++ s2).

End Regex.

(** ** The form of the seller page *)

Module SellerForm.

(** [s.indexOf(c)], [None] for -1. *)
Fixpoint indexOf (c : N) (s : jsstring) : option nat :=
  match s with
  | [] => None
  | x :: s' => if x =? c then Some O else S <$> indexOf c s'
  end.

(** [s.lastIndexOf(c)], [None] for -1. *)
Fixpoint lastIndexOf (c : N) (s : jsstring) : option nat :=
  match s with
  | [] => None
  | x :: s' =>
      match lastIndexOf c s' with
      | Some i => Some (S i)
      | None => if x =? c then Some O else None
      end
  end.

(** [s.slice(a, b)] for [0 <= a <= b]. *)
Definition slice (a b : nat) (s : jsstring) : jsstring := take (b - a) (drop a s).

Definition slash : N := 47.
Definition underscore : N := 95.

Definition extractFilename (url : jsstring) : jsstring :=
  if negb (truthy url) then []
  else
    let fileNamePart :=
      match lastIndexOf slash url with
      | Some lastSlash => drop (S lastSlash) url
      | None => url
      end in
    match indexOf underscore fileNamePart with
    | Some firstUnderscore => drop (S firstUnderscore) fileNamePart
    | None => fileNamePart
    end.

(** The path [handleFileUpload] stores a file under:
    [`${user.id}/${Date.now()}_${file.name}`]. *)
Definition filePath (userId timestamp fileName : jsstring) : jsstring :=
  userId ++ [slash] ++ timestamp ++ [underscore] ++ fileName.

(** [\d] *)
Definition isDigit (c : N) : bool := (48 <=? c) && (c <=? 57).

(** [s.replace(/\D/g, '')] and [s.replace(/[^\d]/g, '')] *)
Definition digitsOf (s : jsstring) : jsstring := filter (fun c => isDigit c = true) s.

(** The telephone mask of [InputField], on the digits [v]. *)
Definition telFormat (v : jsstring) : jsstring :=
  if (length v =? 0)%nat then []
  else if (length v <=? 2)%nat then lit "(" ++ v
  else if (length v <=? 6)%nat then
    lit "(" ++ slice 0 2 v ++ lit ") " ++ drop 2 v
  else if (length v <=? 10)%nat then
    lit "(" ++ slice 0 2 v ++ lit ") " ++ slice 2 6 v ++ lit "-" ++ drop 6 v
  else
    lit "(" ++ slice 0 2 v ++ lit ") " ++ slice 2 7 v ++ lit "-" ++ drop 7 v.

Definition telMask (val : jsstring) : jsstring :=
  telFormat (slice 0 11 (digitsOf val)).

(** [handleChange] of an [InputField]: the value stored under the field,
    [None] when the field is disabled and nothing is stored.  [tel] tells
    whether the field has [type === 'tel']. *)
Definition handleChange (disabled tel : bool) (val : jsstring) : option jsstring :=
  if disabled then None
  else Some (if tel then telMask val else val).

(** [[^\s@]] *)
Definition notSpaceNorAt (c : N) : bool := negb (isWhiteSpace c) && negb (c =? 64).

(** [/^[^\s@]+@[^\s@]+\.[^\s@]+$/] *)
Definition emailRegex : Regex.re :=
  Regex.Seq (Regex.Plus (Regex.Class notSpaceNorAt))
    (Regex.Seq (Regex.Class (fun c => c =? 64))
       (Regex.Seq (Regex.Plus (Regex.Class notSpaceNorAt))
          (Regex.Seq (Regex.Class (fun c => c =? 46))
             (Regex.Plus (Regex.Class notSpaceNorAt))))).

(** The keys the [errors] object can have. *)
Inductive ErrorKey := err_nome | err_cpf | err_email | err_plano | err_cep | err_rua | err_numero.

#[export] Instance ErrorKey_eq_dec : EqDecision ErrorKey.
Proof. solve_decision. Defined.

Section Validators.
(** [cpfValidator.isValid] and [cnpjValidator.isValid] of the package
    cpf-cnpj-validator. *)
Variable cpfIsValid : jsstring -> bool.
Variable cnpjIsValid : jsstring -> bool.

(** [Object.keys(errors)] *)
Definition errors (isReadOnly : bool) (formData : CustomerData.t) : list ErrorKey :=
  if isReadOnly then []
  else
    let cleanDoc := digitsOf (CustomerData.cpf formData) in
    (if (length (trim (CustomerData.nome formData)) <=? 3)%nat then [err_nome] else [])
    ++ (if (length cleanDoc =? 11)%nat then
          if negb (cpfIsValid cleanDoc) then [err_cpf] else []
        else if (length cleanDoc =? 14)%nat then
          if negb (cnpjIsValid cleanDoc) then [err_cpf] else []
        else [])
    ++ (if truthy (CustomerData.email formData)
           && negb (Regex.test emailRegex (CustomerData.email formData))
        then [err_email] else [])
    ++ (if negb (truthy (CustomerData.plano formData)) then [err_plano] else [])
    ++ (if negb (truthy (CustomerData.cep formData)) then [err_cep] else [])
    ++ (if negb (truthy (CustomerData.rua formData)) then [err_rua] else [])
    ++ (if negb (truthy (CustomerData.numero formData)) then [err_numero] else []).

Definition isFormValid (isReadOnly : bool) (formData : CustomerData.t) : bool :=
  (length (errors isReadOnly formData) =? 0)%nat
  && truthy (CustomerData.nome formData)
  && truthy (CustomerData.cpf formData)
  && truthy (CustomerData.email formData)
  && truthy (CustomerData.plano formData)
  && truthy (CustomerData.audio_url formData)
  && truthy (CustomerData.cep formData)
  && truthy (CustomerData.rua formData)
  && truthy (CustomerData.numero formData).

(** The form's [onSubmit]: [handleCreateSale] with the [isFormValid] of the
    render. *)
Definition onSubmit
    (getTime : jsstring -> Z) (newId : Store.Table -> jsstring)
    (user : User.t) (now : jsstring) (upsertOk selectOk : bool)
    (st : Seller.State) (tbl : Store.Table) : Outcome Seller.State :=
  Seller.handleCreateSale getTime newId user now
    (isFormValid (Seller.isReadOnly st) (Seller.formData st))
    upsertOk selectOk st tbl.

End Validators.

(** What the address service answers for a CEP. *)
Record CepData := mkCepData {
  erro : bool;
  logradouro : jsstring;
  bairro : jsstring;
  localidade : jsstring;
  uf : jsstring;
  cep : jsstring
}.

(** [a || b] on two strings. *)
Definition orPrev (a prev : jsstring) : jsstring := if truthy a then a else prev.

Definition withAddress (data : CepData) (prev : CustomerData.t) : CustomerData.t :=
  CustomerData.mk
    (CustomerData.nome prev) (CustomerData.cpf prev)
    (CustomerData.data_nascimento prev) (CustomerData.nome_mae prev)
    (CustomerData.contato prev) (CustomerData.email prev)
    (orPrev (logradouro data) (CustomerData.rua prev))
    (CustomerData.numero prev) (CustomerData.complemento prev)
    (orPrev (bairro data) (CustomerData.bairro prev))
    (orPrev (localidade data) (CustomerData.cidade prev))
    (orPrev (uf data) (CustomerData.estado prev))
    (cep data)
    (CustomerData.plano prev) (CustomerData.vencimento_dia prev)
    (CustomerData.anotacoes prev) (CustomerData.audio_url prev)
    (CustomerData.foto_frente_url prev) (CustomerData.foto_verso_url prev)
    (CustomerData.foto_ctps_url prev)
    (CustomerData.foto_comprovante_residencia_url prev).

(** [handleCepLookup]: the form it leaves and the CEP it asked the address
    service about, if it asked.  [response] is what the service answers,
    [None] when the request or the decoding of its answer throws. *)
Definition handleCepLookup
    (isReadOnly : bool) (response : jsstring -> option CepData)
    (cep : jsstring) (formData : CustomerData.t)
  : CustomerData.t * option jsstring :=
  if isReadOnly then (formData, None)
  else
    let cleanCep := digitsOf cep in
    if negb (length cleanCep =? 8)%nat then (formData, None)
    else
      match response cleanCep with
      | Some data =>
          if negb (erro data) then (withAddress data formData, Some cleanCep)
          else (formData, Some cleanCep)
      | None => (formData, Some cleanCep)
      end.

Definition withCep (value : jsstring) (prev : CustomerData.t) : CustomerData.t :=
  CustomerData.mk
    (CustomerData.nome prev) (CustomerData.cpf prev)
    (CustomerData.data_nascimento prev) (CustomerData.nome_mae prev)
    (CustomerData.contato prev) (CustomerData.email prev)
    (CustomerData.rua prev)
    (CustomerData.numero prev) (CustomerData.complemento prev)
    (CustomerData.bairro prev) (CustomerData.cidade prev) (CustomerData.estado prev)
    value
    (CustomerData.plano prev) (CustomerData.vencimento_dia prev)
    (CustomerData.anotacoes prev) (CustomerData.audio_url prev)
    (CustomerData.foto_frente_url prev) (CustomerData.foto_verso_url prev)
    (CustomerData.foto_ctps_url prev)
    (CustomerData.foto_comprovante_residencia_url prev).

(** [onChange] of the CEP input: the typed value is stored, and the lookup
    runs when the value has exactly eight code units. *)
Definition onCepChange
    (isReadOnly : bool) (response : jsstring -> option CepData)
    (value : jsstring) (formData : CustomerData.t)
  : CustomerData.t * option jsstring :=
  let typed := withCep value formData in
  if (length value =? 8)%nat then handleCepLookup isReadOnly response value typed
  else (typed, None).

(** [setFormData(formData)], as the fields of the form call it. *)
Definition setFormData (formData : CustomerData.t) (st : Seller.State) : Seller.State :=
  Seller.mkState (Seller.sales st) (Seller.showModal st) (Seller.editingSaleId st)
                 formData (Seller.isLoading st).

Definition openNewModal (st : Seller.State) : Seller.State :=
  Seller.mkState (Seller.sales st) true None CustomerData.initial (Seller.isLoading st).

Definition openEditModal (sale : Sale.t) (st : Seller.State) : Seller.State :=
  Seller.mkState (Seller.sales st) true (Some (Sale.id sale)) (Sale.customerData sale)
                 (Seller.isLoading st).

End SellerForm.


(** ** The CSV export of pages/ManagerDashboard.tsx *)

Module CsvExport.

Definition filteredSales (st : Manager.State) : list Sale.t :=
  if bool_decide (Manager.filterSellerId st = lit "all") then Manager.sales st
  else filter (fun s => Sale.sellerId s = Manager.filterSellerId st) (Manager.sales st).

(** [l.join(sep)] *)
Fixpoint join (sep : jsstring) (l : list jsstring) : jsstring :=
  match l with
  | [] => []
  | x :: l' =>
      match l' with
      | [] => x
      | _ :: _ => x ++ sep ++ join sep l'
      end
  end.

Definition quote : N := 34.
Definition comma : N := 44.

(** The [replace] of the export: every double quote becomes two. *)
Definition doubleQuotes (s : jsstring) : jsstring :=
  flat_map (fun c => if c =? quote then [quote; quote] else [c]) s.

(** The cell a value becomes: the value, or the empty string for a falsy
    one, between double quotes, its own double quotes doubled. *)
Definition quoteCell (c : jsstring) : jsstring :=
  [quote] ++ doubleQuotes (orElse (Some c) []) ++ [quote].

Definition headers : list jsstring :=
  [lit "ID"; lit "Vendedor"; lit "Cliente"; lit "CPF/CNPJ"; lit "Email";
   lit "Telefone"; lit "Cidade"; lit "UF"; lit "Plano"; lit "Status"; lit "Data"].

Inductive Toast :=
| SemDados               (* "Sem dados.", a warning *)
| ExportacaoConcluida.   (* "Exportação concluída!", a success *)

(** The file handed to the browser. *)
Record Download := mkDownload { download : jsstring; content : jsstring }.

Section Page.
(** The text of a status (the value of the enumeration in types.ts) and
    [new Date(s).toLocaleDateString()]. *)
Variable statusText : SaleStatus -> jsstring.
Variable toLocaleDateString : jsstring -> jsstring.

Definition row (s : Sale.t) : list jsstring :=
  [Sale.id s; Sale.sellerName s;
   CustomerData.nome (Sale.customerData s); CustomerData.cpf (Sale.customerData s);
   CustomerData.email (Sale.customerData s); CustomerData.contato (Sale.customerData s);
   CustomerData.cidade (Sale.customerData s); CustomerData.estado (Sale.customerData s);
   CustomerData.plano (Sale.customerData s);
   statusText (Sale.status s); toLocaleDateString (Sale.createdAt s)].

Definition line (r : list jsstring) : jsstring := join [comma] (map quoteCell r).

Definition csvContent (sales : list Sale.t) : jsstring :=
  join [0xA] (join [comma] headers :: map (fun s => line (row s)) sales).

(** [now.split('T')[0]] *)
Definition datePart (now : jsstring) : jsstring :=
  match SellerForm.indexOf 84 now with
  | Some i => take i now
  | None => now
  end.

Definition handleExportCSV (now : jsstring) (st : Manager.State)
  : option Download * Toast :=
  if (length (filteredSales st) =? 0)%nat then (None, SemDados)
  else
    (Some (mkDownload (lit "nexus_vendas_" ++ datePart now ++ lit ".csv")
                      ([0xFEFF] ++ csvContent (filteredSales st))),
     ExportacaoConcluida).

End Page.

(** Reading a quoted cell back: the text up to the closing double quote,
    doubled double quotes undone, and what follows the closing quote.  [s]
    is the text after the opening quote. *)
Fixpoint unquote (s acc : jsstring) : option (jsstring * jsstring) :=
  match s with
  | [] => None
  | c :: s' =>
      if c =? quote then
        match s' with
        | d :: s'' => if d =? quote then unquote s'' (acc ++ [quote]) else Some (acc, s')
        | [] => Some (acc, [])
        end
      else unquote s' (acc ++ [c])
  end.

(** Reading a line of quoted cells back, at most [fuel] cells. *)
Fixpoint parseLine (fuel : nat) (s : jsstring) : option (list jsstring) :=
  match fuel with
  | O => None
  | S fuel' =>
      match s with
      | c :: s' =>
          if c =? quote then
            match unquote s' [] with
            | Some (cell, []) => Some [cell]
            | Some (cell, d :: rest) =>
                if d =? comma then cons cell <$> parseLine fuel' rest else None
            | None => None
            end
          else None
      | [] => None
      end
  end.

End CsvExport.

(** ** The indicators page *)

Module Insights.

(** Modelled from the spec: the record store adapter.  [list] with the
    filter "status other than DRAFT" and, for a seller, "by seller id", in
    the order of the table.  The query builder is mutable: [query.eq] adds
    its filter to the query it is called on. *)
Definition query (user : User.t) (tbl : Store.Table) : Store.Table :=
  let submitted := filter (fun r => Row.status r ≠ DRAFT) tbl in
  if bool_decide (User.role user = SELLER)
  then filter (fun r => Row.seller_id r = User.id user) submitted
  else submitted.

(** The sale the page builds from a row; it copies no return reason. *)
Definition saleOfRow (s : Row.t) : Sale.t :=
  Sale.mk (Row.id s) (Row.seller_id s) (Row.seller_name s) (Row.customer_data s)
          (Row.status s) (Row.status_history s) (Row.created_at s) None.

Definition loadData (selectOk : bool) (user : User.t) (tbl : Store.Table)
    (sales : list Sale.t) : list Sale.t :=
  if selectOk then map saleOfRow (query user tbl) else sales.

(** [sales.filter(s => s.status === st).length] *)
Definition countStatus (st : SaleStatus) (sales : list Sale.t) : nat :=
  length (filter (fun s => Sale.status s = st) sales).

(** [stats], without [conversion], a formatted floating-point number. *)
Record Stats := mkStats { total : nat; finished : nat; analyzing : nat }.

Definition stats (sales : list Sale.t) : Stats :=
  mkStats (length sales) (countStatus FINISHED sales) (countStatus ANALYZED sales).

Inductive Slice := Finalizadas | EmAnalise | EmAndamento.

Definition pieData (sales : list Sale.t) : list (Slice * nat) :=
  filter (fun d => 0 < snd d)%nat
         [(Finalizadas, finished (stats sales));
          (EmAnalise, analyzing (stats sales));
          (EmAndamento, countStatus IN_PROGRESS sales)].

End Insights.


(** ** src/App.tsx: the shell kept in localStorage *)

Module UserUpdates.
(** [Partial<User>]: the fields an update carries. *)
Record t := mk {
  id : option jsstring;
  name : option jsstring;
  email : option jsstring;
  role : option UserRole;
  confirmed : option bool;
  createdAt : option jsstring
}.

(** [{ ...u, ...updates }] *)
Definition apply (updates : t) (u : User.t) : User.t :=
  User.mk (default (User.id u) (id updates))
          (default (User.name u) (name updates))
          (default (User.email u) (email updates))
          (default (User.role u) (role updates))
          (default (User.confirmed u) (confirmed updates))
          (default (User.createdAt u) (createdAt updates)).
End UserUpdates.

Module Shell.

Definition DEFAULT_PERMISSIONS : App.RolePermissionsMap :=
  {[ ADMIN := AppPermission_values;
     MANAGER := [VIEW_ALL_SALES; APPROVE_SALES];
     SELLER := [VIEW_OWN_SALES; CREATE_SALES] ]}.

Definition INITIAL_USERS : list User.t :=
  [User.mk (lit "1") (lit "Admin Principal") (lit "admin@nexus.com") ADMIN true
           (lit "2023-01-01");
   User.mk (lit "2") (lit "Carlos Gerente") (lit "gerente@nexus.com") MANAGER true
           (lit "2023-02-15");
   User.mk (lit "3") (lit "Ana Vendedora") (lit "vendedor@nexus.com") SELLER true
           (lit "2023-03-10")].

Record State := mkState {
  auth : App.AuthState;
  permissions : App.RolePermissionsMap;
  users : list User.t
}.

(** The three keys of localStorage the shell uses.  A key is [None] when
    [getItem] yields nothing, [Some None] when its text is one [JSON.parse]
    rejects, and [Some (Some v)] when it parses to [v]. *)
Record Saved := mkSaved {
  nexus_auth : option (option App.AuthState);
  nexus_permissions : option (option App.RolePermissionsMap);
  nexus_users : option (option (list User.t))
}.

Definition loggedOut : App.AuthState :=
  {| App.user := None; App.isAuthenticated := false |}.

(** The state of [useState] before the mount effect. *)
Definition initialState : State := mkState loggedOut DEFAULT_PERMISSIONS INITIAL_USERS.

Definition noneSaved : Saved := mkSaved None None None.

(** The mount effect: the three keys are read in turn inside one [try]; a
    text that does not parse ends the effect, what was set before stays. *)
Definition mount (saved : Saved) (st : State) : State :=
  match nexus_auth saved with
  | Some None => st
  | savedAuth =>
      let st1 :=
        match savedAuth with
        | Some (Some a) => mkState a (permissions st) (users st)
        | _ => st
        end in
      match nexus_permissions saved with
      | Some None => st1
      | savedPerms =>
          let st2 :=
            match savedPerms with
            | Some (Some p) => mkState (auth st1) p (users st1)
            | _ => st1
            end in
          match nexus_users saved with
          | Some (Some u) => mkState (auth st2) (permissions st2) u
          | _ => st2
          end
      end
  end.

Inductive Toast :=
| PermissoesAtualizadas (r : UserRole)   (* "Permissões do perfil ... atualizadas com sucesso!" *)
| UsuarioRemovido                        (* "Usuário removido com sucesso." *)
| ContaNaoAprovada                       (* "Sua conta ainda não foi aprovada por um administrador." *)
| BemVindo (name : jsstring)             (* "Bem-vindo, ...!" *)
| SessaoEncerrada                        (* "Sessão encerrada." *)
| AguardaAprovacao                       (* "Acesso negado: Sua conta aguarda aprovação de um administrador." *)
| UsuarioNaoEncontrado.                  (* "Usuário não encontrado ou senha incorreta." *)

(** The session, what localStorage holds, and the toasts raised. *)
Definition World : Type := State * Saved.

Definition updateRolePermissions (r : UserRole) (newPerms : list AppPermission)
    (w : World) : World * list Toast :=
  let '(st, saved) := w in
  let updated := <[r := newPerms]> (permissions st) in
  (mkState (auth st) updated (users st),
   mkSaved (nexus_auth saved) (Some (Some updated)) (nexus_users saved),
   [PermissoesAtualizadas r]).

(** [id] is the random identity and [now] the clock reading the new user
    gets. *)
Definition registerUser (name email : jsstring) (role : UserRole)
    (id now : jsstring) (w : World) : World * list Toast :=
  let '(st, saved) := w in
  let newUser := User.mk id name email role false now in
  let updatedUsers := users st ++ [newUser] in
  (mkState (auth st) (permissions st) updatedUsers,
   mkSaved (nexus_auth saved) (nexus_permissions saved) (Some (Some updatedUsers)),
   []).

Definition updateUser (id : jsstring) (updates : UserUpdates.t) (w : World)
  : World * list Toast :=
  let '(st, saved) := w in
  let updatedUsers :=
    map (fun u => if bool_decide (User.id u = id) then UserUpdates.apply updates u else u)
        (users st) in
  (mkState (auth st) (permissions st) updatedUsers,
   mkSaved (nexus_auth saved) (nexus_permissions saved) (Some (Some updatedUsers)),
   []).

Definition deleteUser (id : jsstring) (w : World) : World * list Toast :=
  let '(st, saved) := w in
  let updatedUsers := filter (fun u => User.id u ≠ id) (users st) in
  (mkState (auth st) (permissions st) updatedUsers,
   mkSaved (nexus_auth saved) (nexus_permissions saved) (Some (Some updatedUsers)),
   [UsuarioRemovido]).

Definition login (user : User.t) (w : World) : World * list Toast :=
  let '(st, saved) := w in
  if negb (User.confirmed user) then (w, [ContaNaoAprovada])
  else
    let newState := {| App.user := Some user; App.isAuthenticated := true |} in
    (mkState newState (permissions st) (users st),
     mkSaved (Some (Some newState)) (nexus_permissions saved) (nexus_users saved),
     [BemVindo (User.name user)]).

Definition logout (w : World) : World * list Toast :=
  let '(st, saved) := w in
  (mkState loggedOut (permissions st) (users st),
   mkSaved None (nexus_permissions saved) (nexus_users saved),
   [SessaoEncerrada]).

(** What localStorage holds is the session: a key that was never written
    goes with the initial value of its part of the state. *)
Definition savedIsSession (w : World) : Prop :=
  (nexus_auth (snd w) = Some (Some (auth (fst w)))
   \/ (nexus_auth (snd w) = None /\ auth (fst w) = loggedOut))
  /\ (nexus_permissions (snd w) = Some (Some (permissions (fst w)))
      \/ (nexus_permissions (snd w) = None
          /\ permissions (fst w) = DEFAULT_PERMISSIONS))
  /\ (nexus_users (snd w) = Some (Some (users (fst w)))
      \/ (nexus_users (snd w) = None
          /\ users (fst w) = INITIAL_USERS)).

Section Login.
(** [String.prototype.toLowerCase] *)
Variable toLowerCase : jsstring -> jsstring.

(** [users.find(u => u.email.toLowerCase() === email.toLowerCase())] *)
Definition foundUser (email : jsstring) (us : list User.t) : option User.t :=
  List.find (fun u => bool_decide (toLowerCase (User.email u) = toLowerCase email)) us.

(** [handleSubmit] of pages/Login.tsx, once its delay has passed. *)
Definition handleSubmit (email : jsstring) (w : World) : World * list Toast :=
  match foundUser email (users (fst w)) with
  | Some u =>
      if negb (User.confirmed u) then (w, [AguardaAprovacao])
      else login u w
  | None => (w, [UsuarioNaoEncontrado])
  end.

(** What happens in the shell. *)
Inductive Event :=
| UpdateRolePermissions (r : UserRole) (newPerms : list AppPermission)
| RegisterUser (name email : jsstring) (role : UserRole) (id now : jsstring)
| UpdateUser (id : jsstring) (updates : UserUpdates.t)
| DeleteUser (id : jsstring)
| SubmitLogin (email : jsstring)
| Logout.

Definition step (w : World) (e : Event) : World * list Toast :=
  match e with
  | UpdateRolePermissions r p => updateRolePermissions r p w
  | RegisterUser n m r i t => registerUser n m r i t w
  | UpdateUser i u => updateUser i u w
  | DeleteUser i => deleteUser i w
  | SubmitLogin m => handleSubmit m w
  | Logout => logout w
  end.

Definition run (w : World) (es : list Event) : World :=
  foldl (fun w e => fst (step w e)) w es.

End Login.
End Shell.

(** ** The routes of the two shells *)

Module Routes.

Inductive Path := root | login | register | dashboard | admin | manager | seller.

Inductive Page :=
| Login | Register | AdminDashboard | ManagerDashboard | SellerDashboard
| BusinessIntelligence.

(** What a route renders: a page, a [Navigate], a [Navigate] preceded by the
    warning "Acesso negado: você não tem permissão para esta área.", or
    nothing when no route has the path. *)
Inductive Element :=
| Show (p : Page)
| Navigate (to : Path)
| Denied (to : Path)
| NoMatch.

Section Shell.
Variable auth : App.AuthState.
Variable permissions : App.RolePermissionsMap.

Definition PermissionRoute (children : Page) (requiredPermission : AppPermission)
  : Element :=
  if negb (App.isAuthenticated auth) then Navigate login
  else if negb (App.hasPermission auth permissions requiredPermission) then Denied root
  else Show children.

(** The [Routes] of src/App.tsx. *)
Definition localRoutes (p : Path) : Element :=
  match p with
  | login => if App.isAuthenticated auth then Navigate root else Show Login
  | register => Show Register
  | admin => PermissionRoute AdminDashboard ACCESS_ADMIN_PANEL
  | manager => PermissionRoute ManagerDashboard VIEW_ALL_SALES
  | seller => PermissionRoute SellerDashboard VIEW_OWN_SALES
  | root =>
      if App.isAuthenticated auth then
        if App.hasPermission auth permissions ACCESS_ADMIN_PANEL then Navigate admin
        else if App.hasPermission auth permissions VIEW_ALL_SALES then Navigate manager
        else Navigate seller
      else Navigate login
  | dashboard => NoMatch
  end.

(** The [Routes] of the shell backed by the remote store. *)
Definition remoteRoutes (p : Path) : Element :=
  match p with
  | login => if App.isAuthenticated auth then Navigate root else Show Login
  | register => Show Register
  | dashboard => PermissionRoute BusinessIntelligence VIEW_DASHBOARD
  | admin => PermissionRoute AdminDashboard ACCESS_ADMIN_PANEL
  | manager => PermissionRoute ManagerDashboard VIEW_ALL_SALES
  | seller => PermissionRoute SellerDashboard VIEW_OWN_SALES
  | root => if App.isAuthenticated auth then Navigate dashboard else Navigate login
  end.

End Shell.

(** Following the [Navigate]s from a path, at most [fuel] of them: the page
    reached and the number of routes that denied access on the way.  A route
    that denies access raises the access warning while it renders, at least
    once (the warning renders the shell again, and the route with it, until
    the [Navigate] has taken effect). *)
Fixpoint settle (routes : Path -> Element) (fuel : nat) (p : Path) : option (Page * nat) :=
  match routes p with
  | Show page => Some (page, O)
  | NoMatch => None
  | Navigate to =>
      match fuel with
      | O => None
      | S fuel' => settle routes fuel' to
      end
  | Denied to =>
      match fuel with
      | O => None
      | S fuel' =>
          match settle routes fuel' to with
          | Some (page, n) => Some (page, S n)
          | None => None
          end
      end
  end.

End Routes.


(** ** Sample data used by the examples *)

Module Sample.

(** The three users the local shell starts with. *)
Definition admin : User.t :=
  User.mk (lit "1") (lit "Admin Principal") (lit "admin@nexus.com") ADMIN true
          (lit "2023-01-01").
Definition carlos : User.t :=
  User.mk (lit "2") (lit "Carlos Gerente") (lit "gerente@nexus.com") MANAGER true
          (lit "2023-02-15").
Definition ana : User.t :=
  User.mk (lit "3") (lit "Ana Vendedora") (lit "vendedor@nexus.com") SELLER true
          (lit "2023-03-10").

(** A clock reading and an instant for every timestamp: the examples do not
    depend on the order of the lists. *)
Definition now : jsstring := lit "2024-05-02T10:00:00.000Z".
Definition getTime (s : jsstring) : Z := Z.of_nat (length s).
Definition newId (tbl : Store.Table) : jsstring :=
  lit "row-" ++ [48 + N.of_nat (length tbl)].

Definition session (u : User.t) : App.AuthState :=
  {| App.user := Some u; App.isAuthenticated := true |}.

Definition managerCtx : Manager.Ctx :=
  Manager.mkCtx (session carlos) App.DEFAULT_PERMISSIONS (Some carlos) now.
Definition localCtx : LocalManager.Ctx :=
  LocalManager.mkCtx (session carlos) App.DEFAULT_PERMISSIONS (Some carlos) now.

(** The manager role left with the view-all capability only: Carlos reaches
    the manager page and holds no approve capability.  In the shell backed
    by the remote store the map is read from the stored rows; in the shell
    kept in localStorage it is the stored map. *)
Definition viewOnlyCtx : Manager.Ctx :=
  Manager.mkCtx (session carlos)
                (App.initApp (Some [ {| App.role := MANAGER;
                                        App.permissions := [VIEW_ALL_SALES] |} ]))
                (Some carlos) now.
Definition localViewOnlyCtx : LocalManager.Ctx :=
  LocalManager.mkCtx (session carlos)
                     (App.updateRolePermissions App.DEFAULT_PERMISSIONS MANAGER
                                                [VIEW_ALL_SALES])
                     (Some carlos) now.
(** Every timestamp of the examples is a date, and an engine that leaves an
    array it cannot order as it is. *)
Definition parse (s : jsstring) : option Z := Some (getTime s).
Definition engineOrder (l : list Sale.t) : list Sale.t := l.

Definition form : CustomerData.t :=
  CustomerData.mk (lit "Ana Silva") (lit "12345678909") [] [] []
                  (lit "ana@example.com") (lit "Rua A") (lit "10") [] [] [] []
                  (lit "01001000") (lit "Plano 1") 10%Z [] (lit "audio.mp3")
                  [] [] [] [].

Definition entry (s : SaleStatus) (by_ : User.t) : Entry.t :=
  Entry.mk s (User.name by_) (lit "2024-05-01T09:00:00.000Z") None.

(** A sale of Ana's, given its status and history. *)
Definition row (s : SaleStatus) (h : list Entry.t) (rr : option jsstring) : Row.t :=
  Row.mk (lit "sale-1") (User.id ana) (User.name ana) form s (Some h)
         (lit "2024-05-01T09:00:00.000Z") rr.

Definition finishedRow : Row.t :=
  row FINISHED
      [entry DRAFT ana; entry IN_PROGRESS ana; entry ANALYZED carlos;
       entry FINISHED carlos]
      None.

Definition inProgressRow : Row.t :=
  row IN_PROGRESS [entry DRAFT ana; entry IN_PROGRESS ana] None.

Definition managerState (tbl : Store.Table) : Manager.State :=
  Manager.loadAllSales getTime true tbl (Manager.mkState [] None (lit "all") [] true).

Definition sellerState (tbl : Store.Table) (editing : option jsstring) : Seller.State :=
  Seller.loadData getTime true ana tbl
                  (Seller.mkState [] true editing form true).

Definition draftRow : Row.t := row DRAFT [entry DRAFT ana] None.

(** A sale the manager has returned with a reason. *)
Definition returnedRow : Row.t :=
  row IN_PROGRESS
      [entry DRAFT ana; entry IN_PROGRESS ana; entry ANALYZED carlos;
       Entry.mk IN_PROGRESS (User.name carlos) (lit "2024-05-01T12:00:00.000Z")
                (Some (lit "documento ilegivel"))]
      (Some (lit "documento ilegivel")).

Definition reason : jsstring := lit "documento ilegivel".

Definition saleId : jsstring := lit "sale-1".

(** A form the page takes as valid whatever the document validators answer:
    they are asked about documents of eleven and of fourteen digits only,
    and this document has nine. *)
Definition form2 : CustomerData.t :=
  CustomerData.mk (lit "Bruno Costa") (lit "123456789") [] [] []
                  (lit "bruno@example.com") (lit "Rua B") (lit "20") [] [] [] []
                  (lit "01001000") (lit "Plano 2") 10%Z []
                  (lit "https://files.example/sales-documents/3/1714640000000_audio.mp3")
                  [] [] [] [].

(** Validators that reject every document. *)
Definition rejectAll (doc : jsstring) : bool := false.

(** A second sale of Ana's, with that form. *)
Definition row2 (s : SaleStatus) (h : list Entry.t) (rr : option jsstring) : Row.t :=
  Row.mk (lit "sale-2") (User.id ana) (User.name ana) form2 s (Some h)
         (lit "2024-05-01T09:00:00.000Z") rr.

Definition saleId2 : jsstring := lit "sale-2".

Definition draftRow2 : Row.t := row2 DRAFT [entry DRAFT ana] None.

Definition analysedRow2 : Row.t :=
  row2 ANALYZED [entry DRAFT ana; entry IN_PROGRESS ana; entry ANALYZED carlos] None.

Definition returnedRow2 : Row.t :=
  row2 IN_PROGRESS
       [entry DRAFT ana; entry IN_PROGRESS ana; entry ANALYZED carlos;
        Entry.mk IN_PROGRESS (User.name carlos) (lit "2024-05-01T12:00:00.000Z")
                 (Some (lit "documento ilegivel"))]
       (Some (lit "documento ilegivel")).

(** Two later clock readings. *)
Definition now1 : jsstring := lit "2024-05-02T10:00:05.000Z".
Definition now2 : jsstring := lit "2024-05-02T10:00:20.000Z".

(** Ana's sales as the localStorage dashboard keeps them. *)
Definition localStorageOf (r : Row.t) : LocalManager.LocalStorage :=
  [(lit "nexus_auth", None); (lit "nexus_sales_3", Some [saleOfRow r])].

Definition localState (ls : LocalManager.LocalStorage) : LocalManager.State :=
  fst (LocalManager.loadAllSales parse engineOrder ls LocalManager.initialState).

End Sample.

(** * Properties *)

(** ** JavaScript strings *)

Example trim_both_ends : trim (lit "  ab c  ") = lit "ab c".
Proof. reflexivity. Qed.

Example trim_blank : trim [0x20; 0x9; 0xA0; 0x2003] = [].
Proof. reflexivity. Qed.

Example startsWith_TMP : startsWith (lit "TMP_") (lit "TMP_17") = true
                         /\ startsWith (lit "TMP_") (lit "sale-1") = false.
Proof. split; reflexivity. Qed.

Lemma reasonMissing_absent_or_short (reason : option jsstring) :
  reason = None \/ (exists r, reason = Some r /\ (length (trim r) < 5)%nat) ->
  reasonMissing reason = true.
Proof.
  intros [-> | (r & -> & Hlen)]; [reflexivity |].
  unfold reasonMissing. apply orb_true_iff. right.
  apply N.ltb_lt. lia.
Qed.


(** ** The permission registry *)

Lemma initApp_fold_lookup (rows : list App.PermRow) (acc : App.RolePermissionsMap)
    (r : UserRole) :
  foldl (fun acc curr => <[App.role curr := App.permissions curr]> acc) acc rows !! r
  = match last (filter (fun x => App.role x = r) rows) with
    | Some x => Some (App.permissions x)
    | None => acc !! r
    end.
Proof.
  induction rows as [| x rows IH] using rev_ind; [reflexivity |].
  rewrite foldl_app, filter_app. simpl.
  destruct (decide (App.role x = r)) as [Heq | Hne].
  - rewrite filter_cons_True, filter_nil by exact Heq.
    rewrite last_snoc, Heq. apply lookup_insert_eq.
  - rewrite filter_cons_False, filter_nil, app_nil_r by exact Hne.
    rewrite lookup_insert_ne by exact Hne. exact IH.
Qed.

Lemma DEFAULT_PERMISSIONS_nonempty (r : UserRole) :
  App.rolePermissions App.DEFAULT_PERMISSIONS r <> [].
Proof. destruct r; vm_compute; discriminate. Qed.

(** C2, as the code has it.  Lookup never fails: it yields the entry of the
    session's map for the role, and the empty list when the map has none.
    The map is the built-in default table when the store returns no rows (or
    no answer), so that every role then has its non-empty default set; when
    the store returns rows, the map holds exactly their entries, the last
    row of a role winning, and a role without a row looks up to the empty
    list.  [updateRolePermissions] on one role leaves the session's set of
    every other role as it was. *)
Theorem permission_lookup_after_configuration
    (rows : list App.PermRow) (perms : App.RolePermissionsMap)
    (r r' : UserRole) (newPerms : list AppPermission) :
  rows <> [] ->
  r <> r' ->
  (App.initApp None = App.DEFAULT_PERMISSIONS
   /\ App.initApp (Some []) = App.DEFAULT_PERMISSIONS
   /\ App.rolePermissions App.DEFAULT_PERMISSIONS r <> [])
  /\ App.rolePermissions (App.initApp (Some rows)) r
     = match last (filter (fun x => App.role x = r) rows) with
       | Some x => App.permissions x
       | None => []
       end
  /\ App.rolePermissions (App.updateRolePermissions perms r newPerms) r = newPerms
  /\ App.rolePermissions (App.updateRolePermissions perms r newPerms) r'
     = App.rolePermissions perms r'.
Proof.
  intros Hrows Hne. split; [| split; [| split]].
  - split; [reflexivity | split; [reflexivity |]].
    apply DEFAULT_PERMISSIONS_nonempty.
  - unfold App.rolePermissions, App.initApp.
    destruct rows as [| x rows']; [congruence |].
    change (0 <? length (x :: rows'))%nat with true. cbv iota.
    rewrite initApp_fold_lookup, lookup_empty.
    destruct (last _); reflexivity.
  - unfold App.rolePermissions, App.updateRolePermissions.
    rewrite lookup_insert_eq. reflexivity.
  - unfold App.rolePermissions, App.updateRolePermissions.
    rewrite lookup_insert_ne by exact Hne. reflexivity.
Qed.

Lemma permission_lookup_after_configuration_witness :
  App.rolePermissions
    (App.initApp (Some [ {| App.role := MANAGER; App.permissions := [APPROVE_SALES] |} ]))
    MANAGER
  = [APPROVE_SALES]
  /\ App.rolePermissions
       (App.updateRolePermissions App.DEFAULT_PERMISSIONS MANAGER [APPROVE_SALES])
       SELLER
     = [VIEW_OWN_SALES; CREATE_SALES; VIEW_DASHBOARD].
Proof.
  pose proof (permission_lookup_after_configuration
                [ {| App.role := MANAGER; App.permissions := [APPROVE_SALES] |} ]
                App.DEFAULT_PERMISSIONS MANAGER SELLER [APPROVE_SALES]
                ltac:(discriminate) ltac:(discriminate))
    as (_ & Hload & _ & Hother).
  split.
  - rewrite Hload. reflexivity.
  - rewrite Hother. reflexivity.
Defined.

(** C2 fails as stated: the external configuration holds an entry for the
    manager role only; [initApp] builds its map from that row alone, and
    the seller role, which has no entry, looks up to the empty list instead
    of its default set, so that a seller is refused her own sales. *)
Lemma partial_configuration_blanks_other_roles :
  let perms :=
    App.initApp
      (Some [ {| App.role := MANAGER;
                 App.permissions := [VIEW_ALL_SALES; APPROVE_SALES] |} ]) in
  perms !! SELLER = None
  /\ App.rolePermissions perms SELLER = []
  /\ App.rolePermissions perms SELLER
     <> App.rolePermissions App.DEFAULT_PERMISSIONS SELLER
  /\ App.hasPermission (Sample.session Sample.ana) perms VIEW_OWN_SALES = false
  /\ App.hasPermission (Sample.session Sample.ana) App.DEFAULT_PERMISSIONS VIEW_OWN_SALES
     = true.
Proof. vm_compute. repeat split; discriminate. Qed.

(** Such a configuration is what one call of [updateRolePermissions] leaves
    in a store that was empty: the session keeps the other roles, the store
    holds the one row. *)
Example one_update_stores_one_row :
  let row := {| App.role := MANAGER;
                App.permissions := [VIEW_ALL_SALES; APPROVE_SALES] |} in
  App.upsertPermRow row [] = [row]
  /\ App.rolePermissions
       (App.updateRolePermissions App.DEFAULT_PERMISSIONS MANAGER (App.permissions row))
       SELLER
     = [VIEW_OWN_SALES; CREATE_SALES; VIEW_DASHBOARD].
Proof. vm_compute. repeat split. Qed.

(** ** The record store *)

Lemma find_app_None {A} (f : A -> bool) (l l' : list A) :
  List.find f l = None -> List.find f (l ++ l') = List.find f l'.
Proof.
  induction l as [| x l IH]; [reflexivity |]. simpl.
  destruct (f x); [discriminate | exact IH].
Qed.

Lemma find_Some_elem {A} (f : A -> bool) (l : list A) (x : A) :
  List.find f l = Some x -> x ∈ l /\ f x = true.
Proof.
  induction l as [| y l IH]; [discriminate |]. simpl.
  destruct (f y) eqn:E.
  - intros [= <-]. split; [left | exact E].
  - intros H. destruct (IH H) as [Hin Hf]. split; [right; exact Hin | exact Hf].
Qed.

Section StoreFacts.
Variable newId : Store.Table -> jsstring.

Lemma lookup_replace (i : jsstring) (f : Row.t -> Row.t) (tbl : Store.Table) :
  (forall r, Row.id (f r) = Row.id r) ->
  Store.lookup i
    (map (fun x => if bool_decide (Row.id x = i) then f x else x) tbl)
  = f <$> Store.lookup i tbl.
Proof.
  intros Hid. unfold Store.lookup.
  induction tbl as [| x tbl IH]; [reflexivity |]. simpl.
  destruct (bool_decide (Row.id x = i)) eqn:E.
  - rewrite Hid, E. reflexivity.
  - rewrite E. exact IH.
Qed.

Lemma lookup_replace_other (i j : jsstring) (f : Row.t -> Row.t) (tbl : Store.Table) :
  (forall r, Row.id (f r) = Row.id r) ->
  i <> j ->
  Store.lookup j
    (map (fun x => if bool_decide (Row.id x = i) then f x else x) tbl)
  = Store.lookup j tbl.
Proof.
  intros Hid Hne. unfold Store.lookup.
  induction tbl as [| x tbl IH]; [reflexivity |]. simpl.
  destruct (bool_decide (Row.id x = i)) eqn:E.
  - apply bool_decide_eq_true in E.
    rewrite Hid, (bool_decide_eq_false_2 (Row.id x = j)) by congruence.
    exact IH.
  - destruct (bool_decide (Row.id x = j)); [reflexivity | exact IH].
Qed.

Lemma lookup_update (i : jsstring) (u : Updates.t) (tbl : Store.Table) :
  Store.lookup i (Store.update i u tbl) = Store.applyUpdates u <$> Store.lookup i tbl.
Proof. apply lookup_replace. reflexivity. Qed.

Lemma lookup_update_other (i j : jsstring) (u : Updates.t) (tbl : Store.Table) :
  i <> j -> Store.lookup j (Store.update i u tbl) = Store.lookup j tbl.
Proof. apply lookup_replace_other. reflexivity. Qed.

Lemma upsert_existing (p : Payload.t) (i : jsstring) (r : Row.t) (tbl : Store.Table) :
  Payload.id p = Some i ->
  Store.lookup i tbl = Some r ->
  Store.lookup i (fst (Store.upsert newId p tbl)) = Some (Store.applyPayload p r).
Proof.
  intros Hid Hr. unfold Store.upsert. rewrite Hid, Hr. simpl.
  rewrite lookup_replace by reflexivity. rewrite Hr. reflexivity.
Qed.

Lemma lookup_delete (i : jsstring) (tbl : Store.Table) :
  Store.lookup i (Store.delete i tbl) = None.
Proof.
  unfold Store.lookup, Store.delete.
  induction tbl as [| x tbl IH]; [reflexivity |].
  destruct (decide (Row.id x = i)) as [Heq | Hne].
  - rewrite filter_cons_False by (intros H; apply H; exact Heq). exact IH.
  - rewrite filter_cons_True by exact Hne. simpl.
    rewrite bool_decide_eq_false_2 by exact Hne. exact IH.
Qed.

Lemma lookup_delete_other (i j : jsstring) (tbl : Store.Table) :
  i <> j -> Store.lookup j (Store.delete i tbl) = Store.lookup j tbl.
Proof.
  intros Hne. unfold Store.lookup, Store.delete.
  induction tbl as [| x tbl IH]; [reflexivity |].
  destruct (decide (Row.id x = i)) as [Heq | Hne'].
  - rewrite filter_cons_False by (intros H; apply H; exact Heq). simpl.
    rewrite bool_decide_eq_false_2 by congruence. exact IH.
  - rewrite filter_cons_True by exact Hne'. simpl.
    destruct (bool_decide (Row.id x = j)); [reflexivity | exact IH].
Qed.

Lemma upsert_lookup (p : Payload.t) (i : jsstring) (tbl : Store.Table) :
  Payload.id p = Some i ->
  exists r,
    Store.lookup i (fst (Store.upsert newId p tbl)) = Some r
    /\ Row.status r = Payload.status p
    /\ Row.status_history r = Some (Payload.status_history p)
    /\ Row.created_at r = Payload.created_at p
    /\ (forall rr, Payload.return_reason p = Some rr -> Row.return_reason r = rr).
Proof.
  intros Hid. destruct (Store.lookup i tbl) as [r |] eqn:Hr.
  - rewrite (upsert_existing p i r tbl Hid Hr). eexists. split; [reflexivity |].
    repeat split. intros rr Hrr. cbn. rewrite Hrr. reflexivity.
  - unfold Store.upsert. rewrite Hid, Hr. cbn [fst].
    unfold Store.lookup in *. rewrite (find_app_None _ _ _ Hr).
    cbn [List.find Store.rowOfPayload Row.id].
    rewrite bool_decide_eq_true_2 by reflexivity.
    eexists. split; [reflexivity |].
    repeat split. intros rr Hrr. cbn. rewrite Hrr. reflexivity.
Qed.

End StoreFacts.

(** ** The guards of [handleUpdateStatus] *)

Lemma Manager_handleUpdateStatus_passes
    (getTime : jsstring -> Z) (c : Manager.Ctx) (updateOk selectOk : bool)
    (st : Manager.State) (tbl : Store.Table)
    (id : jsstring) (newStatus : SaleStatus) (reason : option jsstring)
    (sale : Sale.t) :
  App.hasPermission (Manager.auth c) (Manager.permissions c) APPROVE_SALES = true ->
  List.find (fun s => bool_decide (Sale.id s = id)) (Manager.sales st) = Some sale ->
  isRegressionOf (Sale.status sale) newStatus && reasonMissing reason = false ->
  Manager.handleUpdateStatus getTime c updateOk selectOk st tbl id newStatus reason
  = let u := Manager.updates c sale newStatus reason in
    if updateOk then
      mkOutcome
        (Manager.mkState
           (Manager.sales (Manager.loadAllSales getTime selectOk (Store.update id u tbl) st))
           (if Manager.isSelected st id then None else Manager.selectedSale st)
           (Manager.filterSellerId st) [] false)
        (Store.update id u tbl) [Store.Update id u]
        [(VendaAtualizada (take 5 id) newStatus, success)]
    else mkOutcome st tbl [Store.Update id u] [(ErroAtualizarBanco, warning)].
Proof.
  intros Hperm Hfind Hok. unfold Manager.handleUpdateStatus.
  rewrite Hperm, Hfind. simpl. rewrite Hok. reflexivity.
Qed.

Lemma Manager_handleUpdateStatus_denied
    (getTime : jsstring -> Z) (c : Manager.Ctx) (updateOk selectOk : bool)
    (st : Manager.State) (tbl : Store.Table)
    (id : jsstring) (newStatus : SaleStatus) (reason : option jsstring) :
  App.hasPermission (Manager.auth c) (Manager.permissions c) APPROVE_SALES = false ->
  Manager.handleUpdateStatus getTime c updateOk selectOk st tbl id newStatus reason
  = mkOutcome st tbl [] [(PermissaoInsuficiente, warning)].
Proof. intros Hperm. unfold Manager.handleUpdateStatus. rewrite Hperm. reflexivity. Qed.

Lemma LocalManager_handleUpdateStatus_passes
    (getTime : jsstring -> option Z) (engineOrder : list Sale.t -> list Sale.t)
    (c : LocalManager.Ctx)
    (st : LocalManager.State) (ls : LocalManager.LocalStorage)
    (id : jsstring) (newStatus : SaleStatus) (reason : option jsstring)
    (sale : Sale.t) (ownerSales : list Sale.t) :
  App.hasPermission (LocalManager.auth c) (LocalManager.permissions c) APPROVE_SALES = true ->
  List.find (fun s => bool_decide (Sale.id s = id)) (LocalManager.sales st) = Some sale ->
  isRegressionOf (Sale.status sale) newStatus && reasonMissing reason = false ->
  default (Some []) (LocalManager.getItem (LocalManager.storageKey sale) ls)
  = Some ownerSales ->
  exists o,
    LocalManager.handleUpdateStatus getTime engineOrder c st ls id newStatus reason
    = LocalManager.Done o
    /\ LocalManager.setItems o
       = [(LocalManager.storageKey sale,
           LocalManager.updatedOwnerSales
             id (LocalManager.updatedSale c sale newStatus reason) ownerSales)]
    /\ LocalManager.storage o
       = LocalManager.setItem
           (LocalManager.storageKey sale)
           (LocalManager.updatedOwnerSales
              id (LocalManager.updatedSale c sale newStatus reason) ownerSales)
           ls
    /\ last (LocalManager.toasts o) = Some (VendaAtualizada id newStatus, success).
Proof.
  intros Hperm Hfind Hok Hget. unfold LocalManager.handleUpdateStatus.
  rewrite Hperm, Hfind. simpl. rewrite Hok, Hget.
  destruct (LocalManager.loadAllSales _ _ _ _) as [st1 alerts].
  eexists. split; [reflexivity |]. simpl.
  split; [reflexivity | split; [reflexivity |]].
  apply last_snoc.
Qed.

Lemma LocalManager_handleUpdateStatus_denied
    (getTime : jsstring -> option Z) (engineOrder : list Sale.t -> list Sale.t)
    (c : LocalManager.Ctx)
    (st : LocalManager.State) (ls : LocalManager.LocalStorage)
    (id : jsstring) (newStatus : SaleStatus) (reason : option jsstring) :
  App.hasPermission (LocalManager.auth c) (LocalManager.permissions c) APPROVE_SALES = false ->
  LocalManager.handleUpdateStatus getTime engineOrder c st ls id newStatus reason
  = LocalManager.Done (LocalManager.mkOutcome st ls [] [(PermissaoInsuficiente, warning)]).
Proof.
  intros Hperm. unfold LocalManager.handleUpdateStatus. rewrite Hperm. reflexivity.
Qed.

(** ** The return reason (C1) *)




(** ** The seller's submission *)

Lemma Seller_handleCreateSale_submits
    (getTime : jsstring -> Z) (newId : Store.Table -> jsstring)
    (user : User.t) (now : jsstring) (upsertOk selectOk : bool)
    (st : Seller.State) (tbl : Store.Table) :
  Seller.isReadOnly st = false ->
  Seller.handleCreateSale getTime newId user now true upsertOk selectOk st tbl
  = let payload := Seller.submitPayload user now st in
    if upsertOk then
      mkOutcome
        (Seller.mkState
           (Seller.sales (Seller.loadData getTime selectOk user
                                          (fst (Store.upsert newId payload tbl)) st))
           false None CustomerData.initial false)
        (fst (Store.upsert newId payload tbl)) [Store.Upsert payload]
        [(FichaEnviada, success)]
    else mkOutcome st tbl [Store.Upsert payload] [(ErroEnviarFicha, warning)].
Proof.
  intros Hro. unfold Seller.handleCreateSale. rewrite Hro. reflexivity.
Qed.

Lemma isReadOnly_not_finished (st : Seller.State) (existing : Sale.t) :
  Seller.findEditing st = Some existing ->
  Sale.status existing <> FINISHED ->
  Seller.isReadOnly st = false.
Proof.
  intros Hfind Hst. unfold Seller.isReadOnly. rewrite Hfind.
  destruct (negb _); [reflexivity |].
  unfold status_eqb. apply bool_decide_eq_false_2. exact Hst.
Qed.


(** ** Edges of the state graph (C3) *)

(** C3, as the code has it.  [handleUpdateStatus] checks no edge: whatever
    the current status of the sale and whatever the target status, a change
    requested with the approve capability on a sale of the page's list, with
    a sufficient reason when it is a regression, is written with the target
    status and reported as a success.  The remote page sends no write only
    when the capability is missing, the sale is not in the list, or a
    regression lacks its reason. *)
Theorem status_change_checks_no_edge :
  (forall (getTime : jsstring -> Z) (c : Manager.Ctx) (selectOk : bool)
          (st : Manager.State) (tbl : Store.Table) (id : jsstring)
          (newStatus : SaleStatus) (reason : option jsstring) (sale : Sale.t),
      App.hasPermission (Manager.auth c) (Manager.permissions c) APPROVE_SALES = true ->
      List.find (fun s => bool_decide (Sale.id s = id)) (Manager.sales st) = Some sale ->
      isRegressionOf (Sale.status sale) newStatus && reasonMissing reason = false ->
      let o := Manager.handleUpdateStatus getTime c true selectOk st tbl id newStatus reason in
      (exists u, writes o = [Store.Update id u] /\ Updates.status u = newStatus)
      /\ toasts o = [(VendaAtualizada (take 5 id) newStatus, success)]
      /\ (forall row, Store.lookup id tbl = Some row ->
          Row.status <$> Store.lookup id (table o) = Some newStatus))
  /\
  (forall (getTime : jsstring -> Z) (c : Manager.Ctx) (updateOk selectOk : bool)
          (st : Manager.State) (tbl : Store.Table) (id : jsstring)
          (newStatus : SaleStatus) (reason : option jsstring),
      writes (Manager.handleUpdateStatus getTime c updateOk selectOk st tbl id newStatus reason)
      = [] ->
      App.hasPermission (Manager.auth c) (Manager.permissions c) APPROVE_SALES = false
      \/ List.find (fun s => bool_decide (Sale.id s = id)) (Manager.sales st) = None
      \/ exists sale,
           List.find (fun s => bool_decide (Sale.id s = id)) (Manager.sales st) = Some sale
           /\ isRegressionOf (Sale.status sale) newStatus = true
           /\ reasonMissing reason = true)
  /\
  (forall (getTime : jsstring -> option Z) (engineOrder : list Sale.t -> list Sale.t)
          (c : LocalManager.Ctx)
          (st : LocalManager.State) (ls : LocalManager.LocalStorage) (id : jsstring)
          (newStatus : SaleStatus) (reason : option jsstring) (sale : Sale.t)
          (ownerSales : list Sale.t),
      App.hasPermission (LocalManager.auth c) (LocalManager.permissions c) APPROVE_SALES = true ->
      List.find (fun s => bool_decide (Sale.id s = id)) (LocalManager.sales st) = Some sale ->
      isRegressionOf (Sale.status sale) newStatus && reasonMissing reason = false ->
      default (Some []) (LocalManager.getItem (LocalManager.storageKey sale) ls)
      = Some ownerSales ->
      exists o updatedSale,
        LocalManager.handleUpdateStatus getTime engineOrder c st ls id newStatus reason
        = LocalManager.Done o
        /\ LocalManager.setItems o
           = [(LocalManager.storageKey sale,
               LocalManager.updatedOwnerSales id updatedSale ownerSales)]
        /\ Sale.status updatedSale = newStatus
        /\ last (LocalManager.toasts o) = Some (VendaAtualizada id newStatus, success)).
Proof.
  split; [| split].
  - intros getTime c selectOk st tbl id newStatus reason sale Hperm Hfind Hok o.
    subst o.
    rewrite (Manager_handleUpdateStatus_passes _ _ _ _ _ _ _ _ _ _ Hperm Hfind Hok).
    cbv zeta. cbn [writes table toasts]. split; [| split].
    + eexists. split; reflexivity.
    + reflexivity.
    + intros row Hrow. rewrite lookup_update, Hrow. reflexivity.
  - intros getTime c updateOk selectOk st tbl id newStatus reason.
    unfold Manager.handleUpdateStatus.
    destruct (App.hasPermission _ _ _); [| left; reflexivity]. simpl.
    destruct (List.find _ _) as [sale |]; [| right; left; reflexivity].
    destruct (isRegressionOf _ _) eqn:Hreg; simpl.
    + destruct (reasonMissing reason) eqn:Hmiss.
      * intros _. right; right. exists sale. rewrite Hreg. auto.
      * destruct updateOk; discriminate.
    + destruct updateOk; discriminate.
  - intros getTime engineOrder c st ls id newStatus reason sale ownerSales Hperm Hfind Hok Hget.
    destruct (LocalManager_handleUpdateStatus_passes
                getTime engineOrder _ _ _ _ _ _ _ _ Hperm Hfind Hok Hget)
      as (o & Hdone & Hset & _ & Hlast).
    exists o, (LocalManager.updatedSale c sale newStatus reason).
    split; [exact Hdone | split; [exact Hset | split; [reflexivity | exact Hlast]]].
Qed.

Lemma status_change_checks_no_edge_witness :
  Row.status
    <$> Store.lookup Sample.saleId
          (table (Manager.handleUpdateStatus
                    Sample.getTime Sample.managerCtx true true
                    (Sample.managerState [Sample.inProgressRow]) [Sample.inProgressRow]
                    Sample.saleId FINISHED None))
  = Some FINISHED
  /\ (App.hasPermission (Sample.session Sample.carlos) App.DEFAULT_PERMISSIONS APPROVE_SALES
      = false
      \/ List.find (fun s => bool_decide (Sale.id s = lit "sale-2"))
                   (Manager.sales (Sample.managerState [Sample.inProgressRow]))
         = None
      \/ exists sale,
           List.find (fun s => bool_decide (Sale.id s = lit "sale-2"))
                     (Manager.sales (Sample.managerState [Sample.inProgressRow]))
           = Some sale
           /\ isRegressionOf (Sale.status sale) FINISHED = true
           /\ reasonMissing None = true)
  /\ exists o updatedSale,
       LocalManager.handleUpdateStatus
         Sample.parse Sample.engineOrder Sample.localCtx
         (Sample.localState (Sample.localStorageOf Sample.inProgressRow))
         (Sample.localStorageOf Sample.inProgressRow)
         Sample.saleId FINISHED None
       = LocalManager.Done o
       /\ LocalManager.setItems o
          = [(lit "nexus_sales_3",
              LocalManager.updatedOwnerSales
                Sample.saleId updatedSale [saleOfRow Sample.inProgressRow])]
       /\ Sale.status updatedSale = FINISHED
       /\ last (LocalManager.toasts o) = Some (VendaAtualizada Sample.saleId FINISHED, success).
Proof.
  destruct status_change_checks_no_edge as (Hremote & Honly & Hlocal).
  split; [| split].
  - refine (proj2 (proj2 (Hremote Sample.getTime Sample.managerCtx true
                            (Sample.managerState [Sample.inProgressRow])
                            [Sample.inProgressRow] Sample.saleId FINISHED None
                            (saleOfRow Sample.inProgressRow) _ _ _))
                  Sample.inProgressRow _); reflexivity.
  - refine (Honly Sample.getTime Sample.managerCtx true true
                  (Sample.managerState [Sample.inProgressRow]) [Sample.inProgressRow]
                  (lit "sale-2") FINISHED None _); reflexivity.
  - refine (Hlocal Sample.parse Sample.engineOrder Sample.localCtx
                   (Sample.localState (Sample.localStorageOf Sample.inProgressRow))
                   (Sample.localStorageOf Sample.inProgressRow)
                   Sample.saleId FINISHED None
                   (saleOfRow Sample.inProgressRow) [saleOfRow Sample.inProgressRow]
                   _ _ _ _); reflexivity.
Defined.

(** C3 fails as stated: with the approve capability a sale in progress is
    finished directly, and a finished sale is marked as analysed; neither
    edge is in the graph, both changes are written and reported as
    successes. *)
Lemma edges_outside_the_graph_are_applied :
  let o1 := Manager.handleUpdateStatus
              Sample.getTime Sample.managerCtx true true
              (Sample.managerState [Sample.inProgressRow]) [Sample.inProgressRow]
              Sample.saleId FINISHED None in
  let o2 := Manager.handleUpdateStatus
              Sample.getTime Sample.managerCtx true true
              (Sample.managerState [Sample.finishedRow]) [Sample.finishedRow]
              Sample.saleId ANALYZED None in
  (Row.status <$> Store.lookup Sample.saleId [Sample.inProgressRow] = Some IN_PROGRESS
   /\ length (writes o1) = 1%nat
   /\ toasts o1 = [(VendaAtualizada (take 5 Sample.saleId) FINISHED, success)]
   /\ Row.status <$> Store.lookup Sample.saleId (table o1) = Some FINISHED)
  /\ (Row.status <$> Store.lookup Sample.saleId [Sample.finishedRow] = Some FINISHED
      /\ length (writes o2) = 1%nat
      /\ toasts o2 = [(VendaAtualizada (take 5 Sample.saleId) ANALYZED, success)]
      /\ Row.status <$> Store.lookup Sample.saleId (table o2) = Some ANALYZED).
Proof. vm_compute. repeat split. Qed.

(** ** The approve capability (C4) *)

(** C4, as the code has it.  On both manager pages every status change,
    whatever its edge, attempted without the approve capability is refused
    with the warning "Permissão insuficiente." and sends no write: the store
    is as it was.  The seller's submission, which takes a draft to
    IN_PROGRESS, consults no capability: for every user, a form the page
    takes as valid on a sale that is not read-only is sent to the store as
    IN_PROGRESS, under the identity the form edits, and reported as a
    success. *)
Theorem transition_without_approve_capability :
  (forall (getTime : jsstring -> Z) (c : Manager.Ctx) (updateOk selectOk : bool)
          (st : Manager.State) (tbl : Store.Table) (id : jsstring)
          (newStatus : SaleStatus) (reason : option jsstring),
      App.hasPermission (Manager.auth c) (Manager.permissions c) APPROVE_SALES = false ->
      let o := Manager.handleUpdateStatus getTime c updateOk selectOk st tbl id newStatus reason in
      toasts o = [(PermissaoInsuficiente, warning)]
      /\ writes o = [] /\ table o = tbl)
  /\
  (forall (getTime : jsstring -> option Z) (engineOrder : list Sale.t -> list Sale.t)
          (c : LocalManager.Ctx)
          (st : LocalManager.State) (ls : LocalManager.LocalStorage) (id : jsstring)
          (newStatus : SaleStatus) (reason : option jsstring),
      App.hasPermission (LocalManager.auth c) (LocalManager.permissions c) APPROVE_SALES = false ->
      exists o,
        LocalManager.handleUpdateStatus getTime engineOrder c st ls id newStatus reason
        = LocalManager.Done o
        /\ LocalManager.toasts o = [(PermissaoInsuficiente, warning)]
        /\ LocalManager.setItems o = [] /\ LocalManager.storage o = ls)
  /\
  (forall (cpfIsValid cnpjIsValid : jsstring -> bool)
          (getTime : jsstring -> Z) (newId : Store.Table -> jsstring)
          (user : User.t) (now : jsstring) (selectOk : bool)
          (st : Seller.State) (tbl : Store.Table),
      Seller.isReadOnly st = false ->
      SellerForm.isFormValid cpfIsValid cnpjIsValid false (Seller.formData st) = true ->
      let o := SellerForm.onSubmit cpfIsValid cnpjIsValid getTime newId user now
                                   true selectOk st tbl in
      (exists p,
          writes o = [Store.Upsert p]
          /\ Payload.id p = Seller.editingSaleId st
          /\ Payload.seller_id p = User.id user
          /\ Payload.status p = IN_PROGRESS)
      /\ toasts o = [(FichaEnviada, success)]
      /\ (forall i, Seller.editingSaleId st = Some i ->
          Row.status <$> Store.lookup i (table o) = Some IN_PROGRESS)).
Proof.
  split; [| split].
  - intros getTime c updateOk selectOk st tbl id newStatus reason Hperm o. subst o.
    rewrite Manager_handleUpdateStatus_denied by exact Hperm. auto.
  - intros getTime engineOrder c st ls id newStatus reason Hperm.
    rewrite LocalManager_handleUpdateStatus_denied by exact Hperm.
    eexists. split; [reflexivity |]. auto.
  - intros cpfIsValid cnpjIsValid getTime newId user now selectOk st tbl Hro Hvalid o.
    subst o. unfold SellerForm.onSubmit. rewrite Hro, Hvalid.
    rewrite Seller_handleCreateSale_submits by exact Hro.
    cbv zeta. cbn [writes toasts table]. split; [| split].
    + eexists. split; [reflexivity |]. repeat split.
    + reflexivity.
    + intros i Hi.
      destruct (upsert_lookup newId (Seller.submitPayload user now st) i tbl)
        as (r & Hr & Hstatus & _); [exact Hi |].
      rewrite Hr. cbn. rewrite Hstatus. reflexivity.
Qed.

Lemma transition_without_approve_capability_witness :
  (let o := Manager.handleUpdateStatus
              Sample.getTime Sample.viewOnlyCtx true true
              (Sample.managerState [Sample.inProgressRow]) [Sample.inProgressRow]
              Sample.saleId ANALYZED None in
   toasts o = [(PermissaoInsuficiente, warning)]
   /\ writes o = [] /\ table o = [Sample.inProgressRow])
  /\ (exists o,
         LocalManager.handleUpdateStatus
           Sample.parse Sample.engineOrder Sample.localViewOnlyCtx
           (Sample.localState (Sample.localStorageOf Sample.finishedRow))
           (Sample.localStorageOf Sample.finishedRow)
           Sample.saleId IN_PROGRESS (Some Sample.reason)
         = LocalManager.Done o
         /\ LocalManager.toasts o = [(PermissaoInsuficiente, warning)]
         /\ LocalManager.setItems o = []
         /\ LocalManager.storage o = Sample.localStorageOf Sample.finishedRow)
  /\ Row.status
       <$> Store.lookup Sample.saleId2
             (table (SellerForm.onSubmit
                       Sample.rejectAll Sample.rejectAll Sample.getTime Sample.newId
                       Sample.ana Sample.now true true
                       (SellerForm.openEditModal
                          (saleOfRow Sample.draftRow2)
                          (Seller.mount Sample.getTime true Sample.ana [Sample.draftRow2]))
                       [Sample.draftRow2]))
     = Some IN_PROGRESS.
Proof.
  destruct transition_without_approve_capability as (Hremote & Hlocal & Hseller).
  split; [| split].
  - apply Hremote. reflexivity.
  - apply Hlocal. reflexivity.
  - refine (proj2 (proj2 (Hseller Sample.rejectAll Sample.rejectAll Sample.getTime
                            Sample.newId Sample.ana Sample.now true
                            (SellerForm.openEditModal
                               (saleOfRow Sample.draftRow2)
                               (Seller.mount Sample.getTime true Sample.ana
                                             [Sample.draftRow2]))
                            [Sample.draftRow2] _ _))
                  Sample.saleId2 _); reflexivity.
Defined.

(** C4 fails as stated.  The administrator has left sellers the
    view-own-records capability only, so Ana, a seller, holds no create
    capability; the route of the seller page asks for view-own-records and
    shows her the page.  She opens the draft of her list, whose form the
    page takes as valid, and submits it: the submission is written and the
    stored sale is IN_PROGRESS. *)
Lemma submission_without_create_capability :
  let perms :=
    App.initApp (Some [ {| App.role := SELLER; App.permissions := [VIEW_OWN_SALES] |} ]) in
  let auth := Sample.session Sample.ana in
  let tbl := [Sample.draftRow2] in
  let st0 := Seller.mount Sample.getTime true Sample.ana tbl in
  let st := SellerForm.openEditModal (saleOfRow Sample.draftRow2) st0 in
  let o := SellerForm.onSubmit Sample.rejectAll Sample.rejectAll Sample.getTime Sample.newId
                               Sample.ana Sample.now true true st tbl in
  App.hasPermission auth perms CREATE_SALES = false
  /\ Routes.remoteRoutes auth perms Routes.seller = Routes.Show Routes.SellerDashboard
  /\ Seller.sales st0 = [saleOfRow Sample.draftRow2]
  /\ Row.status <$> Store.lookup Sample.saleId2 tbl = Some DRAFT
  /\ length (writes o) = 1%nat
  /\ toasts o = [(FichaEnviada, success)]
  /\ Row.status <$> Store.lookup Sample.saleId2 (table o) = Some IN_PROGRESS.
Proof. vm_compute. repeat split. Qed.

(** ** Regression without a reason (C5) *)

(** C5, as the code has it.  The reason is asked for by the manager pages
    only.  There, a change to IN_PROGRESS of a sale that the page lists as
    ANALYZED or FINISHED, with a reason that is absent or shorter than five
    characters once trimmed, is refused: no write is sent and the store is
    as it was; the refusal is the warning that a justification is required,
    or the permission warning for an actor without the approve capability,
    who is stopped by the earlier guard.  The seller page asks for no
    reason: the submission of a sale that its list shows as ANALYZED, with a
    form the page takes as valid, takes the sale back to IN_PROGRESS, with a
    null return reason and a history entry that carries no reason.  Only a
    sale listed as FINISHED is closed to the seller: nothing is sent. *)
Theorem reason_is_asked_on_the_manager_pages_only :
  (forall (getTime : jsstring -> Z) (c : Manager.Ctx) (updateOk selectOk : bool)
          (st : Manager.State) (tbl : Store.Table) (id : jsstring)
          (reason : option jsstring) (sale : Sale.t),
      List.find (fun s => bool_decide (Sale.id s = id)) (Manager.sales st) = Some sale ->
      Sale.status sale = ANALYZED \/ Sale.status sale = FINISHED ->
      reason = None \/ (exists r, reason = Some r /\ (length (trim r) < 5)%nat) ->
      let o := Manager.handleUpdateStatus getTime c updateOk selectOk st tbl id IN_PROGRESS reason in
      writes o = [] /\ table o = tbl
      /\ toasts o
         = [(if App.hasPermission (Manager.auth c) (Manager.permissions c) APPROVE_SALES
             then JustificativaObrigatoria else PermissaoInsuficiente, warning)])
  /\
  (forall (getTime : jsstring -> option Z) (engineOrder : list Sale.t -> list Sale.t)
          (c : LocalManager.Ctx)
          (st : LocalManager.State) (ls : LocalManager.LocalStorage) (id : jsstring)
          (reason : option jsstring) (sale : Sale.t),
      List.find (fun s => bool_decide (Sale.id s = id)) (LocalManager.sales st) = Some sale ->
      Sale.status sale = ANALYZED \/ Sale.status sale = FINISHED ->
      reason = None \/ (exists r, reason = Some r /\ (length (trim r) < 5)%nat) ->
      exists o,
        LocalManager.handleUpdateStatus getTime engineOrder c st ls id IN_PROGRESS reason
        = LocalManager.Done o
        /\ LocalManager.setItems o = [] /\ LocalManager.storage o = ls
        /\ LocalManager.toasts o
           = [(if App.hasPermission (LocalManager.auth c) (LocalManager.permissions c)
                                    APPROVE_SALES
               then JustificativaObrigatoria else PermissaoInsuficiente, warning)])
  /\
  (forall (cpfIsValid cnpjIsValid : jsstring -> bool)
          (getTime : jsstring -> Z) (newId : Store.Table -> jsstring)
          (user : User.t) (now : jsstring) (selectOk : bool)
          (st : Seller.State) (tbl : Store.Table) (i : jsstring) (existing : Sale.t),
      Seller.editingSaleId st = Some i ->
      Seller.findEditing st = Some existing ->
      Sale.status existing = ANALYZED ->
      SellerForm.isFormValid cpfIsValid cnpjIsValid false (Seller.formData st) = true ->
      let o := SellerForm.onSubmit cpfIsValid cnpjIsValid getTime newId user now
                                   true selectOk st tbl in
      (exists p e,
          writes o = [Store.Upsert p]
          /\ Payload.id p = Some i
          /\ Payload.status p = IN_PROGRESS
          /\ Payload.return_reason p = Some None
          /\ Payload.status_history p = Sale.history existing ++ [e]
          /\ Entry.status e = IN_PROGRESS
          /\ Entry.reason e = None)
      /\ toasts o = [(FichaEnviada, success)]
      /\ (exists row',
             Store.lookup i (table o) = Some row'
             /\ Row.status row' = IN_PROGRESS
             /\ Row.return_reason row' = None))
  /\
  (forall (cpfIsValid cnpjIsValid : jsstring -> bool)
          (getTime : jsstring -> Z) (newId : Store.Table -> jsstring)
          (user : User.t) (now : jsstring) (upsertOk selectOk : bool)
          (st : Seller.State) (tbl : Store.Table) (i : jsstring) (existing : Sale.t),
      Seller.editingSaleId st = Some i ->
      i <> [] ->
      Seller.findEditing st = Some existing ->
      Sale.status existing = FINISHED ->
      let o := SellerForm.onSubmit cpfIsValid cnpjIsValid getTime newId user now
                                   upsertOk selectOk st tbl in
      writes o = [] /\ toasts o = [] /\ table o = tbl).
Proof.
  assert (Hreg : forall s, s = ANALYZED \/ s = FINISHED -> isRegressionOf s IN_PROGRESS = true)
    by (intros s [-> | ->]; reflexivity).
  split; [| split; [| split]].
  - intros getTime c updateOk selectOk st tbl id reason sale Hfind Hst Hshort o. subst o.
    unfold Manager.handleUpdateStatus.
    destruct (App.hasPermission _ _ _); simpl; [| auto].
    rewrite Hfind, (Hreg _ Hst), (reasonMissing_absent_or_short _ Hshort). simpl. auto.
  - intros getTime engineOrder c st ls id reason sale Hfind Hst Hshort.
    unfold LocalManager.handleUpdateStatus.
    destruct (App.hasPermission _ _ _); simpl;
      [| eexists; split; [reflexivity | auto]].
    rewrite Hfind, (Hreg _ Hst), (reasonMissing_absent_or_short _ Hshort). simpl.
    eexists. split; [reflexivity | auto].
  - intros cpfIsValid cnpjIsValid getTime newId user now selectOk st tbl i existing
           Hid Hfind Hst Hvalid o.
    assert (Hro : Seller.isReadOnly st = false)
      by (apply (isReadOnly_not_finished st existing Hfind); rewrite Hst; discriminate).
    subst o. unfold SellerForm.onSubmit. rewrite Hro, Hvalid.
    rewrite Seller_handleCreateSale_submits by exact Hro.
    cbv zeta. cbn [writes toasts table].
    assert (Hp : Payload.id (Seller.submitPayload user now st) = Some i
                 /\ Payload.return_reason (Seller.submitPayload user now st) = Some None
                 /\ Payload.status (Seller.submitPayload user now st) = IN_PROGRESS
                 /\ Payload.status_history (Seller.submitPayload user now st)
                    = Sale.history existing
                      ++ [Entry.mk IN_PROGRESS (User.name user) now None]).
    { unfold Seller.submitPayload. rewrite Hfind, Hid. repeat split. }
    destruct Hp as (Hpid & Hprr & Hpst & Hph).
    split; [| split].
    + exists (Seller.submitPayload user now st),
             (Entry.mk IN_PROGRESS (User.name user) now None).
      split; [reflexivity |]. split; [exact Hpid |]. split; [exact Hpst |].
      split; [exact Hprr |]. split; [exact Hph |]. split; reflexivity.
    + reflexivity.
    + destruct (upsert_lookup newId (Seller.submitPayload user now st) i tbl Hpid)
        as (r & Hr & Hstatus & _ & _ & Hrr).
      exists r. split; [exact Hr |]. split; [rewrite Hstatus; exact Hpst |].
      apply Hrr. exact Hprr.
  - intros cpfIsValid cnpjIsValid getTime newId user now upsertOk selectOk st tbl i existing
           Hid Hne Hfind Hst o.
    assert (Hro : Seller.isReadOnly st = true).
    { unfold Seller.isReadOnly. rewrite Hfind, Hid, Hst.
      destruct i; [congruence | reflexivity]. }
    subst o. unfold SellerForm.onSubmit, Seller.handleCreateSale. rewrite Hro. auto.
Qed.

Lemma reason_is_asked_on_the_manager_pages_only_witness :
  (let o := Manager.handleUpdateStatus
              Sample.getTime Sample.managerCtx true true
              (Sample.managerState [Sample.finishedRow]) [Sample.finishedRow]
              Sample.saleId IN_PROGRESS (Some (lit "  nao   ")) in
   writes o = [] /\ table o = [Sample.finishedRow]
   /\ toasts o = [(JustificativaObrigatoria, warning)])
  /\ (exists o,
         LocalManager.handleUpdateStatus
           Sample.parse Sample.engineOrder Sample.localCtx
           (Sample.localState (Sample.localStorageOf Sample.finishedRow))
           (Sample.localStorageOf Sample.finishedRow)
           Sample.saleId IN_PROGRESS None
         = LocalManager.Done o
         /\ LocalManager.setItems o = []
         /\ LocalManager.storage o = Sample.localStorageOf Sample.finishedRow
         /\ LocalManager.toasts o = [(JustificativaObrigatoria, warning)])
  /\ (exists row',
         Store.lookup Sample.saleId2
           (table (SellerForm.onSubmit
                     Sample.rejectAll Sample.rejectAll Sample.getTime Sample.newId
                     Sample.ana Sample.now true true
                     (SellerForm.openEditModal
                        (saleOfRow Sample.analysedRow2)
                        (Seller.mount Sample.getTime true Sample.ana [Sample.analysedRow2]))
                     [Sample.analysedRow2]))
         = Some row'
         /\ Row.status row' = IN_PROGRESS
         /\ Row.return_reason row' = None).
Proof.
  destruct reason_is_asked_on_the_manager_pages_only as (Hremote & Hlocal & Hseller & _).
  split; [| split].
  - refine (Hremote Sample.getTime Sample.managerCtx true true
                    (Sample.managerState [Sample.finishedRow]) [Sample.finishedRow]
                    Sample.saleId (Some (lit "  nao   ")) (saleOfRow Sample.finishedRow)
                    _ _ _).
    + reflexivity.
    + right. reflexivity.
    + right. exists (lit "  nao   "). split; [reflexivity | vm_compute; lia].
  - refine (Hlocal Sample.parse Sample.engineOrder Sample.localCtx
                   (Sample.localState (Sample.localStorageOf Sample.finishedRow))
                   (Sample.localStorageOf Sample.finishedRow)
                   Sample.saleId None (saleOfRow Sample.finishedRow) _ _ _).
    + reflexivity.
    + right. reflexivity.
    + left. reflexivity.
  - refine (proj2 (proj2 (Hseller Sample.rejectAll Sample.rejectAll Sample.getTime
                            Sample.newId Sample.ana Sample.now true
                            (SellerForm.openEditModal
                               (saleOfRow Sample.analysedRow2)
                               (Seller.mount Sample.getTime true Sample.ana
                                             [Sample.analysedRow2]))
                            [Sample.analysedRow2] Sample.saleId2
                            (saleOfRow Sample.analysedRow2) _ _ _ _)));
      reflexivity.
Defined.

(** C5 fails as stated.  A sale of Ana's is ANALYZED.  Ana opens it from her
    list, where the form is open to her, and submits it: no reason is asked
    for or given, the submission is reported as a success, and the stored
    sale is back IN_PROGRESS with a fourth history entry that carries no
    reason and with no return reason. *)
Lemma analysed_sale_returns_without_a_reason :
  let tbl := [Sample.analysedRow2] in
  let st0 := Seller.mount Sample.getTime true Sample.ana tbl in
  let st := SellerForm.openEditModal (saleOfRow Sample.analysedRow2) st0 in
  let o := SellerForm.onSubmit Sample.rejectAll Sample.rejectAll Sample.getTime Sample.newId
                               Sample.ana Sample.now true true st tbl in
  (Seller.sales st0 = [saleOfRow Sample.analysedRow2]
   /\ Row.status <$> Store.lookup Sample.saleId2 tbl = Some ANALYZED
   /\ isRegressionOf ANALYZED IN_PROGRESS = true)
  /\ length (writes o) = 1%nat
  /\ toasts o = [(FichaEnviada, success)]
  /\ Row.status <$> Store.lookup Sample.saleId2 (table o) = Some IN_PROGRESS
  /\ Row.return_reason <$> Store.lookup Sample.saleId2 (table o) = Some None
  /\ (map Entry.status <$> (Store.lookup Sample.saleId2 (table o) ≫= Row.status_history)
      = Some [DRAFT; IN_PROGRESS; ANALYZED; IN_PROGRESS])
  /\ (map Entry.reason <$> (Store.lookup Sample.saleId2 (table o) ≫= Row.status_history)
      = Some [None; None; None; None]).
Proof. vm_compute. repeat split. Qed.

(** ** The history after a submission (C6) *)

(** C6 fails on the code.  The submission extends the history that the
    page's list holds for the sale, and the autosave, which rewrites the
    stored history, does not reload the list.  After an autosave the
    submission therefore does not extend the stored history by one entry.

    First session: Ana fills in a new form and the autosave fires: the row
    is created with a history of one DRAFT entry.  She submits before the
    list is reloaded: the change of the stored sale from DRAFT to
    IN_PROGRESS is reported as a success, the stored history is one
    IN_PROGRESS entry, the DRAFT entry is gone, and the creation time is the
    time of the submission.

    Second session: Ana opens a sale of her list that the manager has
    returned (four entries) and the autosave fires: the stored sale is a
    draft with a history of one entry.  She submits: the change from DRAFT
    to IN_PROGRESS is reported as a success and the stored history has five
    entries, the four of the list and the new one; the entry that was stored
    is gone. *)
Theorem submission_after_autosave_rewrites_history :
  let history (i : jsstring) (t : Store.Table) := Store.lookup i t ≫= Row.status_history in
  (let st := SellerForm.setFormData
               Sample.form2
               (SellerForm.openNewModal (Seller.mount Sample.getTime true Sample.ana [])) in
   let o1 := Seller.autosave Sample.newId Sample.ana Sample.now1 true st [] in
   let o2 := SellerForm.onSubmit Sample.rejectAll Sample.rejectAll Sample.getTime
                                 Sample.newId Sample.ana Sample.now2 true true
                                 (state o1) (table o1) in
   toasts o1 = []
   /\ Seller.editingSaleId (state o1) = Some (lit "row-0")
   /\ Row.status <$> Store.lookup (lit "row-0") (table o1) = Some DRAFT
   /\ history (lit "row-0") (table o1)
      = Some [Entry.mk DRAFT (User.name Sample.ana) Sample.now1 None]
   /\ Row.created_at <$> Store.lookup (lit "row-0") (table o1) = Some Sample.now1
   /\ toasts o2 = [(FichaEnviada, success)]
   /\ Row.status <$> Store.lookup (lit "row-0") (table o2) = Some IN_PROGRESS
   /\ history (lit "row-0") (table o2)
      = Some [Entry.mk IN_PROGRESS (User.name Sample.ana) Sample.now2 None]
   /\ Row.created_at <$> Store.lookup (lit "row-0") (table o2) = Some Sample.now2
   /\ length (table o2) = 1%nat)
  /\
  (let tbl := [Sample.returnedRow2] in
   let st := SellerForm.openEditModal (saleOfRow Sample.returnedRow2)
                                      (Seller.mount Sample.getTime true Sample.ana tbl) in
   let o1 := Seller.autosave Sample.newId Sample.ana Sample.now1 true st tbl in
   let o2 := SellerForm.onSubmit Sample.rejectAll Sample.rejectAll Sample.getTime
                                 Sample.newId Sample.ana Sample.now2 true true
                                 (state o1) (table o1) in
   toasts o1 = []
   /\ Row.status <$> Store.lookup Sample.saleId2 (table o1) = Some DRAFT
   /\ history Sample.saleId2 (table o1)
      = Some [Entry.mk DRAFT (User.name Sample.ana) Sample.now1 None]
   /\ toasts o2 = [(FichaEnviada, success)]
   /\ Row.status <$> Store.lookup Sample.saleId2 (table o2) = Some IN_PROGRESS
   /\ history Sample.saleId2 (table o2)
      = Some (default [] (Row.status_history Sample.returnedRow2)
              ++ [Entry.mk IN_PROGRESS (User.name Sample.ana) Sample.now2 None])
   /\ length (table o2) = 1%nat).
Proof. vm_compute. repeat split. Qed.

(** When the list has been reloaded between the autosave and the
    submission, the history is extended: the sibling case the code gets
    right. *)
Example submission_after_a_reload_extends_the_history :
  let st := SellerForm.setFormData
              Sample.form2
              (SellerForm.openNewModal (Seller.mount Sample.getTime true Sample.ana [])) in
  let o1 := Seller.autosave Sample.newId Sample.ana Sample.now1 true st [] in
  let reloaded := Seller.loadData Sample.getTime true Sample.ana (table o1) (state o1) in
  let o2 := SellerForm.onSubmit Sample.rejectAll Sample.rejectAll Sample.getTime
                                Sample.newId Sample.ana Sample.now2 true true
                                reloaded (table o1) in
  Store.lookup (lit "row-0") (table o2) ≫= Row.status_history
  = Some [Entry.mk DRAFT (User.name Sample.ana) Sample.now1 None;
          Entry.mk IN_PROGRESS (User.name Sample.ana) Sample.now2 None].
Proof. vm_compute. reflexivity. Qed.

(** ** Lists the pages show *)

Lemma insertDesc_perm {A} (key : A -> Z) (x : A) (l : list A) :
  Store.insertDesc key x l ≡ₚ x :: l.
Proof.
  induction l as [| y l IH]; simpl; [reflexivity |].
  destruct (key y <=? key x)%Z; [reflexivity |].
  rewrite IH. apply perm_swap.
Qed.

Lemma sortDesc_perm {A} (key : A -> Z) (l : list A) :
  Store.sortDesc key l ≡ₚ l.
Proof.
  induction l as [| x l IH]; simpl; [reflexivity |].
  unfold Store.sortDesc in IH. rewrite insertDesc_perm, IH. reflexivity.
Qed.

Lemma loadData_own_sales
    (getTime : jsstring -> Z) (user : User.t) (tbl : Store.Table)
    (st : Seller.State) (s : Sale.t) :
  s ∈ Seller.sales (Seller.loadData getTime true user tbl st) ->
  Sale.sellerId s = User.id user
  /\ exists row, row ∈ tbl /\ s = saleOfRow row.
Proof.
  unfold Seller.loadData. simpl. intros Hin.
  apply list_elem_of_fmap in Hin as (row & -> & Hrow).
  unfold Store.select_eq_seller_id, Store.order_created_at_desc in Hrow.
  rewrite sortDesc_perm in Hrow.
  apply list_elem_of_filter in Hrow as [Hown Hrow].
  split; [exact Hown | exists row; auto].
Qed.

(** ** Deleting a draft (C7) *)

(** C7, as the code has it.  [handleDeleteDraft] checks neither the status
    of the sale nor its owner: once the actor confirms and the store accepts
    the request, the row of the given identity is gone, whatever it was, and
    every other row is untouched; without confirmation no request is sent,
    and a request the store refuses changes nothing.  What restricts
    deletion is the page: the trash button is offered only on a listed sale
    whose status in the list is DRAFT, and the list holds only the seller's
    own sales, as the store had them when the list was loaded. *)
Theorem draft_deletion_checks_neither_state_nor_owner :
  (forall (getTime : jsstring -> Z) (user : User.t) (selectOk : bool)
          (st : Seller.State) (tbl : Store.Table) (draftId : jsstring),
      let o := Seller.handleDeleteDraft getTime user true true selectOk st tbl draftId in
      writes o = [Store.Delete draftId]
      /\ toasts o = [(RascunhoExcluido, info)]
      /\ Store.lookup draftId (table o) = None
      /\ (forall j, draftId <> j -> Store.lookup j (table o) = Store.lookup j tbl))
  /\
  (forall (getTime : jsstring -> Z) (user : User.t) (confirmed deleteOk selectOk : bool)
          (st : Seller.State) (tbl : Store.Table) (draftId : jsstring),
      confirmed && deleteOk = false ->
      let o := Seller.handleDeleteDraft getTime user confirmed deleteOk selectOk st tbl draftId in
      table o = tbl /\ state o = st /\ toasts o = []
      /\ writes o = if confirmed then [Store.Delete draftId] else [])
  /\
  (forall (getTime : jsstring -> Z) (user : User.t) (tbl : Store.Table)
          (st : Seller.State) (s : Sale.t),
      s ∈ Seller.sales (Seller.loadData getTime true user tbl st) ->
      Sale.sellerId s = User.id user
      /\ (Seller.deleteOffered s = true <-> Sale.status s = DRAFT)).
Proof.
  split; [| split].
  - intros getTime user selectOk st tbl draftId o. subst o.
    unfold Seller.handleDeleteDraft. cbn [writes toasts table].
    split; [reflexivity |]. split; [reflexivity |].
    split; [apply lookup_delete |].
    intros j Hne. apply lookup_delete_other. exact Hne.
  - intros getTime user confirmed deleteOk selectOk st tbl draftId Hno o. subst o.
    unfold Seller.handleDeleteDraft.
    destruct confirmed, deleteOk; try discriminate; auto.
  - intros getTime user tbl st s Hin.
    split; [apply (loadData_own_sales _ _ _ _ _ Hin) |].
    unfold Seller.deleteOffered, status_eqb. apply bool_decide_eq_true.
Qed.

Lemma draft_deletion_checks_neither_state_nor_owner_witness :
  (let o := Seller.handleDeleteDraft
              Sample.getTime Sample.ana false true true
              (Sample.sellerState [Sample.draftRow] None) [Sample.draftRow]
              Sample.saleId in
   table o = [Sample.draftRow]
   /\ state o = Sample.sellerState [Sample.draftRow] None
   /\ toasts o = [] /\ writes o = [])
  /\ (Sale.sellerId (saleOfRow Sample.draftRow) = User.id Sample.ana
      /\ (Seller.deleteOffered (saleOfRow Sample.draftRow) = true
          <-> Sale.status (saleOfRow Sample.draftRow) = DRAFT)).
Proof.
  destruct draft_deletion_checks_neither_state_nor_owner as (_ & Hrefused & Hpage).
  split.
  - apply Hrefused. reflexivity.
  - apply (Hpage Sample.getTime Sample.ana [Sample.draftRow]
                 (Seller.mkState [] true None Sample.form true)).
    vm_compute. apply list_elem_of_here.
Defined.

(** C7 fails as stated.  Ana's page lists her sale as a draft and offers the
    trash button on it.  Before the page reloads its list, the sale is
    submitted from another tab and is IN_PROGRESS in the store.  Ana presses
    the button and confirms: nothing refuses the request, the row of the
    sale in progress is removed and the page reports a deleted draft. *)
Lemma listed_draft_submitted_elsewhere_is_deleted :
  let st := Seller.mount Sample.getTime true Sample.ana [Sample.draftRow] in
  let tbl := [Sample.inProgressRow] in
  let o := Seller.handleDeleteDraft Sample.getTime Sample.ana true true true st tbl
                                    Sample.saleId in
  (Seller.sales st = [saleOfRow Sample.draftRow]
   /\ Seller.deleteOffered (saleOfRow Sample.draftRow) = true
   /\ Sale.id (saleOfRow Sample.draftRow) = Sample.saleId)
  /\ (Row.status <$> Store.lookup Sample.saleId tbl = Some IN_PROGRESS
      /\ Row.seller_id <$> Store.lookup Sample.saleId tbl = Some (User.id Sample.ana))
  /\ writes o = [Store.Delete Sample.saleId]
  /\ toasts o = [(RascunhoExcluido, info)]
  /\ table o = [].
Proof. vm_compute. repeat split. Qed.

(** The history extended is the one of the sale in the page's list.  A form
    whose sale is not in the list (a new sale, or a draft the autosave has
    just created and the list has not yet loaded) is submitted with a
    history of one entry. *)
Example submission_of_an_unlisted_sale_starts_a_history :
  let st := Seller.mkState [] true (Some Sample.saleId) Sample.form false in
  Seller.findEditing st = None
  /\ Payload.status_history (Seller.submitPayload Sample.ana Sample.now st)
     = [Entry.mk IN_PROGRESS (User.name Sample.ana) Sample.now None].
Proof. split; reflexivity. Qed.

(** ** Autosave (C8) *)

(** C8.  Every write the autosave sends is an upsert whose status is DRAFT
    and whose history holds exactly one entry, a DRAFT entry of the user at
    the time of the save.  The autosave does write whenever the modal is
    open on a sale that is not read-only and the name or the document of the
    form is filled in: under the identity the form edits, or under none for
    a new form and for an identity that starts with TMP_.  When the store
    accepts the write, the row of the edited sale has status DRAFT and that
    single entry as its history, however long its history was before, and
    no row is added; for a new form one row is added, a draft with that
    single entry. *)
Theorem autosave_writes_single_draft_entry
    (newId : Store.Table -> jsstring) (user : User.t) (now : jsstring)
    (upsertOk : bool) (st : Seller.State) (tbl : Store.Table) :
  let o := Seller.autosave newId user now upsertOk st tbl in
  let entry := Entry.mk DRAFT (User.name user) now None in
  let armed :=
    Seller.showModal st = true
    /\ Seller.isReadOnly st = false
    /\ truthy (CustomerData.nome (Seller.formData st))
       || truthy (CustomerData.cpf (Seller.formData st)) = true in
  (forall w, w ∈ writes o ->
     exists p,
       w = Store.Upsert p
       /\ Payload.status p = DRAFT
       /\ Payload.status_history p = [entry])
  /\ (armed ->
      exists p,
        writes o = [Store.Upsert p]
        /\ (forall i, Seller.editingSaleId st = Some i ->
            Payload.id p = if startsWith (lit "TMP_") i then None else Some i)
        /\ (Seller.editingSaleId st = None -> Payload.id p = None))
  /\ (forall i row,
        armed ->
        upsertOk = true ->
        Seller.editingSaleId st = Some i ->
        startsWith (lit "TMP_") i = false ->
        Store.lookup i tbl = Some row ->
        (exists row',
            Store.lookup i (table o) = Some row'
            /\ Row.status row' = DRAFT
            /\ Row.status_history row' = Some [entry])
        /\ length (table o) = length tbl)
  /\ (armed ->
      upsertOk = true ->
      Seller.editingSaleId st = None ->
      exists row',
        table o = tbl ++ [row']
        /\ Row.id row' = newId tbl
        /\ Row.status row' = DRAFT
        /\ Row.status_history row' = Some [entry]).
Proof.
  intros o entry armed.
  assert (Hwrites :
            armed ->
            o = if upsertOk
                then mkOutcome
                       (Seller.mkState
                          (Seller.sales st) (Seller.showModal st)
                          (if negb (truthyO (Seller.editingSaleId st))
                           then Some (Row.id (snd (Store.upsert
                                                     newId (Seller.autosavePayload user now st)
                                                     tbl)))
                           else Seller.editingSaleId st)
                          (Seller.formData st) (Seller.isLoading st))
                       (fst (Store.upsert newId (Seller.autosavePayload user now st) tbl))
                       [Store.Upsert (Seller.autosavePayload user now st)] []
                else mkOutcome st tbl [Store.Upsert (Seller.autosavePayload user now st)] []).
  { intros (Hshow & Hro & Hfilled). subst o. unfold Seller.autosave.
    rewrite Hshow, Hro, Hfilled. cbn [negb orb].
    destruct upsertOk; [| reflexivity]. destruct (Store.upsert _ _ _). reflexivity. }
  split; [| split; [| split]].
  - intros w Hw. subst o. unfold Seller.autosave in Hw.
    destruct (negb _ || _); [inversion Hw |].
    destruct (truthy _ || truthy _); [| inversion Hw].
    assert (Hw' : w = Store.Upsert (Seller.autosavePayload user now st)).
    { destruct upsertOk; [destruct (Store.upsert _ _ _) |];
        cbn [writes] in Hw; apply list_elem_of_singleton in Hw; exact Hw. }
    subst w. eexists. split; [reflexivity |]. split; reflexivity.
  - intros Harmed. rewrite (Hwrites Harmed).
    exists (Seller.autosavePayload user now st).
    split; [destruct upsertOk; reflexivity |]. split.
    + intros i Hi. unfold Seller.autosavePayload, Seller.autosaveId.
      rewrite Hi. reflexivity.
    + intros Hnone. unfold Seller.autosavePayload. rewrite Hnone. reflexivity.
  - intros i row Harmed -> Hi Htmp Hrow. rewrite (Hwrites Harmed). cbn [table].
    assert (Hid : Payload.id (Seller.autosavePayload user now st) = Some i).
    { unfold Seller.autosavePayload, Seller.autosaveId.
      rewrite Hi. cbn [Payload.id]. rewrite Htmp. reflexivity. }
    split.
    + rewrite (upsert_existing newId _ i row tbl Hid Hrow).
      eexists. split; [reflexivity |]. split; reflexivity.
    + unfold Store.upsert. rewrite Hid, Hrow. cbn [fst]. apply length_map.
  - intros Harmed -> Hnone. rewrite (Hwrites Harmed). cbn [table].
    unfold Store.upsert.
    replace (Payload.id (Seller.autosavePayload user now st)) with (@None jsstring)
      by (unfold Seller.autosavePayload; rewrite Hnone; reflexivity).
    cbn [fst]. eexists. split; [reflexivity |]. repeat split.
Qed.

(** Ana opens a sale that the manager has returned, with a history of four
    entries; the autosave leaves it a draft with a history of one. *)
Lemma autosave_writes_single_draft_entry_witness :
  let tbl := [Sample.returnedRow] in
  let st := SellerForm.openEditModal (saleOfRow Sample.returnedRow)
                                     (Seller.mount Sample.getTime true Sample.ana tbl) in
  let o := Seller.autosave Sample.newId Sample.ana Sample.now true st tbl in
  length (default [] (Store.lookup Sample.saleId tbl ≫= Row.status_history)) = 4%nat
  /\ (exists row',
         Store.lookup Sample.saleId (table o) = Some row'
         /\ Row.status row' = DRAFT
         /\ Row.status_history row'
            = Some [Entry.mk DRAFT (User.name Sample.ana) Sample.now None])
  /\ length (table o) = 1%nat.
Proof.
  split; [reflexivity |].
  refine (proj1 (proj2 (proj2 (autosave_writes_single_draft_entry
                                 Sample.newId Sample.ana Sample.now true
                                 (SellerForm.openEditModal
                                    (saleOfRow Sample.returnedRow)
                                    (Seller.mount Sample.getTime true Sample.ana
                                                  [Sample.returnedRow]))
                                 [Sample.returnedRow])))
                Sample.saleId Sample.returnedRow _ _ _ _ _).
  - repeat split.
  - reflexivity.
  - reflexivity.
  - reflexivity.
  - reflexivity.
Defined.

(** A draft whose row has grown a long history is cut back to one entry by
    the next autosave. *)
Example autosave_resets_a_long_history :
  let longRow :=
    Sample.row DRAFT
               [Sample.entry DRAFT Sample.ana; Sample.entry DRAFT Sample.ana;
                Sample.entry DRAFT Sample.ana; Sample.entry DRAFT Sample.ana]
               None in
  let st := Sample.sellerState [longRow] (Some Sample.saleId) in
  let o := Seller.autosave Sample.newId Sample.ana Sample.now true st [longRow] in
  Row.status_history <$> Store.lookup Sample.saleId (table o)
  = Some (Some [Entry.mk DRAFT (User.name Sample.ana) Sample.now None]).
Proof. vm_compute. reflexivity. Qed.

(** A form with neither name nor document is not saved. *)
Example autosave_skips_an_empty_form :
  writes (Seller.autosave Sample.newId Sample.ana Sample.now true
                          (Seller.mkState [] true None CustomerData.initial false) [])
  = [].
Proof. reflexivity. Qed.

(** ** Resubmission by the seller (C10) *)



(** The creation time is kept because it is a timestamp: [a || b] falls
    back to the clock only for a missing or empty one. *)
Example created_at_falls_back_to_the_clock :
  orElse (Some []) Sample.now = Sample.now
  /\ orElse None Sample.now = Sample.now
  /\ orElse (Some (lit "2024-05-01T09:00:00.000Z")) Sample.now
     = lit "2024-05-01T09:00:00.000Z".
Proof. repeat split. Qed.

(** ** The seen-set of the regression alerts *)

Section Alerts.
Variable getTime : jsstring -> option Z.
Variable engineOrder : list Sale.t -> list Sale.t.

Import LocalManager.

Lemma freshAlerts_none (seen : gset jsstring) (raised : list Notification) :
  alertedIds raised = [] -> freshAlerts seen raised seen.
Proof.
  intros Hnone. unfold freshAlerts. rewrite Hnone.
  split; [constructor |]. split.
  - intros i Hi. inversion Hi.
  - intros i. split; [auto |]. intros [H | H]; [exact H | inversion H].
Qed.

Lemma freshAlerts_app (s0 s1 s2 : gset jsstring) (a b : list Notification) :
  freshAlerts s0 a s1 -> freshAlerts s1 b s2 -> freshAlerts s0 (a ++ b) s2.
Proof.
  intros (Ha & Hnew_a & Hs1) (Hb & Hnew_b & Hs2).
  unfold freshAlerts, alertedIds. rewrite omap_app. fold (alertedIds a) (alertedIds b).
  split; [| split].
  - apply NoDup_app. split; [exact Ha |]. split; [| exact Hb].
    intros i Hia Hib. apply (Hnew_b i Hib). apply Hs1. right. exact Hia.
  - intros i Hi. apply elem_of_app in Hi as [Hi | Hi]; [apply Hnew_a; exact Hi |].
    intros Hseen. apply (Hnew_b i Hi). apply Hs1. left. exact Hseen.
  - intros i. rewrite Hs2, Hs1, elem_of_app. tauto.
Qed.

Lemma freshAlerts_one (seen : gset jsstring) (i : jsstring) :
  i ∉ seen -> freshAlerts seen [(AlertaRegressao i, warning)] ({[i]} ∪ seen).
Proof.
  intros Hnew. unfold freshAlerts. simpl. split; [apply NoDup_singleton |]. split.
  - intros j Hj. apply list_elem_of_singleton in Hj as ->. exact Hnew.
  - intros j. rewrite elem_of_union, elem_of_singleton, list_elem_of_singleton. tauto.
Qed.

Lemma scan_fresh (l : list Sale.t) (cur : list jsstring) (seen : gset jsstring)
    (raised : list Notification) :
  exists cur' seen' new,
    foldl scanSale (cur, seen, raised) l = (cur', seen', raised ++ new)
    /\ freshAlerts seen new seen'.
Proof.
  revert cur seen raised.
  induction l as [| sale l IH]; intros cur seen raised.
  - exists cur, seen, []. rewrite app_nil_r. split; [reflexivity |].
    apply freshAlerts_none. reflexivity.
  - change (foldl scanSale (cur, seen, raised) (sale :: l))
      with (foldl scanSale (scanSale (cur, seen, raised) sale) l).
    unfold scanSale at 2.
    destruct (hasBeenApproved sale && status_eqb (Sale.status sale) IN_PROGRESS);
      [| apply IH].
    destruct (bool_decide (Sale.id sale ∈ seen)) eqn:Hseen; [apply IH |].
    apply bool_decide_eq_false in Hseen.
    destruct (IH (cur ++ [Sale.id sale]) ({[Sale.id sale]} ∪ seen)
                 (raised ++ [(AlertaRegressao (Sale.id sale), warning)]))
      as (cur' & seen' & new & Hfold & Hfresh).
    exists cur', seen', ((AlertaRegressao (Sale.id sale), warning) :: new).
    split.
    + rewrite Hfold, <- app_assoc. reflexivity.
    + apply (freshAlerts_app _ _ _ [_] new (freshAlerts_one _ _ Hseen) Hfresh).
Qed.

Lemma loadAllSales_fresh (ls : LocalStorage) (st : State) :
  freshAlerts (notifiedRegressions st)
              (snd (loadAllSales getTime engineOrder ls st))
              (notifiedRegressions (fst (loadAllSales getTime engineOrder ls st))).
Proof.
  unfold loadAllSales.
  destruct (scan_fresh (sortedSales getTime engineOrder ls) [] (notifiedRegressions st) [])
    as (cur' & seen' & new & Hfold & Hfresh).
  rewrite Hfold. exact Hfresh.
Qed.

End Alerts.

(** ** Writes and the store *)

Example sortDesc_latest_first :
  Store.sortDesc fst [(1, "a"); (3, "b"); (2, "c"); (3, "d")]%Z
  = [(3, "b"); (3, "d"); (2, "c"); (1, "a")]%Z.
Proof. reflexivity. Qed.

Example isRegressionOf_table :
  map (fun s => isRegressionOf s IN_PROGRESS) [DRAFT; IN_PROGRESS; ANALYZED; FINISHED]
  = [false; false; true; true]
  /\ map (fun s => isRegressionOf FINISHED s) [DRAFT; ANALYZED; FINISHED]
     = [false; false; false].
Proof. split; reflexivity. Qed.

(** The table a handler of the remote pages leaves is the table it found
    with the writes it sent applied, when the store accepts them, and the
    table it found otherwise. *)
Lemma table_is_the_writes_applied
    (getTime : jsstring -> Z) (newId : Store.Table -> jsstring) (tbl : Store.Table) :
  let applied (ok : bool) (ws : list Store.Write) :=
    if ok then foldl (fun t w => Store.apply newId w t) tbl ws else tbl in
  (forall c updateOk selectOk st id newStatus reason,
      let o := Manager.handleUpdateStatus getTime c updateOk selectOk st tbl id newStatus reason in
      table o = applied updateOk (writes o))
  /\ (forall user now isFormValid upsertOk selectOk st,
         let o := Seller.handleCreateSale getTime newId user now isFormValid upsertOk selectOk st tbl in
         table o = applied upsertOk (writes o))
  /\ (forall user confirmed deleteOk selectOk st draftId,
         let o := Seller.handleDeleteDraft getTime user confirmed deleteOk selectOk st tbl draftId in
         table o = applied deleteOk (writes o))
  /\ (forall user now upsertOk st,
         let o := Seller.autosave newId user now upsertOk st tbl in
         table o = applied upsertOk (writes o)).
Proof.
  intros applied. subst applied. split; [| split; [| split]].
  - intros c updateOk selectOk st id newStatus reason o. subst o.
    unfold Manager.handleUpdateStatus.
    destruct (negb _); [destruct updateOk; reflexivity |].
    destruct (List.find _ _); [| destruct updateOk; reflexivity].
    destruct (_ && _); destruct updateOk; reflexivity.
  - intros user now isFormValid upsertOk selectOk st o. subst o.
    unfold Seller.handleCreateSale.
    destruct (Seller.isReadOnly st); [destruct upsertOk; reflexivity |].
    destruct isFormValid, upsertOk; reflexivity.
  - intros user confirmed deleteOk selectOk st draftId o. subst o.
    unfold Seller.handleDeleteDraft.
    destruct confirmed, deleteOk; reflexivity.
  - intros user now upsertOk st o. subst o.
    unfold Seller.autosave.
    destruct (negb _ || _); [destruct upsertOk; reflexivity |].
    destruct (truthy _ || truthy _); [| destruct upsertOk; reflexivity].
    destruct upsertOk; [| reflexivity].
    destruct (Store.upsert newId (Seller.autosavePayload user now st) tbl) eqn:Hup.
    cbn [table writes foldl Store.apply]. rewrite Hup. reflexivity.
Qed.

(** * Further properties of the pages *)

(** ** File names of uploads *)

Lemma lastIndexOf_None (c : N) (s : jsstring) :
  c ∉ s -> SellerForm.lastIndexOf c s = None.
Proof.
  induction s as [| x s IH]; [reflexivity |]. intros Hnot. simpl.
  rewrite IH by (intros H; apply Hnot; right; exact H).
  destruct (N.eqb_spec x c) as [-> | _]; [| reflexivity].
  exfalso. apply Hnot. left.
Qed.

Lemma lastIndexOf_app (c : N) (p t : jsstring) :
  c ∉ t -> SellerForm.lastIndexOf c (p ++ c :: t) = Some (length p).
Proof.
  intros Hnot. induction p as [| x p IH]; simpl.
  - rewrite lastIndexOf_None by exact Hnot. rewrite N.eqb_refl. reflexivity.
  - rewrite IH. reflexivity.
Qed.

Lemma indexOf_None (c : N) (s : jsstring) : c ∉ s -> SellerForm.indexOf c s = None.
Proof.
  induction s as [| x s IH]; [reflexivity |]. intros Hnot. simpl.
  destruct (N.eqb_spec x c) as [-> | _].
  - exfalso. apply Hnot. left.
  - rewrite IH by (intros H; apply Hnot; right; exact H). reflexivity.
Qed.

Lemma indexOf_app (c : N) (p t : jsstring) :
  c ∉ p -> SellerForm.indexOf c (p ++ c :: t) = Some (length p).
Proof.
  induction p as [| x p IH]; intros Hnot; simpl.
  - rewrite N.eqb_refl. reflexivity.
  - destruct (N.eqb_spec x c) as [-> | _].
    + exfalso. apply Hnot. left.
    + rewrite IH by (intros H; apply Hnot; right; exact H). reflexivity.
Qed.

Lemma lastIndexOf_Some (c : N) (s : jsstring) (i : nat) :
  SellerForm.lastIndexOf c s = Some i -> c ∉ drop (S i) s.
Proof.
  revert i. induction s as [| x s IH]; intros i; simpl; [discriminate |].
  destruct (SellerForm.lastIndexOf c s) as [j |] eqn:Hlast.
  - intros [= <-]. apply (IH j). reflexivity.
  - destruct (x =? c); [| discriminate]. intros [= <-]. rewrite drop_0.
    intros Hin. clear IH.
    induction s as [| y s IHs]; [inversion Hin |].
    simpl in Hlast. destruct (SellerForm.lastIndexOf c s) eqn:E; [discriminate |].
    destruct (N.eqb_spec y c) as [-> | Hne]; [discriminate |].
    apply elem_of_cons in Hin as [-> | Hin]; [congruence |].
    apply IHs; [reflexivity | exact Hin].
Qed.

Lemma drop_past {A} (p t : list A) (c : A) : drop (S (length p)) (p ++ c :: t) = t.
Proof. induction p as [| x p IH]; [reflexivity | exact IH]. Qed.

(** X1.  The name shown for an uploaded file is the name of the file: on a
    URL that ends with the path the upload stored the file under (user
    identity, slash, timestamp, underscore, file name), [extractFilename]
    gives back the file name, whatever precedes the path and whatever
    underscores the name has, as long as the name has no slash and the
    timestamp neither slash nor underscore.  On every URL the result is an
    end of the URL and has no slash; on the empty URL it is empty. *)
Theorem extractFilename_of_uploaded_file
    (prefix userId timestamp fileName url : jsstring) :
  SellerForm.slash ∉ fileName ->
  SellerForm.slash ∉ timestamp ->
  SellerForm.underscore ∉ timestamp ->
  SellerForm.extractFilename (prefix ++ SellerForm.filePath userId timestamp fileName)
  = fileName
  /\ (SellerForm.slash ∉ SellerForm.extractFilename url)
  /\ (exists before, url = before ++ SellerForm.extractFilename url)
  /\ SellerForm.extractFilename [] = [].
Proof.
  intros Hname Hts Hus.
  assert (Hgen : forall u,
             (SellerForm.slash ∉ SellerForm.extractFilename u)
             /\ exists before, u = before ++ SellerForm.extractFilename u).
  { intros u. unfold SellerForm.extractFilename.
    destruct (negb (truthy u)); [split; [intros H; inversion H | exists u; apply eq_sym, app_nil_r] |].
    assert (Hpart : exists b part,
               u = b ++ part /\ (SellerForm.slash ∉ part)
               /\ match SellerForm.lastIndexOf SellerForm.slash u with
                  | Some lastSlash => drop (S lastSlash) u
                  | None => u
                  end = part).
    { destruct (SellerForm.lastIndexOf SellerForm.slash u) as [i |] eqn:Hlast.
      - exists (take (S i) u), (drop (S i) u).
        split; [apply eq_sym, take_drop |]. split; [| reflexivity].
        apply lastIndexOf_Some. exact Hlast.
      - exists [], u. split; [reflexivity |]. split; [| reflexivity].
        clear -Hlast. induction u as [| x u IH]; [intros H; inversion H |].
        simpl in Hlast. destruct (SellerForm.lastIndexOf _ u); [discriminate |].
        destruct (N.eqb_spec x SellerForm.slash) as [-> | Hne]; [discriminate |].
        intros Hin. apply elem_of_cons in Hin as [Heq | Hin]; [congruence |].
        apply IH; [reflexivity | exact Hin]. }
    destruct Hpart as (b & part & Hu & Hnoslash & ->).
    destruct (SellerForm.indexOf SellerForm.underscore part) as [j |].
    - split.
      + intros Hin. apply Hnoslash.
        rewrite <- (take_drop (S j) part). apply elem_of_app. right. exact Hin.
      + exists (b ++ take (S j) part). rewrite <- app_assoc, take_drop. exact Hu.
    - split; [exact Hnoslash | exists b; exact Hu]. }
  split; [| split; [apply Hgen | split; [apply Hgen | reflexivity]]].
  unfold SellerForm.extractFilename, SellerForm.filePath.
  replace (prefix ++ userId ++ [SellerForm.slash] ++ timestamp
           ++ [SellerForm.underscore] ++ fileName)
    with ((prefix ++ userId) ++ SellerForm.slash
          :: (timestamp ++ SellerForm.underscore :: fileName))
    by (rewrite <- !app_assoc; reflexivity).
  assert (Htruthy : forall (p t : jsstring) c, truthy (p ++ c :: t) = true)
    by (intros [| ? ?] ? ?; reflexivity).
  rewrite Htruthy. cbn [negb].
  rewrite lastIndexOf_app.
  2:{ intros Hin. apply elem_of_app in Hin as [Hin | Hin]; [exact (Hts Hin) |].
      apply elem_of_cons in Hin as [Heq | Hin]; [discriminate | exact (Hname Hin)]. }
  rewrite drop_past, indexOf_app by exact Hus.
  apply drop_past.
Qed.

Lemma extractFilename_of_uploaded_file_witness :
  SellerForm.extractFilename
    (lit "https://files.example/object/public/sales-documents/"
     ++ SellerForm.filePath (lit "3") (lit "1714644000000") (lit "rg_frente.png"))
  = lit "rg_frente.png".
Proof.
  refine (proj1 (extractFilename_of_uploaded_file
                   (lit "https://files.example/object/public/sales-documents/")
                   (lit "3") (lit "1714644000000") (lit "rg_frente.png") [] _ _ _));
    vm_compute; intros H; repeat (apply elem_of_cons in H as [H | H]; [discriminate |]);
    inversion H.
Defined.

(** ** The telephone mask *)

Lemma digitsOf_digits (l : jsstring) :
  Forall (fun c => SellerForm.isDigit c = true) l -> SellerForm.digitsOf l = l.
Proof.
  unfold SellerForm.digitsOf. induction 1 as [| c l Hc _ IH]; [reflexivity |].
  rewrite filter_cons_True by exact Hc. rewrite IH. reflexivity.
Qed.

Lemma digitsOf_Forall (s : jsstring) :
  Forall (fun c => SellerForm.isDigit c = true) (SellerForm.digitsOf s).
Proof.
  apply Forall_forall. intros c Hc.
  apply list_elem_of_filter in Hc as [Hc _]. exact Hc.
Qed.

Lemma digitsOf_app (a b : jsstring) :
  SellerForm.digitsOf (a ++ b) = SellerForm.digitsOf a ++ SellerForm.digitsOf b.
Proof. apply filter_app. Qed.

Lemma telFormat_digits (v : jsstring) :
  Forall (fun c => SellerForm.isDigit c = true) v ->
  SellerForm.digitsOf (SellerForm.telFormat v) = v
  /\ (length v <= 11 -> length (SellerForm.telFormat v) <= 15)%nat.
Proof.
  intros Hv. unfold SellerForm.telFormat, SellerForm.slice.
  assert (Hsub : forall a b, SellerForm.digitsOf (take a (drop b v)) = take a (drop b v))
    by (intros; apply digitsOf_digits, Forall_take, Forall_drop, Hv).
  assert (Hdrop : forall b, SellerForm.digitsOf (drop b v) = drop b v)
    by (intros; apply digitsOf_digits, Forall_drop, Hv).
  destruct (Nat.eqb_spec (length v) 0) as [H0 | H0].
  { destruct v; [split; [reflexivity | simpl; lia] | discriminate]. }
  destruct (Nat.leb_spec (length v) 2) as [H2 | H2].
  { rewrite digitsOf_app. split; [exact (digitsOf_digits _ Hv) |].
    rewrite length_app. simpl. lia. }
  destruct (Nat.leb_spec (length v) 6) as [H6 | H6].
  { rewrite !digitsOf_app, Hsub, Hdrop. split.
    - simpl. apply take_drop.
    - rewrite !length_app, ?length_take, ?length_drop. cbn [lit length]. lia. }
  destruct (Nat.leb_spec (length v) 10) as [H10 | H10].
  { rewrite !digitsOf_app, !Hsub, Hdrop. split.
    - simpl. change (drop 6 v) with (drop (2 + 4) v).
      rewrite <- drop_drop, take_drop. apply take_drop.
    - rewrite !length_app, ?length_take, ?length_drop. cbn [lit length]. lia. }
  rewrite !digitsOf_app, !Hsub, Hdrop. split.
  - simpl. change (drop 7 v) with (drop (2 + 5) v).
    rewrite <- drop_drop, take_drop. apply take_drop.
  - rewrite !length_app, ?length_take, ?length_drop. cbn [lit length]. lia.
Qed.

(** X2.  The telephone field keeps the first eleven digits typed and
    nothing else: the digits of the masked value are the first eleven digits
    of the input, the masked value has at most fifteen code units (the
    [maxLength] of the field), and masking a masked value changes nothing.
    A disabled field stores nothing. *)
Theorem telephone_mask_keeps_eleven_digits (val : jsstring) (tel : bool) :
  SellerForm.digitsOf (SellerForm.telMask val) = take 11 (SellerForm.digitsOf val)
  /\ (length (SellerForm.telMask val) <= 15)%nat
  /\ SellerForm.telMask (SellerForm.telMask val) = SellerForm.telMask val
  /\ SellerForm.handleChange false true val = Some (SellerForm.telMask val)
  /\ SellerForm.handleChange true tel val = None.
Proof.
  assert (Hv : Forall (fun c => SellerForm.isDigit c = true)
                      (take 11 (SellerForm.digitsOf val)))
    by apply Forall_take, digitsOf_Forall.
  assert (Hlen : (length (take 11 (SellerForm.digitsOf val)) <= 11)%nat)
    by (rewrite length_take; lia).
  destruct (telFormat_digits _ Hv) as [Hdigits Hbound].
  assert (Hmask : forall s, SellerForm.telMask s
                            = SellerForm.telFormat (take 11 (SellerForm.digitsOf s)))
    by reflexivity.
  rewrite !Hmask.
  split; [exact Hdigits |]. split; [exact (Hbound Hlen) |].
  split; [| split; reflexivity].
  rewrite Hdigits. rewrite (take_ge (take 11 _)) by exact Hlen. reflexivity.
Qed.

Example telMask_steps :
  map SellerForm.telMask
      [lit "1"; lit "119"; lit "1198765"; lit "1133334444"; lit "11987654321";
       lit "(11) 98765-4321 ramal 9"; lit "abc"]
  = [lit "(1"; lit "(11) 9"; lit "(11) 9876-5"; lit "(11) 3333-4444";
     lit "(11) 98765-4321"; lit "(11) 98765-4321"; []].
Proof. reflexivity. Qed.

(** ** Regular expressions *)

Section RegexFacts.
Import Regex.

Lemma nullable_matches (r : re) : nullable r = true <-> matches r [].
Proof.
  split.
  - induction r as [| | p | a IHa b IHb | a IHa b IHb | a IHa]; simpl; intros H;
      try discriminate.
    + constructor.
    + apply andb_true_iff in H as [Ha Hb].
      apply (MSeq a b [] []); auto.
    + apply orb_true_iff in H as [H | H]; [apply MAltL | apply MAltR]; auto.
    + apply MPlus1. auto.
  - intros H. remember [] as s eqn:Hs.
    induction H as [| p c Hp | a b s1 s2 _ IH1 _ IH2 | a b s _ IH | a b s _ IH
                    | a s _ IH | a s1 s2 _ IH1 _ IH2]; simpl.
    + reflexivity.
    + discriminate.
    + apply app_eq_nil in Hs as [-> ->]. rewrite IH1, IH2; reflexivity.
    + rewrite IH by exact Hs. reflexivity.
    + rewrite IH by exact Hs. apply orb_true_r.
    + auto.
    + apply app_eq_nil in Hs as [-> _]. auto.
Qed.

Lemma matches_deriv (c : N) (r : re) (s : jsstring) :
  matches (deriv c r) s -> matches r (c :: s).
Proof.
  revert s.
  induction r as [| | p | a IHa b IHb | a IHa b IHb | a IHa]; simpl; intros s H.
  - inversion H.
  - inversion H.
  - destruct (p c) eqn:Hp; inversion H; subst. constructor. exact Hp.
  - destruct (nullable a) eqn:Hnull.
    + inversion H as [| | | a' b' s' H' | a' b' s' H' | |]; subst.
      * inversion H' as [| | a' b' s1 s2 H1 H2 | | | |]; subst.
        apply (MSeq a b (c :: s1) s2); auto.
      * apply (MSeq a b [] (c :: s)); [apply nullable_matches; exact Hnull | auto].
    + inversion H as [| | a' b' s1 s2 H1 H2 | | | |]; subst.
      apply (MSeq a b (c :: s1) s2); auto.
  - inversion H; subst; [apply MAltL | apply MAltR]; auto.
  - inversion H as [| | a' b' s1 s2 H1 H2 | | | |]; subst.
    inversion H2 as [| | | a' b' s' H' | a' b' s' H' | |]; subst.
    + inversion H'; subst. rewrite app_nil_r. apply MPlus1. auto.
    + apply (MPlusS a (c :: s1) s2); auto.
Qed.

Lemma deriv_matches (r : re) (s' : jsstring) :
  matches r s' -> forall c s, s' = c :: s -> matches (deriv c r) s.
Proof.
  induction 1 as [| p c0 Hp | a b s1 s2 H1 IH1 H2 IH2 | a b s0 _ IH | a b s0 _ IH
                  | a s0 _ IH | a s1 s2 H1 IH1 H2 IH2]; intros c s Hs; simpl.
  - discriminate.
  - injection Hs as -> <-. rewrite Hp. constructor.
  - destruct s1 as [| c1 s1]; simpl in Hs.
    + apply nullable_matches in H1. rewrite H1. apply MAltR. auto.
    + injection Hs as -> <-.
      assert (Hseq : matches (Seq (deriv c a) b) (s1 ++ s2))
        by (apply MSeq; auto).
      destruct (nullable a); [apply MAltL |]; exact Hseq.
  - apply MAltL. auto.
  - apply MAltR. auto.
  - rewrite <- (app_nil_r s). apply MSeq; [auto |]. apply MAltL. constructor.
  - destruct s1 as [| c1 s1]; simpl in Hs.
    + apply (IH2 c s Hs).
    + injection Hs as -> <-. apply MSeq; [auto |]. apply MAltR. exact H2.
Qed.

Lemma test_matches (r : re) (s : jsstring) : test r s = true <-> matches r s.
Proof.
  revert r. induction s as [| c s IH]; intros r.
  - apply nullable_matches.
  - change (test r (c :: s)) with (test (deriv c r) s). rewrite IH. split.
    + apply matches_deriv.
    + intros H. apply (deriv_matches r (c :: s) H c s eq_refl).
Qed.

Lemma matches_plus_class (p : N -> bool) (s : jsstring) :
  matches (Plus (Class p)) s <-> s <> [] /\ Forall (fun c => p c = true) s.
Proof.
  split.
  - intros H. remember (Plus (Class p)) as r eqn:Hr.
    induction H as [| | | | | a s H _ | a s1 s2 H1 _ H2 IH2]; try discriminate;
      injection Hr as ->.
    + inversion H; subst. split; [discriminate | repeat constructor; assumption].
    + inversion H1; subst. destruct (IH2 eq_refl) as [_ Hall].
      split; [discriminate | constructor; assumption].
  - intros [Hne Hall]. induction Hall as [| c s Hc Hall IH]; [congruence |].
    destruct s as [| c' s].
    + apply MPlus1. constructor. exact Hc.
    + apply (MPlusS (Class p) [c] (c' :: s)); [constructor; exact Hc |].
      apply IH. discriminate.
Qed.

End RegexFacts.

(** ** The e-mail address of the form *)

(** X3.  The e-mail test of the form accepts exactly the addresses made of
    a local part, one at sign, a domain, a dot and an ending, the three
    parts non-empty and free of white space and at signs (dots are allowed
    inside the parts).  An accepted address therefore has no white space
    and exactly one at sign; the form reports an e-mail error exactly when
    the field is filled in with an address the test rejects. *)
Theorem email_test_accepts_local_at_domain_dot_ending
    (cpfIsValid cnpjIsValid : jsstring -> bool) (formData : CustomerData.t)
    (s : jsstring) :
  let part (x : jsstring) :=
    x <> [] /\ Forall (fun c => SellerForm.notSpaceNorAt c = true) x in
  (Regex.test SellerForm.emailRegex s = true
   <-> exists l d t, s = l ++ [64] ++ d ++ [46] ++ t /\ part l /\ part d /\ part t)
  /\ (Regex.test SellerForm.emailRegex s = true ->
      Forall (fun c => isWhiteSpace c = false) s
      /\ length (filter (fun c => c = 64) s) = 1%nat)
  /\ (SellerForm.err_email ∈ SellerForm.errors cpfIsValid cnpjIsValid false formData
      <-> CustomerData.email formData <> []
          /\ Regex.test SellerForm.emailRegex (CustomerData.email formData) = false).
Proof.
  intros part.
  assert (Hshape : Regex.test SellerForm.emailRegex s = true
                   <-> exists l d t,
                         s = l ++ [64] ++ d ++ [46] ++ t /\ part l /\ part d /\ part t).
  { rewrite test_matches. unfold SellerForm.emailRegex. split.
    - intros H.
      inversion H as [| | a b l s1 Hl H1 | | | |]; subst.
      inversion H1 as [| | a b x s2 Hat H2 | | | |]; subst.
      inversion H2 as [| | a b d s3 Hd H3 | | | |]; subst.
      inversion H3 as [| | a b y t Hdot Ht | | | |]; subst.
      inversion Hat as [| p c Hc | | | | |]; subst.
      inversion Hdot as [| p c' Hc' | | | | |]; subst.
      apply N.eqb_eq in Hc, Hc'. subst.
      exists l, d, t. split; [reflexivity |].
      split; [| split]; apply matches_plus_class; assumption.
    - intros (l & d & t & -> & Hl & Hd & Ht).
      apply Regex.MSeq; [apply matches_plus_class; exact Hl |].
      apply Regex.MSeq; [constructor; reflexivity |].
      apply Regex.MSeq; [apply matches_plus_class; exact Hd |].
      apply Regex.MSeq; [constructor; reflexivity |].
      apply matches_plus_class; exact Ht. }
  split; [exact Hshape | split].
  - intros Hok. apply Hshape in Hok as (l & d & t & -> & [_ Hl] & [_ Hd] & [_ Ht]).
    assert (Hws : forall x, Forall (fun c => SellerForm.notSpaceNorAt c = true) x ->
                            Forall (fun c => isWhiteSpace c = false) x
                            /\ filter (fun c => c = 64) x = []).
    { intros x Hx. induction Hx as [| c x Hc _ [IH1 IH2]]; [split; constructor |].
      unfold SellerForm.notSpaceNorAt in Hc.
      apply andb_true_iff in Hc as [Hc1 Hc2].
      apply negb_true_iff in Hc1, Hc2. apply N.eqb_neq in Hc2.
      split; [constructor; assumption |].
      rewrite filter_cons_False by exact Hc2. exact IH2. }
    destruct (Hws l Hl) as [Wl Fl], (Hws d Hd) as [Wd Fd], (Hws t Ht) as [Wt Ft].
    split.
    + repeat (apply Forall_app; split); try assumption; repeat constructor.
    + rewrite !filter_app, Fl, Fd, Ft. reflexivity.
  - unfold SellerForm.errors.
    rewrite !elem_of_app.
    assert (Htruthy : truthy (CustomerData.email formData) = true
                      <-> CustomerData.email formData <> [])
      by (destruct (CustomerData.email formData); simpl; split; congruence).
    split.
    + intros [H | [H | [H | [H | [H | [H | H]]]]]].
      * destruct (_ <=? _)%nat; [apply list_elem_of_singleton in H; discriminate | inversion H].
      * repeat (match type of H with context [if ?b then _ else _] => destruct b end);
          try (apply list_elem_of_singleton in H; discriminate); inversion H.
      * destruct (truthy _ && negb _) eqn:E; [| inversion H].
        apply andb_true_iff in E as [E1 E2]. apply negb_true_iff in E2.
        split; [apply Htruthy; exact E1 | exact E2].
      * destruct (negb _); [apply list_elem_of_singleton in H; discriminate | inversion H].
      * destruct (negb _); [apply list_elem_of_singleton in H; discriminate | inversion H].
      * destruct (negb _); [apply list_elem_of_singleton in H; discriminate | inversion H].
      * destruct (negb _); [apply list_elem_of_singleton in H; discriminate | inversion H].
    + intros [Hne Hbad]. right; right; left.
      apply Htruthy in Hne. rewrite Hne, Hbad. simpl. left.
Qed.

Lemma email_test_accepts_local_at_domain_dot_ending_witness :
  Forall (fun c => isWhiteSpace c = false) (lit "ana.silva@nexus.com.br")
  /\ length (filter (fun c => c = 64) (lit "ana.silva@nexus.com.br")) = 1%nat.
Proof.
  apply (email_test_accepts_local_at_domain_dot_ending
           (fun _ => true) (fun _ => true) CustomerData.initial
           (lit "ana.silva@nexus.com.br")).
  reflexivity.
Defined.

Example emails_tested :
  map (Regex.test SellerForm.emailRegex)
      [lit "ana@nexus.com"; lit "a@b.c"; lit "ana@nexus"; lit "ana silva@nexus.com";
       lit "ana@@nexus.com"; lit "@nexus.com"; lit "ana@.com"; lit "ana@nexus.";
       lit "ana@a..b"; []]
  = [true; true; false; false; false; false; false; false; true; false].
Proof. reflexivity. Qed.

(** ** What a submission carries *)

(** X4.  Whatever the seller's submission sends to the store comes from a
    complete form: the write is one upsert of the form's data with status
    IN_PROGRESS, the name has more than three characters once trimmed, the
    document, e-mail, plan, audio recording, CEP, street and number are
    filled in, the e-mail passes the e-mail test, and a document of eleven
    (fourteen) digits passes the CPF (CNPJ) validator. *)
Theorem submitted_form_is_complete
    (cpfIsValid cnpjIsValid : jsstring -> bool)
    (getTime : jsstring -> Z) (newId : Store.Table -> jsstring)
    (user : User.t) (now : jsstring) (upsertOk selectOk : bool)
    (st : Seller.State) (tbl : Store.Table) (w : Store.Write) :
  w ∈ writes (SellerForm.onSubmit cpfIsValid cnpjIsValid getTime newId user now
                                  upsertOk selectOk st tbl) ->
  let f := Seller.formData st in
  let doc := SellerForm.digitsOf (CustomerData.cpf f) in
  (exists p, w = Store.Upsert p
             /\ Payload.customer_data p = f
             /\ Payload.status p = IN_PROGRESS)
  /\ (3 < length (trim (CustomerData.nome f)))%nat
  /\ CustomerData.cpf f <> []
  /\ Regex.test SellerForm.emailRegex (CustomerData.email f) = true
  /\ CustomerData.plano f <> []
  /\ CustomerData.audio_url f <> []
  /\ CustomerData.cep f <> []
  /\ CustomerData.rua f <> []
  /\ CustomerData.numero f <> []
  /\ (length doc = 11%nat -> cpfIsValid doc = true)
  /\ (length doc = 14%nat -> cnpjIsValid doc = true).
Proof.
  unfold SellerForm.onSubmit, Seller.handleCreateSale.
  destruct (Seller.isReadOnly st) eqn:Hro; [intros H; inversion H |].
  destruct (SellerForm.isFormValid _ _ _ _) eqn:Hvalid; [| intros H; inversion H].
  intros Hw. cbv zeta.
  assert (Hp : w = Store.Upsert (Seller.submitPayload user now st)).
  { destruct upsertOk; cbn [negb writes] in Hw;
      apply list_elem_of_singleton in Hw; exact Hw. }
  clear Hw. unfold SellerForm.isFormValid in Hvalid.
  set (f := Seller.formData st) in *.
  set (doc := SellerForm.digitsOf (CustomerData.cpf f)) in *.
  apply andb_true_iff in Hvalid as [Hvalid Hnumero].
  apply andb_true_iff in Hvalid as [Hvalid Hrua].
  apply andb_true_iff in Hvalid as [Hvalid Hcep].
  apply andb_true_iff in Hvalid as [Hvalid Haudio].
  apply andb_true_iff in Hvalid as [Hvalid Hplano].
  apply andb_true_iff in Hvalid as [Hvalid Hemail].
  apply andb_true_iff in Hvalid as [Hvalid Hcpf].
  apply andb_true_iff in Hvalid as [Hvalid Hnome].
  assert (Htruthy : forall x, truthy x = true -> x <> [])
    by (intros [| ? ?]; simpl; congruence).
  apply Nat.eqb_eq, length_zero_iff_nil in Hvalid.
  unfold SellerForm.errors in Hvalid. fold f doc in Hvalid.
  apply app_eq_nil in Hvalid as [Enome Hvalid].
  apply app_eq_nil in Hvalid as [Edoc Hvalid].
  apply app_eq_nil in Hvalid as [Email _].
  split; [exists (Seller.submitPayload user now st);
          split; [exact Hp | split; reflexivity] |].
  split; [destruct (Nat.leb_spec (length (trim (CustomerData.nome f))) 3);
          [discriminate | lia] |].
  split; [auto |].
  split; [rewrite Hemail in Email; simpl in Email;
          destruct (Regex.test _ _); [reflexivity | discriminate] |].
  do 5 (split; [solve [auto] |]).
  split; intros Hlen.
  - apply Nat.eqb_eq in Hlen. rewrite Hlen in Edoc.
    destruct (cpfIsValid doc); [reflexivity | discriminate].
  - destruct (Nat.eqb_spec (length doc) 11) as [E | _]; [lia |].
    apply Nat.eqb_eq in Hlen. rewrite Hlen in Edoc.
    destruct (cnpjIsValid doc); [reflexivity | discriminate].
Qed.

Lemma submitted_form_is_complete_witness :
  (3 < length (trim (CustomerData.nome Sample.form)))%nat
  /\ Regex.test SellerForm.emailRegex (CustomerData.email Sample.form) = true.
Proof.
  pose proof (submitted_form_is_complete
                (fun _ => true) (fun _ => true) Sample.getTime Sample.newId
                Sample.ana Sample.now true true
                (Sample.sellerState [Sample.draftRow] (Some Sample.saleId))
                [Sample.draftRow]
                (Store.Upsert
                   (Seller.submitPayload
                      Sample.ana Sample.now
                      (Sample.sellerState [Sample.draftRow] (Some Sample.saleId)))))
    as H.
  destruct H as (_ & Hname & _ & Hmail & _).
  - vm_compute. apply list_elem_of_here.
  - split; [exact Hname | exact Hmail].
Defined.

(** The document is validated only when it has eleven or fourteen digits: a
    form whose document is three digits long is valid. *)
Example short_document_is_not_validated :
  let f :=
    CustomerData.mk (lit "Ana Silva") (lit "123") [] [] []
                    (lit "ana@example.com") (lit "Rua A") (lit "10") [] [] [] []
                    (lit "01001000") (lit "Plano 1") 10%Z [] (lit "audio.mp3")
                    [] [] [] [] in
  SellerForm.isFormValid (fun _ => false) (fun _ => false) false f = true.
Proof. reflexivity. Qed.

(** ** The address lookup *)

Lemma digitsOf_same_length (s : jsstring) :
  length (SellerForm.digitsOf s) = length s ->
  Forall (fun c => SellerForm.isDigit c = true) s.
Proof.
  unfold SellerForm.digitsOf. induction s as [| c s IH]; [constructor |].
  destruct (decide (SellerForm.isDigit c = true)) as [Hc | Hc].
  - rewrite filter_cons_True by exact Hc. simpl. intros [= Hlen].
    constructor; [exact Hc | exact (IH Hlen)].
  - rewrite filter_cons_False by exact Hc. simpl. intros Hlen.
    pose proof (length_filter (fun c => SellerForm.isDigit c = true) s). lia.
Qed.

(** X5.  Typing in the CEP field always stores what was typed, and asks the
    address service only when the field is editable and holds exactly eight
    digits and nothing else: a CEP typed with its hyphen is never looked up.
    When no question is asked, the service fails or it answers with an
    error, the form is what was typed.  When it answers, the street is the
    answered one, or the one already in the form if the answer has none, the
    CEP is the answered one, and number and complement are untouched. *)
Theorem cep_lookup_needs_eight_bare_digits
    (isReadOnly : bool) (response : jsstring -> option SellerForm.CepData)
    (value : jsstring) (formData : CustomerData.t) :
  let r := SellerForm.onCepChange isReadOnly response value formData in
  let typed := SellerForm.withCep value formData in
  (forall c, snd r = Some c ->
     isReadOnly = false /\ c = value /\ length value = 8%nat
     /\ Forall (fun c => SellerForm.isDigit c = true) value)
  /\ (isReadOnly = false -> length value = 8%nat ->
      Forall (fun c => SellerForm.isDigit c = true) value ->
      snd r = Some value)
  /\ (snd r = None \/ response value = None
      \/ (exists data, response value = Some data /\ SellerForm.erro data = true) ->
      fst r = typed)
  /\ (forall data, snd r = Some value -> response value = Some data ->
      SellerForm.erro data = false ->
      CustomerData.rua (fst r)
      = (if truthy (SellerForm.logradouro data) then SellerForm.logradouro data
         else CustomerData.rua formData)
      /\ CustomerData.cep (fst r) = SellerForm.cep data
      /\ CustomerData.numero (fst r) = CustomerData.numero formData
      /\ CustomerData.complemento (fst r) = CustomerData.complemento formData
      /\ CustomerData.nome (fst r) = CustomerData.nome formData).
Proof.
  intros r typed. subst r typed.
  unfold SellerForm.onCepChange, SellerForm.handleCepLookup.
  destruct (Nat.eqb_spec (length value) 8) as [Hlen | Hlen].
  2:{ cbn [fst snd]. split; [discriminate |]. split; [lia |].
      split; [reflexivity | discriminate]. }
  destruct isReadOnly.
  { cbn [fst snd]. split; [discriminate |]. split; [discriminate |].
    split; [reflexivity | discriminate]. }
  destruct (Nat.eqb_spec (length (SellerForm.digitsOf value)) 8) as [Hd | Hd];
    cbn [negb].
  2:{ cbn [fst snd]. split; [discriminate |]. split.
      - intros _ _ Hall. rewrite (digitsOf_digits _ Hall) in Hd. lia.
      - split; [reflexivity | discriminate]. }
  assert (Hall : Forall (fun c => SellerForm.isDigit c = true) value)
    by (apply digitsOf_same_length; lia).
  rewrite (digitsOf_digits _ Hall).
  destruct (response value) as [data |] eqn:Hresp.
  - destruct (SellerForm.erro data) eqn:Herr; cbn [negb fst snd].
    + split; [intros c [= <-]; auto |]. split; [reflexivity |].
      split; [reflexivity |]. intros d _ [= <-]. congruence.
    + split; [intros c [= <-]; auto |]. split; [reflexivity |]. split.
      * intros [H | [H | (d & [= <-] & H)]]; congruence.
      * intros d _ [= <-] _. repeat split.
  - cbn [fst snd]. split; [intros c [= <-]; auto |]. split; [reflexivity |].
    split; [reflexivity | discriminate].
Qed.

Lemma cep_lookup_needs_eight_bare_digits_witness :
  snd (SellerForm.onCepChange false (fun _ => None) (lit "01001000") Sample.form)
  = Some (lit "01001000")
  /\ fst (SellerForm.onCepChange false (fun _ => None) (lit "01001-000") Sample.form)
     = SellerForm.withCep (lit "01001-000") Sample.form.
Proof.
  split.
  - apply (cep_lookup_needs_eight_bare_digits false (fun _ => None) (lit "01001000")
                                              Sample.form);
      [reflexivity | reflexivity | repeat constructor].
  - apply (cep_lookup_needs_eight_bare_digits false (fun _ => None) (lit "01001-000")
                                              Sample.form).
    left. reflexivity.
Defined.

(** ** A finished sale is read-only *)

Lemma findEditing_openEditModal (sale : Sale.t) (st : Seller.State) :
  Seller.findEditing (SellerForm.openEditModal sale st)
  = List.find (fun s => bool_decide (Sale.id s = Sale.id sale)) (Seller.sales st).
Proof. reflexivity. Qed.

(** X6.  A finished sale opened from the list cannot be written by the
    seller page: while the modal shows it, the autosave sends nothing, a
    submission sends nothing and raises no toast whether the form is valid
    or not, the form reports no error, and the address lookup asks nothing
    and leaves the form alone. *)
Theorem finished_sale_is_never_written
    (cpfIsValid cnpjIsValid : jsstring -> bool)
    (getTime : jsstring -> Z) (newId : Store.Table -> jsstring)
    (user : User.t) (now : jsstring) (isFormValid upsertOk selectOk : bool)
    (response : jsstring -> option SellerForm.CepData) (cep : jsstring)
    (sale : Sale.t) (st0 : Seller.State) (tbl : Store.Table) :
  List.find (fun s => bool_decide (Sale.id s = Sale.id sale)) (Seller.sales st0)
  = Some sale ->
  Sale.status sale = FINISHED ->
  Sale.id sale <> [] ->
  let st := SellerForm.openEditModal sale st0 in
  Seller.isReadOnly st = true
  /\ Seller.autosave newId user now upsertOk st tbl = mkOutcome st tbl [] []
  /\ Seller.handleCreateSale getTime newId user now isFormValid upsertOk selectOk st tbl
     = mkOutcome st tbl [] []
  /\ SellerForm.errors cpfIsValid cnpjIsValid (Seller.isReadOnly st) (Seller.formData st) = []
  /\ SellerForm.handleCepLookup (Seller.isReadOnly st) response cep (Seller.formData st)
     = (Seller.formData st, None).
Proof.
  intros Hfind Hfin Hid st.
  assert (Hro : Seller.isReadOnly st = true).
  { unfold Seller.isReadOnly. subst st. rewrite findEditing_openEditModal, Hfind.
    cbn [SellerForm.openEditModal Seller.editingSaleId truthyO].
    destruct (Sale.id sale); [congruence |]. cbn [truthy negb].
    rewrite Hfin. reflexivity. }
  split; [exact Hro |]. split; [| split; [| split]].
  - unfold Seller.autosave. rewrite Hro, orb_true_r. reflexivity.
  - unfold Seller.handleCreateSale. rewrite Hro. reflexivity.
  - rewrite Hro. reflexivity.
  - rewrite Hro. reflexivity.
Qed.

Lemma finished_sale_is_never_written_witness :
  let st := SellerForm.openEditModal (saleOfRow Sample.finishedRow)
                                     (Sample.sellerState [Sample.finishedRow] None) in
  Seller.autosave Sample.newId Sample.ana Sample.now true st [Sample.finishedRow]
  = mkOutcome st [Sample.finishedRow] [] []
  /\ Seller.handleCreateSale Sample.getTime Sample.newId Sample.ana Sample.now
                             true true true st [Sample.finishedRow]
     = mkOutcome st [Sample.finishedRow] [] [].
Proof.
  intros st.
  destruct (finished_sale_is_never_written
              (fun _ => true) (fun _ => true) Sample.getTime Sample.newId
              Sample.ana Sample.now true true true (fun _ => None) (lit "01001000")
              (saleOfRow Sample.finishedRow)
              (Sample.sellerState [Sample.finishedRow] None) [Sample.finishedRow]
              eq_refl eq_refl ltac:(discriminate))
    as (_ & Hauto & Hsubmit & _).
  split; [exact Hauto | exact Hsubmit].
Defined.

(** ** Autosave on a sale already submitted *)

Lemma replaced_row_by_id (i : jsstring) (f : Row.t -> Row.t) (tbl : Store.Table) (r : Row.t) :
  r ∈ map (fun x => if bool_decide (Row.id x = i) then f x else x) tbl ->
  Row.id r = i ->
  exists x, r = f x.
Proof.
  intros Hin Hid. apply list_elem_of_fmap in Hin as (x & -> & _).
  destruct (bool_decide (Row.id x = i)) eqn:E; [exists x; reflexivity |].
  apply bool_decide_eq_false in E. contradiction.
Qed.

(** X7.  The autosave does not look at the status of the sale the modal
    shows.  When a listed sale that is not finished (in progress, analysed)
    is opened and the quiet window passes with a name or a document in the
    form, the autosave writes it back as a draft: its row gets status DRAFT,
    a history of the single new DRAFT entry and the clock as creation time,
    keeps its return reason, and the sale is no longer in the list the
    manager page loads. *)
Theorem autosave_turns_an_opened_sale_into_a_draft
    (getTime : jsstring -> Z) (newId : Store.Table -> jsstring)
    (user : User.t) (now : jsstring) (sale : Sale.t) (row : Row.t)
    (st0 : Seller.State) (mst : Manager.State) (tbl : Store.Table) :
  List.find (fun s => bool_decide (Sale.id s = Sale.id sale)) (Seller.sales st0)
  = Some sale ->
  Sale.status sale <> FINISHED ->
  startsWith (lit "TMP_") (Sale.id sale) = false ->
  truthy (CustomerData.nome (Sale.customerData sale))
  || truthy (CustomerData.cpf (Sale.customerData sale)) = true ->
  Store.lookup (Sale.id sale) tbl = Some row ->
  let st := SellerForm.openEditModal sale st0 in
  let o := Seller.autosave newId user now true st tbl in
  length (writes o) = 1%nat
  /\ (exists row',
         Store.lookup (Sale.id sale) (table o) = Some row'
         /\ Row.status row' = DRAFT
         /\ Row.status_history row' = Some [Entry.mk DRAFT (User.name user) now None]
         /\ Row.created_at row' = now
         /\ Row.return_reason row' = Row.return_reason row)
  /\ (forall s, s ∈ Manager.sales (Manager.loadAllSales getTime true (table o) mst) ->
      Sale.id s <> Sale.id sale).
Proof.
  intros Hfind Hst Htmp Hfilled Hrow st o.
  assert (Hro : Seller.isReadOnly st = false)
    by (apply (isReadOnly_not_finished st sale); [exact Hfind | exact Hst]).
  assert (Hid : Payload.id (Seller.autosavePayload user now st) = Some (Sale.id sale))
    by (subst st; unfold Seller.autosavePayload, Seller.autosaveId,
          SellerForm.openEditModal;
        cbn [Payload.id Seller.editingSaleId]; rewrite Htmp; reflexivity).
  assert (Ho : o = mkOutcome
                     (Seller.mkState (Seller.sales st) true
                        (if negb (truthyO (Some (Sale.id sale)))
                         then Some (Row.id (Store.applyPayload
                                              (Seller.autosavePayload user now st) row))
                         else Some (Sale.id sale))
                        (Seller.formData st) (Seller.isLoading st))
                     (map (fun x => if bool_decide (Row.id x = Sale.id sale)
                                    then Store.applyPayload
                                           (Seller.autosavePayload user now st) x
                                    else x) tbl)
                     [Store.Upsert (Seller.autosavePayload user now st)] []).
  { subst o. unfold Seller.autosave. rewrite Hro.
    cbn [SellerForm.openEditModal Seller.showModal Seller.formData st negb orb].
    change (Seller.formData st) with (Sale.customerData sale). rewrite Hfilled.
    unfold Store.upsert. rewrite Hid, Hrow. reflexivity. }
  rewrite Ho. cbn [writes table]. split; [reflexivity |]. split.
  - rewrite lookup_replace by reflexivity. rewrite Hrow.
    eexists. split; [reflexivity |]. repeat split.
  - intros s Hs. unfold Manager.loadAllSales in Hs. cbn [Manager.sales] in Hs.
    apply list_elem_of_fmap in Hs as (r & -> & Hr).
    unfold Store.select_neq_status, Store.order_created_at_desc in Hr.
    rewrite sortDesc_perm in Hr.
    apply list_elem_of_filter in Hr as [Hnot Hr].
    intros Heq. destruct (replaced_row_by_id _ _ _ _ Hr Heq) as (x & ->).
    apply Hnot. reflexivity.
Qed.

Lemma autosave_turns_an_opened_sale_into_a_draft_witness :
  let st := SellerForm.openEditModal (saleOfRow Sample.returnedRow)
                                     (Sample.sellerState [Sample.returnedRow] None) in
  let o := Seller.autosave Sample.newId Sample.ana Sample.now true st [Sample.returnedRow] in
  Row.status <$> Store.lookup Sample.saleId (table o) = Some DRAFT
  /\ Manager.sales (Manager.loadAllSales Sample.getTime true (table o)
                                         (Sample.managerState [Sample.returnedRow]))
     = [].
Proof.
  intros st o.
  destruct (autosave_turns_an_opened_sale_into_a_draft
              Sample.getTime Sample.newId Sample.ana Sample.now
              (saleOfRow Sample.returnedRow) Sample.returnedRow
              (Sample.sellerState [Sample.returnedRow] None)
              (Sample.managerState [Sample.returnedRow]) [Sample.returnedRow]
              eq_refl ltac:(discriminate) eq_refl eq_refl eq_refl)
    as (_ & (row' & Hlook & Hdraft & _) & _).
  split.
  - transitivity (Row.status <$> Some row');
      [f_equal; exact Hlook | simpl; f_equal; exact Hdraft].
  - reflexivity.
Defined.

(** ** The CSV export *)

Lemma unquote_doubleQuotes (c acc rest : jsstring) :
  rest = [] \/ (exists d r, rest = d :: r /\ d <> CsvExport.quote) ->
  CsvExport.unquote (CsvExport.doubleQuotes c ++ CsvExport.quote :: rest) acc
  = Some (acc ++ c, rest).
Proof.
  intros Hrest. revert acc. induction c as [| x c IH]; intros acc.
  - simpl. rewrite app_nil_r.
    destruct Hrest as [-> | (d & r & -> & Hd)]; [reflexivity |].
    apply N.eqb_neq in Hd. rewrite Hd. reflexivity.
  - change (CsvExport.doubleQuotes (x :: c))
      with ((if x =? CsvExport.quote then [CsvExport.quote; CsvExport.quote] else [x])
            ++ CsvExport.doubleQuotes c).
    destruct (N.eqb_spec x CsvExport.quote) as [-> | Hx].
    + simpl. rewrite IH, <- app_assoc. reflexivity.
    + simpl. apply N.eqb_neq in Hx. rewrite Hx, IH, <- app_assoc. reflexivity.
Qed.

Lemma quoteCell_eq (c : jsstring) :
  CsvExport.quoteCell c = CsvExport.quote :: CsvExport.doubleQuotes c ++ [CsvExport.quote].
Proof. unfold CsvExport.quoteCell. destruct c; reflexivity. Qed.

Lemma parseLine_line (cells : list jsstring) :
  cells <> [] ->
  CsvExport.parseLine (length cells) (CsvExport.line cells) = Some cells.
Proof.
  unfold CsvExport.line.
  induction cells as [| c cells IH]; [congruence |]. intros _.
  destruct cells as [| c' cells].
  - cbn [map CsvExport.join length]. rewrite quoteCell_eq.
    cbn [CsvExport.parseLine app]. rewrite N.eqb_refl.
    rewrite unquote_doubleQuotes by (left; reflexivity). reflexivity.
  - change (CsvExport.join [CsvExport.comma] (map CsvExport.quoteCell (c :: c' :: cells)))
      with (CsvExport.quoteCell c ++ [CsvExport.comma]
            ++ CsvExport.join [CsvExport.comma] (map CsvExport.quoteCell (c' :: cells))).
    rewrite quoteCell_eq.
    change (length (c :: c' :: cells)) with (S (length (c' :: cells))).
    cbn [CsvExport.parseLine app]. rewrite N.eqb_refl.
    rewrite <- app_assoc. cbn [app].
    rewrite unquote_doubleQuotes
      by (right; eexists _, _; split; [reflexivity | discriminate]).
    cbn [app]. rewrite N.eqb_refl, IH by discriminate. reflexivity.
Qed.

(** X8.  The line the export writes for a sale reads back, cell by cell, as
    the eleven values of the sale, whatever commas, line breaks and double
    quotes the values contain; the line has as many cells as the header has
    titles.  With nothing to export the page warns and produces no file;
    otherwise the file starts with the byte order mark followed by the
    titles. *)
Theorem csv_line_reads_back
    (statusText : SaleStatus -> jsstring) (toLocaleDateString : jsstring -> jsstring)
    (now : jsstring) (st : Manager.State) (s : Sale.t) :
  CsvExport.parseLine 11 (CsvExport.line (CsvExport.row statusText toLocaleDateString s))
  = Some (CsvExport.row statusText toLocaleDateString s)
  /\ length (CsvExport.row statusText toLocaleDateString s) = length CsvExport.headers
  /\ (CsvExport.filteredSales st = [] ->
      CsvExport.handleExportCSV statusText toLocaleDateString now st
      = (None, CsvExport.SemDados))
  /\ (CsvExport.filteredSales st <> [] ->
      exists name rest,
        CsvExport.handleExportCSV statusText toLocaleDateString now st
        = (Some (CsvExport.mkDownload name
                   ([0xFEFF] ++ CsvExport.join [CsvExport.comma] CsvExport.headers ++ rest)),
           CsvExport.ExportacaoConcluida)).
Proof.
  split; [| split; [reflexivity | split]].
  - apply (parseLine_line (CsvExport.row statusText toLocaleDateString s)). discriminate.
  - intros Hnone. unfold CsvExport.handleExportCSV. rewrite Hnone. reflexivity.
  - intros Hsome. unfold CsvExport.handleExportCSV.
    destruct (CsvExport.filteredSales st) as [| x l] eqn:E; [congruence |].
    cbn [length Nat.eqb]. unfold CsvExport.csvContent.
    eexists _,
      ([0xA] ++ CsvExport.join [0xA]
                  (map (fun s => CsvExport.line
                                   (CsvExport.row statusText toLocaleDateString s))
                       (x :: l))).
    reflexivity.
Qed.

Lemma csv_line_reads_back_witness :
  CsvExport.handleExportCSV (fun _ => lit "S") (fun d => d) Sample.now
                            (Sample.managerState [])
  = (None, CsvExport.SemDados)
  /\ exists name rest,
       CsvExport.handleExportCSV (fun _ => lit "S") (fun d => d) Sample.now
                                 (Sample.managerState [Sample.finishedRow])
       = (Some (CsvExport.mkDownload name
                  ([0xFEFF] ++ CsvExport.join [CsvExport.comma] CsvExport.headers ++ rest)),
          CsvExport.ExportacaoConcluida).
Proof.
  split.
  - apply (csv_line_reads_back (fun _ => lit "S") (fun d => d) Sample.now
                               (Sample.managerState []) (saleOfRow Sample.finishedRow)).
    reflexivity.
  - apply (csv_line_reads_back (fun _ => lit "S") (fun d => d) Sample.now
                               (Sample.managerState [Sample.finishedRow])
                               (saleOfRow Sample.finishedRow)).
    discriminate.
Defined.

Example csv_cell_with_quotes_and_commas :
  CsvExport.quoteCell [97; 34; 44; 98] = [34; 97; 34; 34; 44; 98; 34]
  /\ CsvExport.parseLine 2 (CsvExport.line [[97; 34; 44; 98]; [10]])
     = Some [[97; 34; 44; 98]; [10]].
Proof. split; reflexivity. Qed.

(** ** The indicators *)

Lemma countStatus_cons (st : SaleStatus) (s : Sale.t) (sales : list Sale.t) :
  Insights.countStatus st (s :: sales)
  = ((if decide (Sale.status s = st) then 1 else 0) + Insights.countStatus st sales)%nat.
Proof.
  unfold Insights.countStatus. destruct (decide (Sale.status s = st)) as [H | H].
  - rewrite filter_cons_True by exact H. reflexivity.
  - rewrite filter_cons_False by exact H. reflexivity.
Qed.

Lemma count_three_statuses (sales : list Sale.t) :
  Forall (fun s => Sale.status s <> DRAFT) sales ->
  length sales
  = (Insights.countStatus FINISHED sales + Insights.countStatus ANALYZED sales
     + Insights.countStatus IN_PROGRESS sales)%nat.
Proof.
  induction 1 as [| s sales Hs _ IH]; [reflexivity |].
  rewrite !countStatus_cons. cbn [length]. rewrite IH.
  destruct (Sale.status s); [congruence | | |];
    repeat (match goal with |- context [decide ?P] => destruct (decide P) end);
    try discriminate; try congruence; lia.
Qed.

Lemma sum_positive_slices {A} (l : list (A * nat)) :
  foldr Nat.add O (map snd (filter (fun d => 0 < snd d)%nat l))
  = foldr Nat.add O (map snd l).
Proof.
  induction l as [| [a n] l IH]; [reflexivity |].
  destruct n as [| n].
  - rewrite filter_cons_False by (simpl; lia). exact IH.
  - rewrite filter_cons_True by (simpl; lia). simpl. rewrite IH. reflexivity.
Qed.

Lemma Insights_loadData_rows (user : User.t) (tbl : Store.Table) (old : list Sale.t)
    (s : Sale.t) :
  s ∈ Insights.loadData true user tbl old ->
  Sale.status s <> DRAFT
  /\ (User.role user = SELLER -> Sale.sellerId s = User.id user)
  /\ exists r, r ∈ tbl /\ s = Insights.saleOfRow r.
Proof.
  unfold Insights.loadData, Insights.query. intros Hin.
  apply list_elem_of_fmap in Hin as (r & -> & Hr).
  destruct (bool_decide (User.role user = SELLER)) eqn:Hrole.
  - apply list_elem_of_filter in Hr as [Hown Hr].
    apply list_elem_of_filter in Hr as [Hst Hr].
    split; [exact Hst | split; [intros _; exact Hown | exists r; auto]].
  - apply list_elem_of_filter in Hr as [Hst Hr].
    apply bool_decide_eq_false in Hrole.
    split; [exact Hst | split; [contradiction | exists r; auto]].
Qed.

(** X9.  On the indicators page the slices of the status chart account for
    every sale loaded: no draft is loaded, so finished, analysed and
    in-progress sales add up to the total, the slices shown are the
    non-empty ones and their values add up to the total as well.  For a
    seller, every sale counted is one of the seller's own. *)
Theorem indicators_account_for_every_loaded_sale
    (user : User.t) (tbl : Store.Table) (old : list Sale.t) :
  let sales := Insights.loadData true user tbl old in
  Insights.total (Insights.stats sales)
  = (Insights.finished (Insights.stats sales) + Insights.analyzing (Insights.stats sales)
     + Insights.countStatus IN_PROGRESS sales)%nat
  /\ foldr Nat.add O (map snd (Insights.pieData sales))
     = Insights.total (Insights.stats sales)
  /\ (forall d, d ∈ Insights.pieData sales -> (0 < snd d)%nat)
  /\ (forall s, s ∈ sales ->
      Sale.status s <> DRAFT
      /\ (User.role user = SELLER -> Sale.sellerId s = User.id user)).
Proof.
  intros sales.
  assert (Hnodraft : Forall (fun s => Sale.status s <> DRAFT) sales).
  { apply Forall_forall. intros s Hs.
    apply (Insights_loadData_rows user tbl old s Hs). }
  pose proof (count_three_statuses sales Hnodraft) as Hcount.
  split; [exact Hcount |]. split; [| split].
  - unfold Insights.pieData. rewrite sum_positive_slices.
    cbn [map snd foldr Insights.stats Insights.finished Insights.analyzing Insights.total].
    rewrite Hcount. lia.
  - intros d Hd. unfold Insights.pieData in Hd.
    apply list_elem_of_filter in Hd as [Hpos _]. exact Hpos.
  - intros s Hs. destruct (Insights_loadData_rows user tbl old s Hs) as (H1 & H2 & _).
    split; assumption.
Qed.

Lemma indicators_account_for_every_loaded_sale_witness :
  Insights.saleOfRow Sample.finishedRow
    ∈ Insights.loadData true Sample.ana
        [Sample.finishedRow; Sample.draftRow; Sample.inProgressRow] []
  /\ Sale.status (Insights.saleOfRow Sample.finishedRow) <> DRAFT
  /\ Sale.sellerId (Insights.saleOfRow Sample.finishedRow) = lit "3".
Proof.
  assert (Hin : Insights.saleOfRow Sample.finishedRow
                  ∈ Insights.loadData true Sample.ana
                      [Sample.finishedRow; Sample.draftRow; Sample.inProgressRow] [])
    by (vm_compute; left).
  destruct (proj2 (proj2 (proj2 (indicators_account_for_every_loaded_sale
                                   Sample.ana
                                   [Sample.finishedRow; Sample.draftRow;
                                    Sample.inProgressRow]
                                   []))) _ Hin) as [H1 H2].
  split; [exact Hin | split; [exact H1 | exact (H2 eq_refl)]].
Defined.

Example indicators_of_three_rows :
  let sales :=
    Insights.loadData true Sample.carlos
                      [Sample.finishedRow; Sample.draftRow; Sample.inProgressRow] [] in
  Insights.stats sales = Insights.mkStats 2 1 0
  /\ Insights.pieData sales = [(Insights.Finalizadas, 1%nat); (Insights.EmAndamento, 1%nat)].
Proof. vm_compute. split; reflexivity. Qed.

(** ** The shell kept in localStorage *)

Section ShellFacts.
Variable toLowerCase : jsstring -> jsstring.

Lemma savedIsSession_step (w : Shell.World) (e : Shell.Event) :
  Shell.savedIsSession w -> Shell.savedIsSession (fst (Shell.step toLowerCase w e)).
Proof.
  destruct w as [st saved]. intros (Ha & Hp & Hu). unfold Shell.savedIsSession in *.
  simpl in Ha, Hp, Hu.
  destruct e as [r p | n m r i t | i u | i | m |]; simpl.
  - split; [exact Ha | split; [left; reflexivity | exact Hu]].
  - split; [exact Ha | split; [exact Hp | left; reflexivity]].
  - split; [exact Ha | split; [exact Hp | left; reflexivity]].
  - split; [exact Ha | split; [exact Hp | left; reflexivity]].
  - unfold Shell.handleSubmit, Shell.login. simpl.
    destruct (Shell.foundUser _ _ _) as [u |]; simpl; [| auto].
    destruct (User.confirmed u); simpl; auto.
  - split; [right; split; reflexivity | split; [exact Hp | exact Hu]].
Qed.

Lemma savedIsSession_run (es : list Shell.Event) (w : Shell.World) :
  Shell.savedIsSession w -> Shell.savedIsSession (Shell.run toLowerCase w es).
Proof.
  revert w. induction es as [| e es IH]; intros w Hw; [exact Hw |].
  apply IH, savedIsSession_step, Hw.
Qed.

End ShellFacts.

(** X10.  In the shell kept in localStorage a reload restores the session:
    after any sequence of permission updates, registrations, user updates
    and removals, login attempts and logouts, starting from a fresh browser,
    the mount effect run on what localStorage holds yields exactly the
    authentication state, the permission table and the user list of the
    session. *)
Theorem reload_restores_the_session
    (toLowerCase : jsstring -> jsstring) (es : list Shell.Event) :
  let w := Shell.run toLowerCase (Shell.initialState, Shell.noneSaved) es in
  Shell.mount (snd w) Shell.initialState = fst w.
Proof.
  intros w.
  assert (Hinv : Shell.savedIsSession w).
  { apply savedIsSession_run. unfold Shell.savedIsSession. simpl.
    split; [right; split; reflexivity |].
    split; right; split; reflexivity. }
  destruct w as [[a p u] [sa sp su]]. destruct Hinv as (Ha & Hp & Hu).
  simpl in Ha, Hp, Hu. unfold Shell.mount. cbn [fst snd Shell.nexus_auth
    Shell.nexus_permissions Shell.nexus_users].
  destruct Ha as [-> | [-> ->]], Hp as [-> | [-> ->]], Hu as [-> | [-> ->]];
    reflexivity.
Qed.

Example reload_after_a_permission_update :
  let w := Shell.run (fun s => s) (Shell.initialState, Shell.noneSaved)
                     [Shell.UpdateRolePermissions MANAGER [APPROVE_SALES];
                      Shell.SubmitLogin (lit "vendedor@nexus.com")] in
  let reloaded := Shell.mount (snd w) Shell.initialState in
  App.rolePermissions (Shell.permissions reloaded) SELLER = [VIEW_OWN_SALES; CREATE_SALES]
  /\ App.rolePermissions (Shell.permissions reloaded) MANAGER = [APPROVE_SALES]
  /\ App.hasPermission (Shell.auth reloaded) (Shell.permissions reloaded) VIEW_OWN_SALES
     = true.
Proof. vm_compute. repeat split. Qed.

(** ** Who can log in *)

Lemma find_map_None {A} (f : A -> bool) (g : A -> A) (l : list A) :
  (forall x, f (g x) = f x) -> List.find f l = None -> List.find f (map g l) = None.
Proof.
  intros Hfg. induction l as [| x l IH]; [reflexivity |]. simpl.
  rewrite Hfg. destruct (f x); [discriminate | exact IH].
Qed.

(** X11.  Only a confirmed user gets a session.  A login attempt either
    leaves the authentication state as it was or authenticates a user of
    the list who is confirmed and whose e-mail equals the one typed up to
    letter case.  A user who has just registered under an e-mail no one else
    has is refused with the awaiting-approval warning, and is let in once an
    administrator's update has set the confirmation. *)
Theorem only_confirmed_users_log_in
    (toLowerCase : jsstring -> jsstring)
    (email name userEmail id now : jsstring) (role : UserRole) (w : Shell.World) :
  (let w' := fst (Shell.handleSubmit toLowerCase email w) in
   Shell.auth (fst w') = Shell.auth (fst w)
   \/ exists u,
        u ∈ Shell.users (fst w)
        /\ User.confirmed u = true
        /\ toLowerCase (User.email u) = toLowerCase email
        /\ Shell.auth (fst w') = {| App.user := Some u; App.isAuthenticated := true |})
  /\ (Shell.foundUser toLowerCase userEmail (Shell.users (fst w)) = None ->
      let w1 := fst (Shell.registerUser name userEmail role id now w) in
      let w2 := fst (Shell.updateUser
                       id (UserUpdates.mk None None None None (Some true) None) w1) in
      Shell.handleSubmit toLowerCase userEmail w1 = (w1, [Shell.AguardaAprovacao])
      /\ Shell.auth (fst (fst (Shell.handleSubmit toLowerCase userEmail w2)))
         = {| App.user := Some (User.mk id name userEmail role true now);
              App.isAuthenticated := true |}).
Proof.
  destruct w as [st saved]. split.
  - cbn zeta. unfold Shell.handleSubmit. cbn [fst].
    destruct (Shell.foundUser toLowerCase email (Shell.users st)) as [u |] eqn:Hfound;
      [| left; reflexivity].
    destruct (User.confirmed u) eqn:Hconf; cbn [negb]; [| left; reflexivity].
    right. exists u. unfold Shell.foundUser in Hfound.
    apply find_Some_elem in Hfound as [Hin Heq].
    apply bool_decide_eq_true in Heq.
    split; [exact Hin | split; [exact Hconf | split; [exact Heq |]]].
    unfold Shell.login. rewrite Hconf. reflexivity.
  - intros Hnew w1 w2.
    assert (Hmatch : forall u : User.t,
               User.email u = userEmail ->
               bool_decide (toLowerCase (User.email u) = toLowerCase userEmail) = true)
      by (intros u ->; apply bool_decide_eq_true; reflexivity).
    split.
    + subst w1. unfold Shell.handleSubmit, Shell.foundUser.
      cbn [Shell.registerUser fst Shell.users].
      unfold Shell.foundUser in Hnew. cbn [fst] in Hnew.
      rewrite (find_app_None _ _ _ Hnew). cbn [List.find].
      rewrite Hmatch by reflexivity. reflexivity.
    + subst w2 w1. unfold Shell.handleSubmit, Shell.foundUser.
      cbn [Shell.registerUser Shell.updateUser fst Shell.users].
      unfold Shell.foundUser in Hnew. cbn [fst] in Hnew.
      rewrite map_app, find_app_None.
      2:{ apply find_map_None; [| exact Hnew].
          intros x. destruct (bool_decide (User.id x = id)); reflexivity. }
      cbn [map List.find User.id].
      rewrite (bool_decide_eq_true_2 (id = id)) by reflexivity.
      cbn [UserUpdates.apply default UserUpdates.id UserUpdates.name UserUpdates.email
             UserUpdates.role UserUpdates.confirmed UserUpdates.createdAt
             User.id User.name User.email User.role User.confirmed User.createdAt].
      rewrite bool_decide_eq_true_2 by reflexivity. reflexivity.
Qed.

Lemma only_confirmed_users_log_in_witness :
  let w := (Shell.initialState, Shell.noneSaved) in
  let w1 := fst (Shell.registerUser (lit "Bia") (lit "bia@nexus.com") SELLER
                                    (lit "k3j9x") Sample.now w) in
  Shell.handleSubmit (fun s => s) (lit "bia@nexus.com") w1 = (w1, [Shell.AguardaAprovacao]).
Proof.
  intros w w1.
  apply (only_confirmed_users_log_in
           (fun s => s) (lit "bia@nexus.com") (lit "Bia") (lit "bia@nexus.com")
           (lit "k3j9x") Sample.now SELLER w).
  reflexivity.
Defined.

(** ** Where the root path leads *)

Section RouteFacts.
Variable auth : App.AuthState.
Variable permissions : App.RolePermissionsMap.

Lemma local_redirects_forever (fuel : nat) :
  App.isAuthenticated auth = true ->
  App.hasPermission auth permissions ACCESS_ADMIN_PANEL = false ->
  App.hasPermission auth permissions VIEW_ALL_SALES = false ->
  App.hasPermission auth permissions VIEW_OWN_SALES = false ->
  Routes.settle (Routes.localRoutes auth permissions) fuel Routes.root = None
  /\ Routes.settle (Routes.localRoutes auth permissions) fuel Routes.seller = None.
Proof.
  intros Ha H1 H2 H3.
  induction fuel as [| fuel [IHroot IHseller]].
  - simpl. unfold Routes.PermissionRoute. rewrite Ha, H1, H2, H3. split; reflexivity.
  - split.
    + destruct fuel; simpl; rewrite Ha, H1, H2; [exact IHseller |].
      simpl in IHseller. exact IHseller.
    + destruct fuel; simpl; unfold Routes.PermissionRoute; rewrite Ha, H3; simpl.
      * simpl in IHroot. rewrite IHroot. reflexivity.
      * simpl in IHroot. rewrite IHroot. reflexivity.
Qed.

Lemma remote_redirects_forever (fuel : nat) :
  App.isAuthenticated auth = true ->
  App.hasPermission auth permissions VIEW_DASHBOARD = false ->
  Routes.settle (Routes.remoteRoutes auth permissions) fuel Routes.root = None
  /\ Routes.settle (Routes.remoteRoutes auth permissions) fuel Routes.dashboard = None.
Proof.
  intros Ha H1.
  induction fuel as [| fuel [IHroot IHdash]].
  - simpl. unfold Routes.PermissionRoute. rewrite Ha, H1. split; reflexivity.
  - split.
    + destruct fuel; simpl; rewrite Ha; [exact IHdash |].
      simpl in IHdash. exact IHdash.
    + destruct fuel; simpl; unfold Routes.PermissionRoute; rewrite Ha, H1; simpl.
      * simpl in IHroot. rewrite IHroot. reflexivity.
      * simpl in IHroot. rewrite IHroot. reflexivity.
Qed.

End RouteFacts.

(** X12.  Where an authenticated user lands from the root path.  In the
    shell kept in localStorage it is the administration page with the
    admin-panel capability, else the manager page with the view-all
    capability, else the seller page with the view-own capability; a user
    with none of the three is sent from the root to the seller page and
    from there, with an access warning, back to the root, and no page is
    ever shown however many redirects are followed.  In the shell backed by
    the remote store it is the indicators page with the dashboard
    capability, and the same endless redirect without it.  A visitor who is
    not authenticated lands on the login page from the root and from every
    protected path, in both shells. *)
Theorem root_path_destination
    (auth : App.AuthState) (permissions : App.RolePermissionsMap) (fuel : nat) :
  (App.isAuthenticated auth = true ->
   let has := App.hasPermission auth permissions in
   Routes.settle (Routes.localRoutes auth permissions) (S fuel) Routes.root
   = (if has ACCESS_ADMIN_PANEL then Some (Routes.AdminDashboard, O)
      else if has VIEW_ALL_SALES then Some (Routes.ManagerDashboard, O)
      else if has VIEW_OWN_SALES then Some (Routes.SellerDashboard, O)
      else None)
   /\ Routes.settle (Routes.remoteRoutes auth permissions) (S fuel) Routes.root
      = (if has VIEW_DASHBOARD then Some (Routes.BusinessIntelligence, O) else None))
  /\ (App.isAuthenticated auth = false ->
      forall p, p ∈ [Routes.root; Routes.admin; Routes.manager; Routes.seller] ->
        Routes.settle (Routes.localRoutes auth permissions) (S fuel) p
        = Some (Routes.Login, O)
        /\ Routes.settle (Routes.remoteRoutes auth permissions) (S fuel) p
           = Some (Routes.Login, O)).
Proof.
  split.
  - intros Ha has. subst has. split.
    + destruct (App.hasPermission auth permissions ACCESS_ADMIN_PANEL) eqn:H1.
      { simpl. unfold Routes.PermissionRoute. rewrite Ha, H1. simpl.
        destruct fuel; simpl; unfold Routes.PermissionRoute; rewrite Ha, H1; reflexivity. }
      destruct (App.hasPermission auth permissions VIEW_ALL_SALES) eqn:H2.
      { simpl. rewrite Ha, H1, H2.
        destruct fuel; simpl; unfold Routes.PermissionRoute; rewrite Ha, H2; reflexivity. }
      destruct (App.hasPermission auth permissions VIEW_OWN_SALES) eqn:H3.
      { simpl. rewrite Ha, H1, H2.
        destruct fuel; simpl; unfold Routes.PermissionRoute; rewrite Ha, H3; reflexivity. }
      apply (local_redirects_forever auth permissions (S fuel) Ha H1 H2 H3).
    + destruct (App.hasPermission auth permissions VIEW_DASHBOARD) eqn:H1.
      { simpl. rewrite Ha.
        destruct fuel; simpl; unfold Routes.PermissionRoute; rewrite Ha, H1; reflexivity. }
      apply (remote_redirects_forever auth permissions (S fuel) Ha H1).
  - intros Ha p Hp.
    repeat (apply elem_of_cons in Hp as [-> | Hp]);
      try (split; simpl; unfold Routes.PermissionRoute; rewrite Ha; simpl;
           destruct fuel; simpl; rewrite ?Ha; reflexivity).
    inversion Hp.
Qed.

Lemma root_path_destination_witness :
  Routes.settle (Routes.localRoutes (Sample.session Sample.carlos) Shell.DEFAULT_PERMISSIONS)
                3 Routes.root
  = Some (Routes.ManagerDashboard, O)
  /\ Routes.settle (Routes.remoteRoutes Shell.loggedOut App.DEFAULT_PERMISSIONS)
                   3 Routes.seller
     = Some (Routes.Login, O).
Proof.
  destruct (root_path_destination (Sample.session Sample.carlos)
                                  Shell.DEFAULT_PERMISSIONS 2) as [Hin _].
  destruct (root_path_destination Shell.loggedOut App.DEFAULT_PERMISSIONS 2)
    as [_ Hout].
  split.
  - exact (proj1 (Hin eq_refl)).
  - apply (Hout eq_refl Routes.seller). do 3 right. left.
Defined.

(** After a configuration that left the seller role without an entry (see
    the registry above), a seller never reaches a page in the shell backed
    by the remote store. *)
Example blanked_seller_is_redirected_forever :
  let perms :=
    App.initApp (Some [ {| App.role := MANAGER;
                           App.permissions := [VIEW_ALL_SALES; APPROVE_SALES] |} ]) in
  map (fun fuel => Routes.settle (Routes.remoteRoutes (Sample.session Sample.ana) perms)
                                 fuel Routes.root)
      [1; 2; 5; 20]%nat
  = [None; None; None; None].
Proof. vm_compute. reflexivity. Qed.

(** ** What the manager pages list *)

Lemma Manager_loadAllSales_rows
    (getTime : jsstring -> Z) (tbl : Store.Table) (st0 : Manager.State) (s : Sale.t) :
  s ∈ Manager.sales (Manager.loadAllSales getTime true tbl st0) ->
  exists r, r ∈ tbl /\ Row.status r <> DRAFT /\ s = saleOfRow r.
Proof.
  unfold Manager.loadAllSales. cbn [Manager.sales]. intros Hs.
  apply list_elem_of_fmap in Hs as (r & -> & Hr).
  unfold Store.select_neq_status, Store.order_created_at_desc in Hr.
  rewrite sortDesc_perm in Hr. apply list_elem_of_filter in Hr as [Hst Hr].
  exists r. auto.
Qed.

(** X13.  Drafts are out of the manager's reach on the remote page: the
    list it loads holds only stored sales that are not drafts, and a status
    change asked, right after loading, for an identity that only drafts
    carry sends no write and leaves the store as it was, whatever the target
    status and the reason.  With the approve capability the request is
    dropped without a word and the page is as it was; without it the
    permission warning is raised. *)
Theorem manager_neither_lists_nor_changes_a_draft
    (getTime : jsstring -> Z) (c : Manager.Ctx) (updateOk selectOk : bool)
    (st0 : Manager.State) (tbl : Store.Table)
    (id : jsstring) (newStatus : SaleStatus) (reason : option jsstring) :
  let st := Manager.loadAllSales getTime true tbl st0 in
  let allowed := App.hasPermission (Manager.auth c) (Manager.permissions c) APPROVE_SALES in
  (forall s, s ∈ Manager.sales st ->
     Sale.status s <> DRAFT /\ exists r, r ∈ tbl /\ s = saleOfRow r)
  /\ ((forall r, r ∈ tbl -> Row.id r = id -> Row.status r = DRAFT) ->
      let o := Manager.handleUpdateStatus getTime c updateOk selectOk st tbl id newStatus reason in
      writes o = [] /\ table o = tbl
      /\ toasts o = (if allowed then [] else [(PermissaoInsuficiente, warning)])
      /\ (allowed = true -> state o = st)).
Proof.
  intros st allowed. split.
  - intros s Hs. destruct (Manager_loadAllSales_rows _ _ _ _ Hs) as (r & Hr & Hst & ->).
    split; [exact Hst | exists r; auto].
  - intros Hdraft o. subst o allowed. unfold Manager.handleUpdateStatus.
    destruct (App.hasPermission _ _ _); cbn [negb]; [| repeat split; discriminate].
    destruct (List.find _ (Manager.sales st)) as [sale |] eqn:Hfind; [| auto].
    exfalso. apply find_Some_elem in Hfind as [Hin Hid].
    apply bool_decide_eq_true in Hid.
    destruct (Manager_loadAllSales_rows _ _ _ _ Hin) as (r & Hr & Hst & ->).
    apply Hst. apply Hdraft; [exact Hr | exact Hid].
Qed.

Lemma manager_neither_lists_nor_changes_a_draft_witness :
  let st := Manager.loadAllSales Sample.getTime true [Sample.draftRow]
                                 (Manager.mkState [] None (lit "all") [] true) in
  let o := Manager.handleUpdateStatus Sample.getTime Sample.managerCtx true true st
                                      [Sample.draftRow] Sample.saleId ANALYZED None in
  writes o = [] /\ table o = [Sample.draftRow] /\ toasts o = [] /\ state o = st.
Proof.
  intros st o.
  destruct (manager_neither_lists_nor_changes_a_draft
              Sample.getTime Sample.managerCtx true true
              (Manager.mkState [] None (lit "all") [] true) [Sample.draftRow]
              Sample.saleId ANALYZED None) as [_ H].
  destruct H as (Hw & Ht & Hto & Hst).
  - intros r Hr _. apply list_elem_of_singleton in Hr as ->. reflexivity.
  - split; [exact Hw |]. split; [exact Ht |]. split; [exact Hto |]. apply Hst. reflexivity.
Defined.

(** ** The list of the localStorage dashboard *)

Section ScanFacts.
Import LocalManager.

Lemma scan_regressions (l : list Sale.t) (cur : list jsstring) (seen : gset jsstring)
    (raised : list Notification) :
  let regressed (s : Sale.t) :=
    hasBeenApproved s && status_eqb (Sale.status s) IN_PROGRESS = true in
  exists seen' raised',
    foldl scanSale (cur, seen, raised) l
    = (cur ++ map Sale.id (filter regressed l), seen', raised')
    /\ (forall i, i ∈ seen -> i ∈ seen')
    /\ (forall s, s ∈ filter regressed l -> Sale.id s ∈ seen').
Proof.
  intros regressed. revert cur seen raised.
  induction l as [| sale l IH]; intros cur seen raised.
  - exists seen, raised. rewrite app_nil_r. split; [reflexivity |].
    split; [auto |]. intros s Hs. inversion Hs.
  - change (foldl scanSale (cur, seen, raised) (sale :: l))
      with (foldl scanSale (scanSale (cur, seen, raised) sale) l).
    unfold scanSale at 2.
    destruct (hasBeenApproved sale && status_eqb (Sale.status sale) IN_PROGRESS) eqn:Hreg.
    + rewrite (filter_cons_True regressed) by exact Hreg.
      destruct (bool_decide (Sale.id sale ∈ seen)) eqn:Hseen.
      * apply bool_decide_eq_true in Hseen.
        destruct (IH (cur ++ [Sale.id sale]) seen raised) as (seen' & raised' & Hf & Hm & Hr).
        exists seen', raised'. rewrite Hf, <- app_assoc. split; [reflexivity |].
        split; [exact Hm |]. intros s Hs.
        apply elem_of_cons in Hs as [-> | Hs]; [apply Hm; exact Hseen | apply Hr; exact Hs].
      * destruct (IH (cur ++ [Sale.id sale]) ({[Sale.id sale]} ∪ seen)
                     (raised ++ [(AlertaRegressao (Sale.id sale), warning)]))
          as (seen' & raised' & Hf & Hm & Hr).
        exists seen', raised'. rewrite Hf, <- app_assoc. split; [reflexivity |].
        split; [intros i Hi; apply Hm; set_solver |]. intros s Hs.
        apply elem_of_cons in Hs as [-> | Hs]; [apply Hm; set_solver | apply Hr; exact Hs].
    + rewrite (filter_cons_False regressed)
        by (unfold regressed; rewrite Hreg; discriminate).
      apply IH.
Qed.

End ScanFacts.

Section LocalFacts.
Variable getTime : jsstring -> option Z.
Variable engineOrder : list Sale.t -> list Sale.t.
Import LocalManager.

Lemma insertDesc_Sorted {A} (key : A -> Z) (x : A) (l : list A) :
  Sorted (fun a b => (key b <= key a)%Z) l ->
  Sorted (fun a b => (key b <= key a)%Z) (Store.insertDesc key x l).
Proof.
  induction 1 as [| y l Hl IH Hhd]; simpl; [repeat constructor |].
  destruct (Z.leb_spec (key y) (key x)) as [Hle | Hgt].
  - constructor; [constructor; assumption | constructor; exact Hle].
  - constructor; [exact IH |].
    destruct l as [| z l]; simpl; [constructor; lia |].
    destruct (Z.leb_spec (key z) (key x)); constructor; [lia |].
    inversion Hhd; assumption.
Qed.

Lemma sortDesc_Sorted {A} (key : A -> Z) (l : list A) :
  Sorted (fun a b => (key b <= key a)%Z) (Store.sortDesc key l).
Proof.
  induction l as [| x l IH]; [constructor |].
  apply (insertDesc_Sorted key x _ IH).
Qed.

Lemma readAllSales_elem (ls : LocalStorage) (s : Sale.t) :
  s ∈ readAllSales ls <->
  exists k v, (k, Some v) ∈ ls /\ startsWith (lit "nexus_sales_") k = true /\ s ∈ v.
Proof.
  induction ls as [| [k o] ls IH].
  - split; [intros H; inversion H | intros (k & v & H & _); inversion H].
  - change (readAllSales ((k, o) :: ls))
      with ((if startsWith (lit "nexus_sales_") k then default [] o else [])
            ++ readAllSales ls).
    rewrite elem_of_app, IH. split.
    + intros [H | (k' & v & Hin & Hk & Hs)].
      * destruct (startsWith (lit "nexus_sales_") k) eqn:Hk; [| inversion H].
        destruct o as [v |]; [| inversion H].
        exists k, v. split; [left | split; [exact Hk | exact H]].
      * exists k', v. split; [right; exact Hin | split; [exact Hk | exact Hs]].
    + intros (k' & v & Hin & Hk & Hs).
      apply elem_of_cons in Hin as [[= -> <-] | Hin].
      * left. rewrite Hk. exact Hs.
      * right. exists k', v. split; [exact Hin | split; [exact Hk | exact Hs]].
Qed.

Lemma Sorted_dates {A} (P : A -> Prop) (R R' : A -> A -> Prop) (l : list A) :
  (forall a b, P a -> P b -> R a b -> R' a b) ->
  Forall P l -> Sorted R l -> Sorted R' l.
Proof.
  intros Himp Hall Hsorted. induction Hsorted as [| a l Hl IH Hhd]; [constructor |].
  apply Forall_cons in Hall as [Ha Hall]. constructor; [apply IH; exact Hall |].
  destruct Hhd as [| b l Hab]; constructor.
  apply Forall_cons in Hall as [Hb _]. apply Himp; assumption.
Qed.

Lemma sortedSales_elem (ls : LocalStorage) (s : Sale.t) :
  (forall l, engineOrder l ≡ₚ l) ->
  s ∈ sortedSales getTime engineOrder ls <->
  Sale.status s <> DRAFT /\ s ∈ readAllSales ls.
Proof.
  intros Hperm. unfold sortedSales.
  destruct (forallb _ _); [rewrite sortDesc_perm | rewrite Hperm];
    rewrite list_elem_of_filter; reflexivity.
Qed.

(** A stored sale that is a regression is alerted about by a load that has
    not seen it, and is in the seen-set after any load. *)
Lemma loadAllSales_alerts (ls : LocalStorage) (st : State) (sale : Sale.t) :
  (forall l, engineOrder l ≡ₚ l) ->
  sale ∈ readAllSales ls ->
  Sale.status sale = IN_PROGRESS ->
  hasBeenApproved sale = true ->
  Sale.id sale ∈ notifiedRegressions (fst (loadAllSales getTime engineOrder ls st))
  /\ (Sale.id sale ∉ notifiedRegressions st ->
      Sale.id sale ∈ alertedIds (snd (loadAllSales getTime engineOrder ls st))).
Proof.
  intros Hperm Hin Hst Happ.
  pose proof (loadAllSales_fresh getTime engineOrder ls st) as (_ & _ & Hseen).
  assert (Hlisted : sale ∈ filter (fun s => hasBeenApproved s
                                            && status_eqb (Sale.status s) IN_PROGRESS = true)
                                  (sortedSales getTime engineOrder ls)).
  { apply list_elem_of_filter. split.
    - rewrite Happ, Hst. reflexivity.
    - apply sortedSales_elem; [exact Hperm |]. split; [rewrite Hst; discriminate | exact Hin]. }
  assert (Hafter : Sale.id sale
                     ∈ notifiedRegressions (fst (loadAllSales getTime engineOrder ls st))).
  { unfold loadAllSales.
    destruct (scan_regressions (sortedSales getTime engineOrder ls) []
                               (notifiedRegressions st) [])
      as (seen' & raised' & Hfold & _ & Hreg).
    rewrite Hfold. cbn [fst notifiedRegressions]. apply Hreg. exact Hlisted. }
  split; [exact Hafter |].
  intros Hnew. apply Hseen in Hafter as [Hold | Halert]; [contradiction | exact Halert].
Qed.

Lemma filter_eq_elem (x : jsstring) (l : list jsstring) :
  x ∈ l -> (1 <= length (filter (fun i => i = x) l))%nat.
Proof.
  intros Hin. assert (Hx : x ∈ filter (fun i => i = x) l)
    by (apply list_elem_of_filter; auto).
  destruct (filter _ l); [inversion Hx | simpl; lia].
Qed.

End LocalFacts.

(** X14.  What a reload of the localStorage dashboard shows.  The list is
    made of the stored sales that are not drafts, taken from the values
    under the sales keys that parse (a value that does not parse is skipped,
    the others are still read).  When the creation time of each of them is a
    date, the list has the latest creation first; a creation time that is no
    date leaves the order to the engine.  The sales marked as regressions
    are exactly the listed sales that are in progress and have an approval
    in their history, in the order of the list, and every one of them is in
    the seen-set once the reload is over.  The engine's sort is assumed to
    permute the array it is given. *)
Theorem local_reload_lists_submitted_sales_and_regressions
    (getTime : jsstring -> option Z) (engineOrder : list Sale.t -> list Sale.t)
    (ls : LocalManager.LocalStorage) (st : LocalManager.State) :
  (forall l, engineOrder l ≡ₚ l) ->
  let st' := fst (LocalManager.loadAllSales getTime engineOrder ls st) in
  let regressed (s : Sale.t) :=
    LocalManager.hasBeenApproved s && status_eqb (Sale.status s) IN_PROGRESS = true in
  let stored (s : Sale.t) :=
    exists k v, (k, Some v) ∈ ls /\ startsWith (lit "nexus_sales_") k = true /\ s ∈ v in
  (forall s, s ∈ LocalManager.sales st' <-> Sale.status s <> DRAFT /\ stored s)
  /\ ((forall s, stored s -> Sale.status s <> DRAFT ->
         exists t, getTime (Sale.createdAt s) = Some t) ->
      Sorted (fun a b => exists ta tb,
                  getTime (Sale.createdAt a) = Some ta
                  /\ getTime (Sale.createdAt b) = Some tb /\ (tb <= ta)%Z)
             (LocalManager.sales st'))
  /\ LocalManager.regressions st'
     = map Sale.id (filter regressed (LocalManager.sales st'))
  /\ (forall i, i ∈ LocalManager.regressions st' -> i ∈ LocalManager.notifiedRegressions st').
Proof.
  intros Hperm st' regressed stored. subst st'. unfold LocalManager.loadAllSales.
  destruct (scan_regressions (LocalManager.sortedSales getTime engineOrder ls) []
                             (LocalManager.notifiedRegressions st) [])
    as (seen' & raised' & Hfold & _ & Hseen).
  rewrite Hfold. cbn [fst LocalManager.sales LocalManager.regressions
                        LocalManager.notifiedRegressions app].
  assert (Helem : forall s, s ∈ LocalManager.sortedSales getTime engineOrder ls <->
                            Sale.status s <> DRAFT /\ stored s).
  { intros s. rewrite (sortedSales_elem getTime engineOrder ls s Hperm), readAllSales_elem.
    reflexivity. }
  split; [exact Helem |]. split; [| split].
  - intros Hdates.
    assert (Hall : Forall (fun s => exists t, getTime (Sale.createdAt s) = Some t)
                          (LocalManager.sortedSales getTime engineOrder ls)).
    { apply Forall_forall. intros s Hs. apply Helem in Hs as [Hst Hs].
      apply Hdates; assumption. }
    revert Hall. unfold LocalManager.sortedSales.
    set (submitted := filter (fun s => Sale.status s ≠ DRAFT) (LocalManager.readAllSales ls)).
    destruct (forallb (LocalManager.isDate getTime) submitted) eqn:Hb.
    + intros Hall.
      refine (Sorted_dates _ _ _ _ _ Hall (sortDesc_Sorted _ submitted)).
      intros a b [ta Ha] [tb Hb'] Hab. exists ta, tb.
      rewrite Ha, Hb' in Hab. auto.
    + intros Hall. exfalso.
      assert (Hsub : Forall (fun s => exists t, getTime (Sale.createdAt s) = Some t) submitted).
      { apply Forall_forall. intros s Hs.
        apply (proj1 (Forall_forall _ _) Hall). rewrite Hperm. exact Hs. }
      assert (Htrue : forallb (LocalManager.isDate getTime) submitted = true).
      { apply forallb_forall. intros s Hs. unfold LocalManager.isDate.
        apply list_elem_of_In in Hs.
        destruct (proj1 (Forall_forall _ _) Hsub s Hs) as [t ->]. reflexivity. }
      congruence.
  - reflexivity.
  - intros i Hi. apply list_elem_of_fmap in Hi as (s & -> & Hs). apply Hseen. exact Hs.
Qed.

Lemma local_reload_lists_submitted_sales_and_regressions_witness :
  let ls := [(lit "nexus_sales_3", Some [saleOfRow Sample.returnedRow;
                                         saleOfRow Sample.draftRow])] in
  let st' := Sample.localState ls in
  saleOfRow Sample.returnedRow ∈ LocalManager.sales st'
  /\ Sorted (fun a b => exists ta tb,
                 Sample.parse (Sale.createdAt a) = Some ta
                 /\ Sample.parse (Sale.createdAt b) = Some tb /\ (tb <= ta)%Z)
            (LocalManager.sales st').
Proof.
  destruct (local_reload_lists_submitted_sales_and_regressions
              Sample.parse Sample.engineOrder
              [(lit "nexus_sales_3", Some [saleOfRow Sample.returnedRow;
                                           saleOfRow Sample.draftRow])]
              LocalManager.initialState
              (fun l => reflexivity l))
    as (Hlisted & Hsorted & _).
  split.
  - apply Hlisted. split; [discriminate |].
    exists (lit "nexus_sales_3"), [saleOfRow Sample.returnedRow; saleOfRow Sample.draftRow].
    split; [left |]. split; [reflexivity | left].
  - apply Hsorted. intros s _ _. eexists. reflexivity.
Defined.

(** A creation time that is no date: the list is in the order the engine
    leaves, whatever the other creation times are; here an engine that
    leaves the array reversed. *)
Example creation_time_that_is_no_date :
  let getTime (s : jsstring) :=
    if bool_decide (s = lit "n/a") then None else Some (Z.of_nat (length s)) in
  let sale (i created : string) :=
    Sale.mk (lit i) (lit "3") (lit "Ana Vendedora") Sample.form IN_PROGRESS
            (Some [Sample.entry IN_PROGRESS Sample.ana]) (lit created) None in
  let ls := [(lit "nexus_sales_3",
              Some [sale "a" "2024-06-01T09:00:00.000Z"; sale "b" "2024-01-01";
                    sale "c" "n/a"])] in
  Sale.id <$> LocalManager.sortedSales getTime (@rev Sale.t) ls
  = [lit "c"; lit "b"; lit "a"].
Proof. vm_compute. reflexivity. Qed.

Example reload_skips_a_value_that_does_not_parse :
  let ls := [(lit "nexus_sales_9", None);
             (lit "nexus_sales_3", Some [saleOfRow Sample.returnedRow;
                                         saleOfRow Sample.draftRow]);
             (lit "nexus_users", Some [saleOfRow Sample.finishedRow])] in
  let st' := Sample.localState ls in
  map Sale.status (LocalManager.sales st') = [IN_PROGRESS]
  /\ LocalManager.regressions st' = [Sample.saleId].
Proof. vm_compute. split; reflexivity. Qed.

(** ** Regression alerts (C9) *)

(** C9 fails on the code.  Under the shell every toast mounts the dashboard
    again, with an empty seen-set.  A stored sale that is a regression (in
    progress, with an approval in its history) is therefore alerted about by
    every mount, each of these alerts brings the next mount, and the first
    [n] mounts raise at least [n] alerts about that one sale, for every [n].
    The seen-set itself does what it is meant to do: were the mounted
    dashboard kept, its next reload would raise no alert about the sale.
    The engine's sort is assumed to permute the array it is given. *)
Theorem regression_alert_on_every_mount
    (getTime : jsstring -> option Z) (engineOrder : list Sale.t -> list Sale.t)
    (ls : LocalManager.LocalStorage) (k : jsstring) (v : list Sale.t) (sale : Sale.t) :
  (forall l, engineOrder l ≡ₚ l) ->
  (k, Some v) ∈ ls ->
  startsWith (lit "nexus_sales_") k = true ->
  sale ∈ v ->
  Sale.status sale = IN_PROGRESS ->
  LocalManager.hasBeenApproved sale = true ->
  let mounted := LocalManager.mount getTime engineOrder ls in
  Sale.id sale ∈ LocalManager.alertedIds (snd mounted)
  /\ (Sale.id sale
      ∉ LocalManager.alertedIds
          (snd (LocalManager.loadAllSales getTime engineOrder ls (fst mounted))))
  /\ (forall n,
        (n <= length (filter (fun i => i = Sale.id sale)
                             (LocalManager.alertedIds
                                (LocalManager.mounts getTime engineOrder n ls))))%nat).
Proof.
  intros Hperm Hkv Hkey Hv Hst Happ mounted.
  assert (Hin : sale ∈ LocalManager.readAllSales ls)
    by (apply readAllSales_elem; exists k, v; auto).
  destruct (loadAllSales_alerts getTime engineOrder ls LocalManager.initialState sale
                                Hperm Hin Hst Happ) as [Hseen Halert].
  assert (Hfirst : Sale.id sale ∈ LocalManager.alertedIds (snd mounted))
    by (apply Halert; cbn; set_solver).
  split; [exact Hfirst |]. split.
  - pose proof (loadAllSales_fresh getTime engineOrder ls (fst mounted)) as (_ & Hnew & _).
    intros Hagain. exact (Hnew _ Hagain Hseen).
  - induction n as [| n IH]; [lia |].
    cbn [LocalManager.mounts]. fold mounted.
    destruct (snd mounted) as [| t raised] eqn:Hraised; [inversion Hfirst |].
    rewrite <- Hraised. unfold LocalManager.alertedIds. rewrite omap_app.
    fold (LocalManager.alertedIds (snd mounted)).
    fold (LocalManager.alertedIds (LocalManager.mounts getTime engineOrder n ls)).
    rewrite filter_app, length_app.
    pose proof (filter_eq_elem _ _ Hfirst) as Hone. rewrite <- Hraised in Hone. lia.
Qed.

Lemma regression_alert_on_every_mount_witness :
  let ls := Sample.localStorageOf Sample.returnedRow in
  (3 <= length (filter (fun i => i = Sample.saleId)
                       (LocalManager.alertedIds
                          (LocalManager.mounts Sample.parse Sample.engineOrder 3 ls))))%nat.
Proof.
  refine (proj2 (proj2 (regression_alert_on_every_mount
                          Sample.parse Sample.engineOrder
                          (Sample.localStorageOf Sample.returnedRow)
                          (lit "nexus_sales_3") [saleOfRow Sample.returnedRow]
                          (saleOfRow Sample.returnedRow) _ _ _ _ _ _)) 3%nat).
  - intros l. reflexivity.
  - vm_compute. right. left.
  - reflexivity.
  - left.
  - reflexivity.
  - reflexivity.
Defined.

(** The manager opens the dashboard while the storage holds one sale that
    was returned after an approval: the first three mounts raise the alert
    three times, and nothing else. *)
Example one_returned_sale_alerts_at_every_mount :
  LocalManager.mounts Sample.parse Sample.engineOrder 3
                      (Sample.localStorageOf Sample.returnedRow)
  = [(AlertaRegressao Sample.saleId, warning); (AlertaRegressao Sample.saleId, warning);
     (AlertaRegressao Sample.saleId, warning)].
Proof. vm_compute. reflexivity. Qed.

(** Without a regression in the storage the first mount raises no toast and
    is the only one. *)
Example no_regression_no_second_mount :
  LocalManager.mounts Sample.parse Sample.engineOrder 3
                      (Sample.localStorageOf Sample.inProgressRow)
  = [].
Proof. vm_compute. reflexivity. Qed.

(** ** What a status change leaves alone *)

Lemma getItem_setItem (k : jsstring) (v : list Sale.t) (ls : LocalManager.LocalStorage) :
  LocalManager.getItem k (LocalManager.setItem k v ls) = Some (Some v).
Proof.
  unfold LocalManager.getItem, LocalManager.setItem.
  destruct (existsb _ ls) eqn:Hex.
  - induction ls as [| [k' o] ls IH]; [discriminate |]. simpl in *.
    destruct (bool_decide (k' = k)) eqn:E; simpl.
    + rewrite bool_decide_eq_true_2 by reflexivity. reflexivity.
    + rewrite E. apply IH. exact Hex.
  - induction ls as [| [k' o] ls IH]; simpl in *.
    + rewrite bool_decide_eq_true_2 by reflexivity. reflexivity.
    + apply orb_false_iff in Hex as [E Hex]. rewrite E. apply IH. exact Hex.
Qed.

Lemma getItem_setItem_other (k k' : jsstring) (v : list Sale.t)
    (ls : LocalManager.LocalStorage) :
  k <> k' ->
  LocalManager.getItem k' (LocalManager.setItem k v ls) = LocalManager.getItem k' ls.
Proof.
  intros Hne. unfold LocalManager.getItem, LocalManager.setItem.
  destruct (existsb _ ls) eqn:Hex; clear Hex.
  - induction ls as [| [k0 o] ls IH]; [reflexivity |]. simpl.
    destruct (bool_decide (k0 = k)) eqn:E; simpl.
    + apply bool_decide_eq_true in E. subst k0.
      rewrite !bool_decide_eq_false_2 by exact Hne. exact IH.
    + destruct (bool_decide (k0 = k')); [reflexivity | exact IH].
  - induction ls as [| [k0 o] ls IH]; simpl.
    + rewrite bool_decide_eq_false_2 by exact Hne. reflexivity.
    + destruct (bool_decide (k0 = k')); [reflexivity | exact IH].
Qed.

(** X15.  A status change on the localStorage dashboard touches one sale.
    When it goes through, the only key written is the one of the sale's
    seller; every other key holds what it held; under the seller's key the
    list has the same length, the sales of another identity are the ones
    that were there, and every sale of the changed identity is the updated
    sale. *)
Theorem local_status_change_touches_one_sale
    (getTime : jsstring -> option Z) (engineOrder : list Sale.t -> list Sale.t)
    (c : LocalManager.Ctx)
    (st : LocalManager.State) (ls : LocalManager.LocalStorage)
    (id : jsstring) (newStatus : SaleStatus) (reason : option jsstring)
    (sale : Sale.t) (ownerSales : list Sale.t) :
  App.hasPermission (LocalManager.auth c) (LocalManager.permissions c) APPROVE_SALES = true ->
  List.find (fun s => bool_decide (Sale.id s = id)) (LocalManager.sales st) = Some sale ->
  isRegressionOf (Sale.status sale) newStatus && reasonMissing reason = false ->
  default (Some []) (LocalManager.getItem (LocalManager.storageKey sale) ls)
  = Some ownerSales ->
  exists o stored,
    LocalManager.handleUpdateStatus getTime engineOrder c st ls id newStatus reason
    = LocalManager.Done o
    /\ LocalManager.getItem (LocalManager.storageKey sale) (LocalManager.storage o)
       = Some (Some stored)
    /\ (forall k, LocalManager.storageKey sale <> k ->
        LocalManager.getItem k (LocalManager.storage o) = LocalManager.getItem k ls)
    /\ length stored = length ownerSales
    /\ (forall n os, ownerSales !! n = Some os -> Sale.id os <> id ->
        stored !! n = Some os)
    /\ (forall x, x ∈ stored -> Sale.id x = id ->
        x = LocalManager.updatedSale c sale newStatus reason).
Proof.
  intros Hperm Hfind Hok Hget.
  destruct (LocalManager_handleUpdateStatus_passes
              getTime engineOrder _ _ _ _ _ _ _ _ Hperm Hfind Hok Hget)
    as (o & Hdone & _ & Hstorage & _).
  exists o,
    (LocalManager.updatedOwnerSales
       id (LocalManager.updatedSale c sale newStatus reason) ownerSales).
  split; [exact Hdone |]. rewrite Hstorage.
  split; [apply getItem_setItem |].
  split; [intros k Hk; apply getItem_setItem_other; exact Hk |].
  unfold LocalManager.updatedOwnerSales.
  split; [apply length_map |]. split.
  - intros n os Hn Hne. rewrite list_lookup_fmap, Hn. simpl.
    rewrite bool_decide_eq_false_2 by exact Hne. reflexivity.
  - intros x Hx Hid. apply list_elem_of_fmap in Hx as (os & -> & _).
    destruct (bool_decide (Sale.id os = id)) eqn:E; [reflexivity |].
    apply bool_decide_eq_false in E. contradiction.
Qed.

Lemma local_status_change_touches_one_sale_witness :
  exists o stored,
    LocalManager.handleUpdateStatus
      Sample.parse Sample.engineOrder Sample.localCtx
      (Sample.localState (Sample.localStorageOf Sample.inProgressRow))
      (Sample.localStorageOf Sample.inProgressRow)
      Sample.saleId ANALYZED None
    = LocalManager.Done o
    /\ LocalManager.getItem (lit "nexus_sales_3") (LocalManager.storage o)
       = Some (Some stored)
    /\ length stored = 1%nat.
Proof.
  destruct (local_status_change_touches_one_sale
              Sample.parse Sample.engineOrder Sample.localCtx
              (Sample.localState (Sample.localStorageOf Sample.inProgressRow))
              (Sample.localStorageOf Sample.inProgressRow)
              Sample.saleId ANALYZED None
              (saleOfRow Sample.inProgressRow) [saleOfRow Sample.inProgressRow]
              eq_refl eq_refl eq_refl eq_refl)
    as (o & stored & Hdone & Hget & _ & Hlen & _).
  exists o, stored. split; [exact Hdone | split; [exact Hget | exact Hlen]].
Defined.

(** ** After the store accepts *)

Lemma loadData_lists_own_rows
    (getTime : jsstring -> Z) (user : User.t) (tbl : Store.Table)
    (st : Seller.State) (r : Row.t) :
  r ∈ tbl -> Row.seller_id r = User.id user ->
  saleOfRow r ∈ Seller.sales (Seller.loadData getTime true user tbl st).
Proof.
  intros Hr Hown. unfold Seller.loadData. cbn [Seller.sales].
  apply list_elem_of_fmap_2.
  unfold Store.select_eq_seller_id, Store.order_created_at_desc.
  rewrite sortDesc_perm. apply list_elem_of_filter. auto.
Qed.

(** X17.  After a deletion the store has accepted, the seller's list is
    reloaded without the sale: it holds exactly the seller's own stored
    sales of another identity, the modal is closed and the form is blank. *)
Theorem deleted_sale_leaves_the_list
    (getTime : jsstring -> Z) (user : User.t)
    (st : Seller.State) (tbl : Store.Table) (draftId : jsstring) :
  let o := Seller.handleDeleteDraft getTime user true true true st tbl draftId in
  (forall s, s ∈ Seller.sales (state o) <->
     exists r, r ∈ tbl /\ Row.id r <> draftId /\ Row.seller_id r = User.id user
               /\ s = saleOfRow r)
  /\ Seller.showModal (state o) = false
  /\ Seller.editingSaleId (state o) = None
  /\ Seller.formData (state o) = CustomerData.initial.
Proof.
  intros o. subst o. unfold Seller.handleDeleteDraft. cbn [state Seller.sales
    Seller.showModal Seller.editingSaleId Seller.formData].
  split; [| repeat split].
  intros s. unfold Seller.loadData. cbn [Seller.sales].
  rewrite list_elem_of_fmap. unfold Store.select_eq_seller_id,
    Store.order_created_at_desc, Store.delete.
  split.
  - intros (r & -> & Hr). rewrite sortDesc_perm in Hr.
    apply list_elem_of_filter in Hr as [Hown Hr].
    apply list_elem_of_filter in Hr as [Hid Hr]. exists r. auto.
  - intros (r & Hr & Hid & Hown & ->). exists r. split; [reflexivity |].
    rewrite sortDesc_perm. apply list_elem_of_filter. split; [exact Hown |].
    apply list_elem_of_filter. auto.
Qed.

Lemma upsert_returns_a_stored_row
    (newId : Store.Table -> jsstring) (p : Payload.t) (tbl : Store.Table) :
  let r := snd (Store.upsert newId p tbl) in
  r ∈ fst (Store.upsert newId p tbl)
  /\ Row.seller_id r = Payload.seller_id p
  /\ Row.customer_data r = Payload.customer_data p
  /\ Row.status r = Payload.status p
  /\ (forall i, Payload.id p = Some i -> Row.id r = i)
  /\ (Payload.return_reason p = Some None -> Row.return_reason r = None).
Proof.
  unfold Store.upsert. destruct (Payload.id p) as [i |] eqn:Hid.
  - destruct (Store.lookup i tbl) as [x |] eqn:Hx; cbn [fst snd].
    + unfold Store.lookup in Hx. apply find_Some_elem in Hx as [Hin Hi].
      split; [| repeat split].
      * apply list_elem_of_fmap. exists x. rewrite Hi. auto.
      * intros j [= <-]. apply bool_decide_eq_true in Hi. exact Hi.
      * intros Hrr. cbn. rewrite Hrr. reflexivity.
    + split; [apply elem_of_app; right; left | repeat split].
      * intros j [= <-]. reflexivity.
      * intros Hrr. cbn. rewrite Hrr. reflexivity.
  - cbn [fst snd]. split; [apply elem_of_app; right; left | repeat split].
    + discriminate.
    + intros Hrr. cbn. rewrite Hrr. reflexivity.
Qed.

(** X18.  After a submission the store has accepted, the seller's reloaded
    list shows the sale: in progress, under the seller's identity, with the
    data of the form and no return reason, and under the identity the form
    was editing when it had one.  The modal is closed and the form is
    blank. *)
Theorem submitted_sale_is_listed_in_progress
    (getTime : jsstring -> Z) (newId : Store.Table -> jsstring)
    (user : User.t) (now : jsstring) (st : Seller.State) (tbl : Store.Table) :
  Seller.isReadOnly st = false ->
  let o := Seller.handleCreateSale getTime newId user now true true true st tbl in
  (exists s,
      s ∈ Seller.sales (state o)
      /\ Sale.status s = IN_PROGRESS
      /\ Sale.sellerId s = User.id user
      /\ Sale.customerData s = Seller.formData st
      /\ Sale.returnReason s = None
      /\ (forall i, Seller.editingSaleId st = Some i -> Sale.id s = i))
  /\ toasts o = [(FichaEnviada, success)]
  /\ Seller.showModal (state o) = false
  /\ Seller.editingSaleId (state o) = None
  /\ Seller.formData (state o) = CustomerData.initial.
Proof.
  intros Hro o. subst o.
  rewrite Seller_handleCreateSale_submits by exact Hro. cbv zeta.
  cbn [state toasts Seller.sales Seller.showModal Seller.editingSaleId Seller.formData].
  split; [| repeat split].
  destruct (upsert_returns_a_stored_row newId (Seller.submitPayload user now st) tbl)
    as (Hin & Hseller & Hdata & Hstatus & Hid & Hrr).
  exists (saleOfRow (snd (Store.upsert newId (Seller.submitPayload user now st) tbl))).
  split; [apply loadData_lists_own_rows; [exact Hin | exact Hseller] |].
  cbn [saleOfRow Sale.status Sale.sellerId Sale.customerData Sale.returnReason Sale.id].
  split; [exact Hstatus |]. split; [exact Hseller |]. split; [exact Hdata |].
  split; [apply Hrr; reflexivity |].
  intros i Hi. apply Hid. exact Hi.
Qed.

Lemma submitted_sale_is_listed_in_progress_witness :
  let o := Seller.handleCreateSale
             Sample.getTime Sample.newId Sample.ana Sample.now true true true
             (Seller.mkState [] true None Sample.form false) [] in
  exists s,
    s ∈ Seller.sales (state o)
    /\ Sale.status s = IN_PROGRESS
    /\ Sale.sellerId s = User.id Sample.ana.
Proof.
  intros o.
  destruct (submitted_sale_is_listed_in_progress
              Sample.getTime Sample.newId Sample.ana Sample.now
              (Seller.mkState [] true None Sample.form false) [] eq_refl)
    as ((s & Hin & Hst & Hown & _) & _).
  exists s. split; [exact Hin | split; [exact Hst | exact Hown]].
Defined.

(** X19.  A new form gets one row.  The first autosave of a form that edits
    no sale inserts a row and adopts the identity the store gave it; the
    next autosave is sent under that identity and rewrites the same row, so
    that the table has grown by one row only. *)
Theorem autosave_adopts_the_new_identity
    (newId : Store.Table -> jsstring) (user : User.t) (now1 now2 : jsstring)
    (st : Seller.State) (tbl : Store.Table) :
  Seller.showModal st = true ->
  Seller.editingSaleId st = None ->
  truthy (CustomerData.nome (Seller.formData st))
  || truthy (CustomerData.cpf (Seller.formData st)) = true ->
  Store.lookup (newId tbl) tbl = None ->
  List.find (fun s => bool_decide (Sale.id s = newId tbl)) (Seller.sales st) = None ->
  startsWith (lit "TMP_") (newId tbl) = false ->
  newId tbl <> [] ->
  let o1 := Seller.autosave newId user now1 true st tbl in
  let o2 := Seller.autosave newId user now2 true (state o1) (table o1) in
  Seller.editingSaleId (state o1) = Some (newId tbl)
  /\ length (table o1) = S (length tbl)
  /\ (exists p, writes o2 = [Store.Upsert p] /\ Payload.id p = Some (newId tbl))
  /\ length (table o2) = S (length tbl)
  /\ Seller.editingSaleId (state o2) = Some (newId tbl)
  /\ (exists row, Store.lookup (newId tbl) (table o2) = Some row
                  /\ Row.created_at row = now2).
Proof.
  intros Hshow Hedit Hfilled Hfresh Hunlisted Htmp Hid o1 o2.
  set (p1 := Seller.autosavePayload user now1 st).
  set (row1 := Store.rowOfPayload (newId tbl) p1).
  assert (Ho1 : o1 = mkOutcome
                       (Seller.mkState (Seller.sales st) true (Some (newId tbl))
                                       (Seller.formData st) (Seller.isLoading st))
                       (tbl ++ [row1]) [Store.Upsert p1] []).
  { subst o1. unfold Seller.autosave, Seller.isReadOnly.
    rewrite Hshow, Hedit. cbn [truthyO negb orb]. rewrite Hfilled.
    unfold Store.upsert.
    replace (Payload.id (Seller.autosavePayload user now1 st)) with (@None jsstring)
      by (unfold Seller.autosavePayload; rewrite Hedit; reflexivity).
    reflexivity. }
  set (st1 := Seller.mkState (Seller.sales st) true (Some (newId tbl))
                             (Seller.formData st) (Seller.isLoading st)) in *.
  set (p2 := Seller.autosavePayload user now2 st1).
  assert (Hp2 : Payload.id p2 = Some (newId tbl))
    by (subst p2; unfold Seller.autosavePayload, Seller.autosaveId;
        cbn [Payload.id st1 Seller.editingSaleId]; rewrite Htmp; reflexivity).
  assert (Hlook : Store.lookup (newId tbl) (tbl ++ [row1]) = Some row1).
  { unfold Store.lookup in *. rewrite (find_app_None _ _ _ Hfresh).
    cbn [List.find row1 Store.rowOfPayload Row.id].
    rewrite bool_decide_eq_true_2 by reflexivity. reflexivity. }
  assert (Ho2 : o2 = mkOutcome
                       st1
                       (map (fun x => if bool_decide (Row.id x = newId tbl)
                                      then Store.applyPayload p2 x else x)
                            (tbl ++ [row1]))
                       [Store.Upsert p2] []).
  { subst o2. rewrite Ho1. cbn [state table]. unfold Seller.autosave, Seller.isReadOnly.
    unfold Seller.findEditing. cbn [st1 Seller.showModal Seller.editingSaleId
      Seller.sales Seller.formData Seller.isLoading truthyO].
    rewrite Hunlisted.
    assert (Ht : truthy (newId tbl) = true) by (destruct (newId tbl); [congruence | reflexivity]).
    rewrite Ht. cbn [negb orb]. rewrite Hfilled.
    fold st1. fold p2. unfold Store.upsert. rewrite Hp2, Hlook. reflexivity. }
  rewrite Ho2, Ho1. cbn [state table writes Seller.editingSaleId st1].
  split; [reflexivity |]. split; [rewrite length_app; simpl; lia |].
  split; [exists p2; split; [reflexivity | exact Hp2] |].
  split; [rewrite length_map, length_app; simpl; lia |].
  split; [reflexivity |].
  rewrite lookup_replace by reflexivity. rewrite Hlook.
  eexists. split; reflexivity.
Qed.

Lemma autosave_adopts_the_new_identity_witness :
  let st := Seller.mkState [] true None Sample.form false in
  let o1 := Seller.autosave Sample.newId Sample.ana Sample.now true st [] in
  let o2 := Seller.autosave Sample.newId Sample.ana (lit "2024-05-02T10:00:09.000Z") true
                            (state o1) (table o1) in
  length (table o2) = 1%nat
  /\ Seller.editingSaleId (state o2) = Some (lit "row-0").
Proof.
  intros st o1 o2.
  destruct (autosave_adopts_the_new_identity
              Sample.newId Sample.ana Sample.now (lit "2024-05-02T10:00:09.000Z")
              st [] eq_refl eq_refl eq_refl eq_refl eq_refl eq_refl ltac:(discriminate))
    as (_ & _ & _ & Hlen & Hid & _).
  split; [exact Hlen | exact Hid].
Defined.
